(** * my-shop: the Telegram ordering bot of [tg_bot.py]

    A shallow embedding of the dialogue engine, the Strapi clients (catalog,
    cart, contact) and the session store of [src/tg_bot.py], with the
    properties of the specification stated and proved over it.

    Conventions of the embedding.
    - A Python [str] is a list of Unicode code points ([list N]).
    - A Python [float] is a binary64 floating-point number ([float], the
      primitive type of Rocq): [+], [*], [<=] and [==] are the IEEE 754
      operations, rounding to nearest even as Python does.  A JSON number of
      the backend stands for the [float] that [float(...)] makes of it.
    - A JSON object read with [.get(key)] is a Rocq record of optional fields;
      [None] stands for a key that is missing or [null].  Where the code tells
      the two apart ([.get(key, default)]) the field is a [field]; where it
      tests the truth value of the object itself, the record says whether the
      object holds a key at all.
    - Every call that leaves the process (an HTTP request to Strapi, a call of
      the Telegram API, a log record) is an [action] of a small free monad
      [prog]; an environment answers the actions.  Exceptions are the
      [Raise] leaf, [try]/[except] is [try_except].
    - The body of an HTTP answer is taken as the decoded JSON envelope of the
      backend; what the code reads of it ([data]) is the payload of the
      answer.
    - The texts sent to the user are constructors of [text], each documented
      with the literal of the source. *)

From Stdlib Require Import ZArith List String Ascii Lia Floats.
From Stdlib Require Import DecimalString DecimalZ.
From stdpp Require Import base gmap list.

Local Open Scope Z_scope.

(** ** Python strings *)

Module PyStr.

Abbreviation pystr := (list N).

(** An ASCII literal of the source. *)
Definition lit (s : string) : pystr :=
  List.map N_of_ascii (list_ascii_of_string s).

Definition eqb (a b : pystr) : bool := bool_decide (a = b).

(** [s.startswith(p)] *)
Fixpoint startswith (p s : pystr) : bool :=
  match p, s with
  | [], _ => true
  | _ :: _, [] => false
  | c :: p', d :: s' => N.eqb c d && startswith p' s'
  end.

(** [c in s] for a one-character needle [c]. *)
Fixpoint contains (c : N) (s : pystr) : bool :=
  match s with
  | [] => false
  | d :: s' => N.eqb c d || contains c s'
  end.

(** [str.isspace] on one code point: the characters of bidirectional type
    WS, B or S and of category Zs. *)
Definition isspace (c : N) : bool :=
  ((9 <=? c) && (c <=? 13) || (28 <=? c) && (c <=? 32)
   || (c =? 133) || (c =? 160) || (c =? 5760)
   || (8192 <=? c) && (c <=? 8202)
   || (c =? 8232) || (c =? 8233) || (c =? 8239) || (c =? 8287)
   || (c =? 12288))%N.

Fixpoint lstrip (s : pystr) : pystr :=
  match s with
  | [] => []
  | c :: s' => if isspace c then lstrip s' else s
  end.

Definition rstrip (s : pystr) : pystr := rev (lstrip (rev s)).

(** [s.strip()] *)
Definition strip (s : pystr) : pystr := rstrip (lstrip s).

(** The part after the first [c]: [s.split(c, 1)[1]];
    [None] is the [IndexError] when [c] does not occur. *)
Fixpoint after_first (c : N) (s : pystr) : option pystr :=
  match s with
  | [] => None
  | d :: s' => if N.eqb c d then Some s' else after_first c s'
  end.

(** The part after the last [c]: [s.rsplit(c, 1)[1]]. *)
Fixpoint after_last (c : N) (s : pystr) : option pystr :=
  match s with
  | [] => None
  | d :: s' =>
      match after_last c s' with
      | Some r => Some r
      | None => if N.eqb c d then Some s' else None
      end
  end.

(** [str(n)] for an [int]. *)
Definition of_Z (n : Z) : pystr := lit (NilZero.string_of_int (Z.to_int n)).

Definition underscore : N := 95.
Definition at_sign : N := 64.
Definition dot : N := 46.

(** ["Товар #"], the prefix of the default title. *)
Definition tovar : pystr := [1058; 1086; 1074; 1072; 1088; 32; 35]%N.

End PyStr.
Import PyStr.

(** The two library functions whose full definition lies outside the program:
    the built-in [int(str)] ([None] is [ValueError]) and
    [urllib.parse.urljoin]. *)
Class PyBuiltins := {
  py_int : pystr -> option Z;
  urljoin : pystr -> pystr -> pystr
}.

(** ** Truthiness and [or] *)

Definition truthy_str (s : option pystr) : bool :=
  match s with Some (_ :: _) => true | _ => false end.

Definition truthy_int (n : option Z) : bool :=
  match n with Some n => negb (n =? 0) | None => false end.

(** A [float] is falsy when it equals zero: [0.0] and [-0.0], not [nan]. *)
Definition falsy_float (q : float) : bool := PrimFloat.eqb q 0%float.

(** [float(x or 0)] *)
Definition num_or_0 (x : option float) : float :=
  match x with
  | Some q => if falsy_float q then 0%float else q
  | None => 0%float
  end.

(** [f"{n}"] for an [int] or [None]. *)
Definition fmt_opt_int (n : option Z) : pystr :=
  match n with Some n => of_Z n | None => lit "None" end.

(** [x or default] on strings *)
Definition str_or (x : option pystr) (d : pystr) : pystr :=
  match x with Some (c :: s) => c :: s | _ => d end.

(** ** Records of the backend (JSON objects read with [.get]) *)

(** A key that is missing, [null], or has a value. *)
Inductive field (A : Type) := Missing | Null | Value (a : A).
Arguments Missing {A}.
Arguments Null {A}.
Arguments Value {A} a.

(** [d.get(key)] *)
Definition field_get {A} (f : field A) : option A :=
  match f with Value a => Some a | _ => None end.

(** [d.get(key, default)]: the default stands in for a missing key only. *)
Definition field_get_default {A} (f : field A) (d : A) : option A :=
  match f with Missing => Some d | Null => None | Value a => Some a end.

Definition present {A} (x : option A) : bool :=
  match x with Some _ => true | None => false end.

Record picture_format := { fmt_url : option pystr }.

(** [picture]: its [url] and the derived renditions under [formats].  A
    rendition that is missing, [null] or an empty object is [None]. *)
Record picture_obj := {
  pic_url : option pystr;
  pic_medium : option picture_format;
  pic_small : option picture_format
}.

(** The [picture] field: a JSON object, or another truthy value (such as a
    list of media), for which [isinstance(picture, dict)] is false. *)
Inductive picture := PicDict (p : picture_obj) | PicOther.

Record product_data := {
  pd_id : field Z;
  pd_title : option pystr;
  pd_description : option pystr;
  pd_price : option float;
  pd_qty_kg : option float;
  pd_picture : option picture
}.

(** The product as [get_product_by_id] returns it; its [id] is [None] when
    the record has [null] there. *)
Record product := {
  p_id : option Z;
  p_title : pystr;
  p_description : pystr;
  p_price : float;
  p_image_url : pystr;
  p_qty_kg : option float
}.

(** A cart record.  [cart_more]: the object holds a key besides [id] and
    [tg_id] with a value, so that it is not empty even without these. *)
Record cart := {
  cart_id : option Z;
  cart_tg_id : option pystr;
  cart_more : bool
}.

(** An object is falsy when it holds no key at all. *)
Definition nonempty_cart (c : cart) : bool :=
  present (cart_id c) || present (cart_tg_id c) || cart_more c.

(** The truth value of [carts[0] if carts else None]. *)
Definition truthy_cart (c : option cart) : bool :=
  match c with Some c => nonempty_cart c | None => false end.

Record cart_item := {
  ci_id : option Z;
  ci_documentId : option pystr;
  ci_qty_kg : option float;
  ci_product : option product_data
}.

Record client := { client_id : option Z }.

Record strapi_config := { base_url : pystr; api_token : option pystr }.

(** ** What the bot sends *)

Record cart_line := {
  cl_idx : Z;
  cl_title : pystr;
  cl_qty : float;
  cl_price : float;
  cl_subtotal : float
}.

Inductive text :=
| TxtHello            (* "Привет! Выбери рыбу из меню:" *)
| TxtChoose           (* "Выбери рыбу из меню:" *)
| TxtPressStart       (* "Нажми /start, чтобы увидеть меню." *)
| TxtNoProducts       (* "Пока нет доступных товаров." *)
| TxtUnknownProduct   (* "Не понял, какой товар выбран" *)
| TxtNoProductData    (* "Не удалось получить данные о товаре." *)
| TxtCard (title : pystr) (price : float) (description : pystr)
                      (* the caption of the product card, cut after 1000
                         characters when longer than 1024 *)
| TxtUseCardButtons   (* "Используй кнопки под карточкой товара или /start." *)
| TxtUnknownAdd       (* "Не понял, что добавить" *)
| TxtProductGone      (* "Товар больше не доступен" *)
| TxtAdded (product_id : Z) (qty : float)
                      (* "Товар #{product_id}: +{qty_val} кг добавлено в корзину." *)
| TxtAddFailed        (* "Не удалось добавить в корзину, попробуй ещё раз позже." *)
| TxtCartEmpty        (* "Ваша корзина пока пуста." *)
| TxtCart (lines : list cart_line) (total : float)
                      (* "Ваша корзина:", one entry per line, "Итого: {total:.2f}" *)
| TxtUseCartButtons   (* "Используй кнопки внизу корзины." *)
| TxtAskEmail         (* "Введите, пожалуйста, ваш e-mail для связи:" *)
| TxtRemoved          (* "Товар удалён из корзины" *)
| TxtAlreadyRemoved   (* "Позиция уже была удалена." *)
| TxtRemoveFailed     (* "Не удалось удалить товар, попробуй ещё раз позже." *)
| TxtSendEmailAsText  (* "Пожалуйста, отправьте ваш e-mail обычным сообщением." *)
| TxtNotEmail         (* "Похоже, это не e-mail. Отправьте, пожалуйста, почту ещё раз." *)
| TxtThanks (email : pystr)
                      (* "Спасибо! Мы записали вашу почту: {email}" *)
| TxtContinue.        (* "Можешь продолжить покупки:" *)

Inductive label :=
| LblNoProducts       (* "Нет доступных товаров" *)
| LblMyCart           (* "Моя корзина" *)
| LblTitle (title : pystr)
| LblAddToCart        (* "Добавить в корзину" *)
| LblBackToMenu       (* "Назад к меню" *)
| LblMenu             (* "В меню" *)
| LblRemove (title20 : pystr)   (* "Убрать: {title[:20]}…" *)
| LblPay              (* "Оплатить" *)
| LblBackMenu.        (* "⬅️ В меню" *)

Record button := { btn_label : label; callback_data : pystr }.

Definition keyboard := list (list button).

(** ** Actions: the calls that leave the process *)

Inductive request :=
| GetProducts (id_eq : option Z)
| GetImage (url : pystr)
| GetCarts (tg_id : pystr)
| PostCart (tg_id : pystr)
| FindCartItems (cart_id : option Z) (product_id : Z)
| ListCartItems (cart_id : option Z)
| PostCartItem (cart_id : option Z) (product_id : Z) (qty : float)
| PutCartItem (item_id : pystr) (qty : float)
| DeleteCartItem (item_id : pystr)
| GetClients (tg_id : pystr)
| PostClient (tg_id : pystr) (email : pystr)
| PutClient (client_id : Z) (email : pystr).

(** What the code reads of the answer: for a collection
    [response.json().get("data") or []], for one record
    [response.json().get("data")]. *)
Definition payload (r : request) : Type :=
  match r with
  | GetProducts _ => list product_data
  | GetImage _ => list N
  | GetCarts _ => list cart
  | PostCart _ => option cart
  | FindCartItems _ _ | ListCartItems _ => list cart_item
  | PostCartItem _ _ _ | PutCartItem _ _ => option cart_item
  | DeleteCartItem _ => unit
  | GetClients _ => list client
  | PostClient _ _ | PutClient _ _ => option client
  end.

(** [ConnError]: [requests] raised (time-out, refused connection). *)
Inductive http_result (D : Type) :=
| ConnError
| Response (status : Z) (data : D).
Arguments ConnError {D}.
Arguments Response {D} status data.

Inductive tg_call :=
| AnswerCallback
| ReplyText (chat : Z) (t : text) (kb : option keyboard)
| SendMessage (chat : Z) (t : text) (kb : option keyboard)
| EditText (chat : Z) (message_id : Z) (t : text) (kb : option keyboard)
| DeleteMessage (chat : Z) (message_id : Z)
| SendPhoto (chat : Z) (photo : list N) (t : text) (kb : option keyboard).

(** The Telegram API raised ([not_modified]: with "Message is not modified"
    in its message), or returned the message it sent. *)
Inductive tg_result :=
| TgError (not_modified : bool)
| TgOk (message_id : Z).

Inductive level := Info | Warning | Error | Exception.

Inductive log_site :=
| LogProducts | LogProductNotFound | LogProduct
| LogCartGet | LogCartCreate | LogItemFind | LogItemCreate
| LogItemUpdateNotFound | LogItemUpdate | LogItemDeleteNotFound | LogItemDelete
| LogCartItemsGet | LogClientFind | LogClientCreate | LogClientUpdate
| LogMenuDelete | LogPhoto | LogCardDelete | LogAddToCart
| LogShowCart | LogCartNotModified | LogCartEdit | LogRemove
| LogClientSave | LogEmail | LogHandler.

Inductive action :=
| Http (r : request)
| Tg (c : tg_call)
| Log (l : level) (s : log_site).

Definition result (a : action) : Type :=
  match a with
  | Http r => http_result (payload r)
  | Tg _ => tg_result
  | Log _ _ => unit
  end.

Inductive exn :=
| HTTPError (status : Z)
| RequestException
| TelegramError (not_modified : bool)
| ValueError
| IndexError
| AttributeError.

(** ** Programs *)

Inductive prog (T : Type) : Type :=
| Ret (x : T)
| Raise (e : exn)
| Act (a : action) (k : result a -> prog T).
Arguments Ret {T} x.
Arguments Raise {T} e.
Arguments Act {T} a k.

Fixpoint bind {A B} (p : prog A) (f : A -> prog B) : prog B :=
  match p with
  | Ret x => f x
  | Raise e => Raise e
  | Act a k => Act a (fun r => bind (k r) f)
  end.

(** [try: p  except Exception as exc: h exc] *)
Fixpoint try_except {A} (p : prog A) (h : exn -> prog A) : prog A :=
  match p with
  | Ret x => Ret x
  | Raise e => h e
  | Act a k => Act a (fun r => try_except (k r) h)
  end.

Declare Scope prog_scope.
Delimit Scope prog_scope with prog.
Notation "x <- p ;; q" := (bind p (fun x => q))
  (at level 100, p at next level, right associativity) : prog_scope.
Notation "p ;; q" := (bind p (fun _ => q))
  (at level 100, right associativity) : prog_scope.
Local Open Scope prog_scope.

Definition when (b : bool) (p : prog unit) : prog unit :=
  if b then p else Ret tt.

Definition log (l : level) (s : log_site) : prog unit := Act (Log l s) Ret.

(** A [requests] call: the status and the decoded data, or the exception. *)
Definition http (r : request) : prog (Z * payload r) :=
  Act (Http r) (fun res =>
    match res with
    | ConnError => Raise RequestException
    | Response st d => Ret (st, d)
    end).

(** [response.raise_for_status()] *)
Definition raise_for_status (st : Z) : prog unit :=
  if (400 <=? st) && (st <? 600) then Raise (HTTPError st) else Ret tt.

(** A Telegram call that returns the message sent. *)
Definition tg (c : tg_call) : prog Z :=
  Act (Tg c) (fun res =>
    match res with
    | TgError nm => Raise (TelegramError nm)
    | TgOk mid => Ret mid
    end).

(** [query.answer()] *)
Definition answer : prog unit := tg AnswerCallback ;; Ret tt.

(** ** Running a program against an environment *)

Inductive event := Ev (a : action) (r : result a).

Record env := {
  world : Type;
  respond : forall a : action, world -> result a * world
}.

Inductive outcome (T : Type) :=
| Returned (x : T)
| Raised (e : exn).
Arguments Returned {T} x.
Arguments Raised {T} e.

Record run_result (E : env) (T : Type) := {
  out : outcome T;
  final : world E;
  trace : list event
}.
Arguments out {E T} r.
Arguments final {E T} r.
Arguments trace {E T} r.

Fixpoint run (E : env) {T} (p : prog T) (w : world E) : run_result E T :=
  match p with
  | Ret x => {| out := Returned x; final := w; trace := [] |}
  | Raise e => {| out := Raised e; final := w; trace := [] |}
  | Act a k =>
      let '(r, w') := respond E a w in
      let rr := run E (k r) w' in
      {| out := out rr; final := final rr; trace := Ev a r :: trace rr |}
  end.

(** The run of [p ;; k]: the run of [k] after that of [p], unless [p] raised. *)
Definition seq_result {E A B} (r1 : run_result E A)
    (k : A -> world E -> run_result E B) : run_result E B :=
  match out r1 with
  | Returned x =>
      let r2 := k x (final r1) in
      {| out := out r2; final := final r2; trace := trace r1 ++ trace r2 |}
  | Raised e => {| out := Raised e; final := final r1; trace := trace r1 |}
  end.

(** The run of [try: p except: h]. *)
Definition catch_result {E A} (r1 : run_result E A)
    (h : exn -> world E -> run_result E A) : run_result E A :=
  match out r1 with
  | Returned x => r1
  | Raised e =>
      let r2 := h e (final r1) in
      {| out := out r2; final := final r2; trace := trace r1 ++ trace r2 |}
  end.

(** Programs that never call Telegram. *)
Inductive no_tg {T} : prog T -> Prop :=
| nt_ret x : no_tg (Ret x)
| nt_raise e : no_tg (Raise e)
| nt_http r k : (forall res, no_tg (k res)) -> no_tg (Act (Http r) k)
| nt_log l s k : (forall res, no_tg (k res)) -> no_tg (Act (Log l s) k).

(** Programs that never raise. *)
Inductive no_raise {T} : prog T -> Prop :=
| nr_ret x : no_raise (Ret x)
| nr_act a k : (forall res, no_raise (k res)) -> no_raise (Act a k).

(** The HTTP requests and the Telegram calls of a trace, in order. *)
Definition requests_of (tr : list event) : list request :=
  omap (fun e => match e with Ev (Http r) _ => Some r | _ => None end) tr.

Definition tg_calls_of (tr : list event) : list tg_call :=
  omap (fun e => match e with Ev (Tg c) _ => Some c | _ => None end) tr.

Definition logs_of (tr : list event) : list (level * log_site) :=
  omap (fun e => match e with Ev (Log l s) _ => Some (l, s) | _ => None end) tr.

(** What a run gave: its outcome and the Telegram calls it made. *)
Definition yields {E A} (r : run_result E A) (o : outcome A)
    (calls : list tg_call) : Prop :=
  out r = o /\ tg_calls_of (trace r) = calls.

(** The answer a trace records for a request of one kind. *)
Definition carts_answer (e : event) : option (http_result (list cart)) :=
  match e with Ev (Http (GetCarts _)) r => Some r | _ => None end.

Definition list_items_answer (e : event)
  : option (http_result (list cart_item)) :=
  match e with Ev (Http (ListCartItems _)) r => Some r | _ => None end.

Definition find_items_answer (e : event)
  : option (http_result (list cart_item)) :=
  match e with Ev (Http (FindCartItems _ _)) r => Some r | _ => None end.

Definition put_item_answer (e : event)
  : option (http_result (option cart_item)) :=
  match e with Ev (Http (PutCartItem _ _)) r => Some r | _ => None end.

Definition delete_item_answer (e : event) : option (http_result unit) :=
  match e with Ev (Http (DeleteCartItem _)) r => Some r | _ => None end.

Definition products_answer (e : event)
  : option (http_result (list product_data)) :=
  match e with Ev (Http (GetProducts _)) r => Some r | _ => None end.

Definition answered {D} (f : event -> option D) (tr : list event) : option D :=
  head (omap f tr).

(** ** The Strapi clients *)

Definition ge400 (st : Z) : bool := 400 <=? st.

Section Clients.
Context `{PyBuiltins}.

Definition fetch_products (cfg : strapi_config) : prog (list product_data) :=
  try_except
    (r <- http (GetProducts None) ;;
     raise_for_status (fst r) ;;
     Ret (snd r))
    (fun _ => log Error LogProducts ;; Ret []).

(** The URL chosen in [picture]: [picture.get("url")], replaced by the URL
    of [formats.get("medium") or formats.get("small")] when that rendition
    has one. *)
Definition select_img_url (pic : option picture) : option pystr :=
  match pic with
  | Some PicOther => None
  | Some (PicDict p) =>
      let img_url := pic_url p in
      let medium :=
        match pic_medium p with Some m => Some m | None => pic_small p end in
      match medium with
      | Some m => if truthy_str (fmt_url m) then fmt_url m else img_url
      | None => img_url
      end
  | None => None
  end.

Definition is_absolute (u : pystr) : bool :=
  startswith (lit "http://") u || startswith (lit "https://") u.

Definition resolve_image_url (cfg : strapi_config) (img_url : option pystr)
  : pystr :=
  match img_url with
  | Some (c :: u) =>
      if is_absolute (c :: u) then c :: u else urljoin (base_url cfg) (c :: u)
  | _ => []
  end.

Definition make_product (cfg : strapi_config) (product_id : Z)
    (pd : product_data) : product :=
  {| p_id := field_get_default (pd_id pd) product_id;
     p_title := str_or (pd_title pd) (tovar ++ of_Z product_id);
     p_description := str_or (pd_description pd) [];
     p_price := num_or_0 (pd_price pd);
     p_image_url := resolve_image_url cfg (select_img_url (pd_picture pd));
     p_qty_kg := pd_qty_kg pd |}.

Definition get_product_by_id (cfg : strapi_config) (product_id : Z)
  : prog (option product) :=
  try_except
    (r <- http (GetProducts (Some product_id)) ;;
     raise_for_status (fst r) ;;
     match snd r with
     | [] => log Error LogProductNotFound ;; Ret None
     | pd :: _ => Ret (Some (make_product cfg product_id pd))
     end)
    (fun _ => log Error LogProduct ;; Ret None).

Definition no_products_row : list button :=
  [ {| btn_label := LblNoProducts; callback_data := lit "no_products" |} ].

Definition my_cart_row : list button :=
  [ {| btn_label := LblMyCart; callback_data := lit "show_cart" |} ].

(** The rows of the products that have a truthy [id]. *)
Fixpoint product_rows (products : list product_data) : keyboard :=
  match products with
  | [] => []
  | pd :: rest =>
      match field_get (pd_id pd) with
      | Some pid =>
          if pid =? 0 then product_rows rest
          else [ {| btn_label := LblTitle (str_or (pd_title pd) (tovar ++ of_Z pid));
                    callback_data := of_Z pid |} ] :: product_rows rest
      | None => product_rows rest
      end
  end.

Definition build_products_keyboard (cfg : strapi_config) : prog keyboard :=
  products <- fetch_products cfg ;;
  match products with
  | [] => Ret [no_products_row; my_cart_row]
  | _ =>
      let keyboard := product_rows products in
      let keyboard :=
        match keyboard with [] => [no_products_row] | _ => keyboard end in
      Ret (keyboard ++ [my_cart_row])
  end.

Definition get_cart_by_tg (cfg : strapi_config) (tg_id : pystr)
  : prog (option cart) :=
  r <- http (GetCarts tg_id) ;;
  when (ge400 (fst r)) (log Error LogCartGet) ;;
  raise_for_status (fst r) ;;
  Ret (head (snd r)).

Definition create_cart_for_tg (cfg : strapi_config) (tg_id : pystr)
  : prog (option cart) :=
  r <- http (PostCart tg_id) ;;
  when (ge400 (fst r)) (log Error LogCartCreate) ;;
  raise_for_status (fst r) ;;
  Ret (snd r).

Definition ensure_cart_exists (cfg : strapi_config) (tg_id : pystr)
  : prog (option cart) :=
  cart <- get_cart_by_tg cfg tg_id ;;
  if truthy_cart cart then Ret cart else create_cart_for_tg cfg tg_id.

Definition find_cart_item (cfg : strapi_config) (cart_id : option Z)
    (product_id : Z) : prog (option cart_item) :=
  r <- http (FindCartItems cart_id product_id) ;;
  when (ge400 (fst r)) (log Error LogItemFind) ;;
  raise_for_status (fst r) ;;
  Ret (head (snd r)).

(** The value of [cart_item.get("documentId") or cart_item.get("id")]. *)
Inductive ident := IdStr (s : pystr) | IdInt (n : Z) | IdNone.

Definition get_cart_item_identifier (it : cart_item) : ident :=
  match ci_documentId it with
  | Some (c :: s) => IdStr (c :: s)
  | _ => match ci_id it with Some n => IdInt n | None => IdNone end
  end.

Definition truthy_ident (i : ident) : bool :=
  match i with
  | IdStr s => truthy_str (Some s)
  | IdInt n => negb (n =? 0)
  | IdNone => false
  end.

(** [f"{item_id}"] *)
Definition fmt_ident (i : ident) : pystr :=
  match i with
  | IdStr s => s
  | IdInt n => of_Z n
  | IdNone => lit "None"
  end.

Definition create_cart_item (cfg : strapi_config) (cart_id : option Z)
    (product_id : Z) (qty_kg : float) : prog (option cart_item) :=
  r <- http (PostCartItem cart_id product_id qty_kg) ;;
  when (ge400 (fst r)) (log Error LogItemCreate) ;;
  raise_for_status (fst r) ;;
  Ret (snd r).

Definition update_cart_item_qty (cfg : strapi_config) (item_id : pystr)
    (qty_kg : float) (suppress_not_found : bool) : prog (option cart_item) :=
  r <- http (PutCartItem item_id qty_kg) ;;
  if fst r =? 404 then
    when (negb suppress_not_found) (log Warning LogItemUpdateNotFound) ;;
    Ret None
  else
    when (ge400 (fst r)) (log Error LogItemUpdate ;; raise_for_status (fst r)) ;;
    Ret (snd r).

Definition add_or_increment_item (cfg : strapi_config) (cart_id : option Z)
    (product_id : Z) (qty_to_add : float) : prog (option cart_item) :=
  existing <- find_cart_item cfg cart_id product_id ;;
  match existing with
  | None => create_cart_item cfg cart_id product_id qty_to_add
  | Some existing =>
      let item_id := get_cart_item_identifier existing in
      let current_qty := num_or_0 (ci_qty_kg existing) in
      let new_qty := (current_qty + qty_to_add)%float in
      updated <- update_cart_item_qty cfg (fmt_ident item_id) new_qty false ;;
      match updated with
      | None => create_cart_item cfg cart_id product_id new_qty
      | Some u => Ret (Some u)
      end
  end.

Definition delete_cart_item (cfg : strapi_config) (item_id : pystr)
  : prog bool :=
  r <- http (DeleteCartItem item_id) ;;
  if fst r =? 404 then
    log Warning LogItemDeleteNotFound ;; Ret false
  else
    when (ge400 (fst r)) (log Error LogItemDelete ;; raise_for_status (fst r)) ;;
    Ret true.

Definition hide_cart_item (cfg : strapi_config) (item_id : pystr)
  : prog bool :=
  updated <- update_cart_item_qty cfg item_id 0%float true ;;
  Ret (match updated with Some _ => true | None => false end).

Definition get_cart_items_with_products (cfg : strapi_config)
    (cart_id : option Z) : prog (list cart_item) :=
  r <- http (ListCartItems cart_id) ;;
  when (ge400 (fst r)) (log Error LogCartItemsGet) ;;
  raise_for_status (fst r) ;;
  Ret (snd r).

Definition find_client_by_tg (cfg : strapi_config) (tg_id : pystr)
  : prog (option client) :=
  r <- http (GetClients tg_id) ;;
  when (ge400 (fst r)) (log Error LogClientFind) ;;
  raise_for_status (fst r) ;;
  Ret (head (snd r)).

Definition create_client (cfg : strapi_config) (tg_id email : pystr)
  : prog (option client) :=
  r <- http (PostClient tg_id email) ;;
  when (ge400 (fst r)) (log Error LogClientCreate) ;;
  raise_for_status (fst r) ;;
  Ret (snd r).

Definition update_client (cfg : strapi_config) (cid : Z) (email : pystr)
  : prog (option client) :=
  r <- http (PutClient cid email) ;;
  when (ge400 (fst r)) (log Error LogClientUpdate) ;;
  raise_for_status (fst r) ;;
  Ret (snd r).

Definition create_or_update_client (cfg : strapi_config) (tg_id email : pystr)
  : prog (option client) :=
  existing <- find_client_by_tg cfg tg_id ;;
  match existing with
  | Some c =>
      if truthy_int (client_id c)
      then update_client cfg (default 0 (client_id c)) email
      else create_client cfg tg_id email
  | None => create_client cfg tg_id email
  end.

End Clients.


(** ** The dialogue *)

Definition STATE_START : pystr := lit "START".
Definition STATE_HANDLE_MENU : pystr := lit "HANDLE_MENU".
Definition STATE_HANDLE_DESCRIPTION : pystr := lit "HANDLE_DESCRIPTION".
Definition STATE_HANDLE_CART : pystr := lit "HANDLE_CART".
Definition STATE_WAITING_EMAIL : pystr := lit "WAITING_EMAIL".

Record message := { chat_id : Z; msg_text : option pystr; message_id : Z }.

(** An update carries a message, or a callback query (its [data] and the
    message the button belongs to), or neither. *)
Inductive update :=
| UpdMessage (m : message)
| UpdCallback (data : pystr) (m : message)
| UpdOther.

(** [context.user_data] *)
Record user_data := {
  last_menu_msg_id : option Z;
  last_card_msg_id : option Z;
  last_product_id : option Z
}.

Definition set_last_menu (ud : user_data) (mid : Z) : user_data :=
  {| last_menu_msg_id := Some mid;
     last_card_msg_id := last_card_msg_id ud;
     last_product_id := last_product_id ud |}.

Definition set_last_card (ud : user_data) (mid : Z) (pid : option Z)
  : user_data :=
  {| last_menu_msg_id := last_menu_msg_id ud;
     last_card_msg_id := Some mid;
     last_product_id := pid |}.

Definition btn (l : label) (d : pystr) : button :=
  {| btn_label := l; callback_data := d |}.

Section Dialogue.
Context `{PyBuiltins}.

Definition start (cfg : strapi_config) (upd : update) (ud : user_data)
  : prog (pystr * user_data) :=
  keyboard <- build_products_keyboard cfg ;;
  sent <- match upd with
          | UpdMessage m => tg (ReplyText (chat_id m) TxtHello (Some keyboard))
          | UpdCallback _ m => tg (ReplyText (chat_id m) TxtChoose (Some keyboard))
          | UpdOther => Raise AttributeError
          end ;;
  Ret (STATE_HANDLE_MENU, set_last_menu ud sent).

(** ** Cart rendering *)

Fixpoint enumerate {A} (i : Z) (l : list A) : list (Z * A) :=
  match l with
  | [] => []
  | x :: r => (i, x) :: enumerate (i + 1) r
  end.

(** The items that pass [float(cart_item.get("qty_kg") or 0) <= 0: continue]. *)
Definition visible (it : cart_item) : bool :=
  negb (PrimFloat.leb (num_or_0 (ci_qty_kg it)) 0%float).

Definition item_title (it : cart_item) : pystr :=
  match ci_product it with
  | Some pd =>
      str_or (pd_title pd) (tovar ++ fmt_opt_int (field_get (pd_id pd)))
  | None => tovar ++ lit "None"
  end.

Definition item_price (it : cart_item) : float :=
  match ci_product it with
  | Some pd => num_or_0 (pd_price pd)
  | None => 0%float
  end.

Record cart_view := {
  cv_lines : list cart_line;
  cv_total : float;
  cv_buttons : keyboard
}.

Definition remove_button (it : cart_item) : list button :=
  [ btn (LblRemove (take 20 (item_title it)))
        (lit "remove_item_" ++ fmt_ident (get_cart_item_identifier it)) ].

(** One turn of the loop over [enumerate(cart_items, start=1)]. *)
Definition cart_step (acc : cart_view) (e : Z * cart_item) : cart_view :=
  let '(idx, it) := e in
  if negb (truthy_ident (get_cart_item_identifier it)) then acc
  else
    let qty := num_or_0 (ci_qty_kg it) in
    let price := item_price it in
    let subtotal := (qty * price)%float in
    {| cv_lines := cv_lines acc ++
         [ {| cl_idx := idx; cl_title := item_title it; cl_qty := qty;
              cl_price := price; cl_subtotal := subtotal |} ];
       cv_total := (cv_total acc + subtotal)%float;
       cv_buttons := cv_buttons acc ++ [remove_button it] |}.

Definition render_cart (cart_items : list cart_item) : cart_view :=
  fold_left cart_step (enumerate 1 cart_items)
    {| cv_lines := []; cv_total := 0%float; cv_buttons := [] |}.

Definition empty_cart_keyboard : keyboard :=
  [ [ btn LblMenu (lit "back_to_menu") ] ].

Definition cart_keyboard (v : cart_view) : keyboard :=
  cv_buttons v ++ [ [ btn LblPay (lit "pay") ] ]
               ++ [ [ btn LblBackMenu (lit "back_to_menu") ] ].

(** The inner function [send_cart_message] of [show_cart]. *)
Definition send_cart_message (upd : update) (replace_message : bool)
    (t : text) (kb : keyboard) : prog unit :=
  match upd with
  | UpdCallback _ m =>
      let reply := tg (ReplyText (chat_id m) t (Some kb)) ;; Ret tt in
      if replace_message then
        edited <- try_except
                    (tg (EditText (chat_id m) (message_id m) t (Some kb)) ;;
                     Ret true)
                    (fun exc =>
                       match exc with
                       | TelegramError true => log Info LogCartNotModified
                       | _ => log Info LogCartEdit
                       end ;;
                       Ret false) ;;
        if (edited : bool) then Ret tt else reply
      else reply
  | UpdMessage m => tg (ReplyText (chat_id m) t (Some kb)) ;; Ret tt
  | UpdOther => Raise AttributeError
  end.

Definition show_cart (cfg : strapi_config) (upd : update)
    (replace_message : bool) : prog pystr :=
  chat <- match upd with
          | UpdCallback _ m => answer ;; Ret (chat_id m)
          | UpdMessage m => Ret (chat_id m)
          | UpdOther => Raise AttributeError
          end ;;
  cart <- get_cart_by_tg cfg (of_Z chat) ;;
  if negb (truthy_cart cart) then
    send_cart_message upd replace_message TxtCartEmpty empty_cart_keyboard ;;
    Ret STATE_HANDLE_CART
  else
    cart_items_raw <- get_cart_items_with_products cfg (cart ≫= cart_id) ;;
    log Info LogShowCart ;;
    let cart_items := List.filter visible cart_items_raw in
    match cart_items with
    | [] =>
        send_cart_message upd replace_message TxtCartEmpty empty_cart_keyboard ;;
        Ret STATE_HANDLE_CART
    | _ =>
        let v := render_cart cart_items in
        send_cart_message upd replace_message
          (TxtCart (cv_lines v) (cv_total v)) (cart_keyboard v) ;;
        Ret STATE_HANDLE_CART
    end.

(** ** The transition handlers *)

Definition product_card_keyboard (p : product) : keyboard :=
  [ [ btn LblAddToCart (lit "add_" ++ fmt_opt_int (p_id p)) ];
    [ btn LblMyCart (lit "show_cart") ];
    [ btn LblBackToMenu (lit "back_to_menu") ] ].

Definition handle_menu (cfg : strapi_config) (upd : update) (ud : user_data)
  : prog (pystr * user_data) :=
  match upd with
  | UpdMessage m =>
      tg (ReplyText (chat_id m) TxtPressStart None) ;;
      Ret (STATE_START, ud)
  | UpdOther => Ret (STATE_START, ud)
  | UpdCallback callback_data m =>
      answer ;;
      let chat := chat_id m in
      if eqb callback_data (lit "no_products") then
        tg (ReplyText chat TxtNoProducts None) ;;
        Ret (STATE_START, ud)
      else if eqb callback_data (lit "show_cart") then
        st <- show_cart cfg upd false ;;
        Ret (st, ud)
      else
        match py_int callback_data with
        | None =>
            tg (ReplyText chat TxtUnknownProduct None) ;;
            Ret (STATE_HANDLE_MENU, ud)
        | Some product_id =>
            product <- get_product_by_id cfg product_id ;;
            match product with
            | None =>
                tg (ReplyText chat TxtNoProductData None) ;;
                Ret (STATE_HANDLE_MENU, ud)
            | Some product =>
                let menu_msg_id :=
                  if truthy_int (last_menu_msg_id ud)
                  then default 0 (last_menu_msg_id ud)
                  else message_id m in
                try_except (tg (DeleteMessage chat menu_msg_id) ;; Ret tt)
                           (fun _ => log Info LogMenuDelete) ;;
                let caption :=
                  TxtCard (p_title product) (p_price product)
                          (p_description product) in
                let keyboard := product_card_keyboard product in
                sent <-
                  match p_image_url product with
                  | _ :: _ =>
                      try_except
                        (r <- http (GetImage (p_image_url product)) ;;
                         raise_for_status (fst r) ;;
                         tg (SendPhoto chat (snd r) caption (Some keyboard)))
                        (fun _ =>
                           log Warning LogPhoto ;;
                           tg (SendMessage chat caption (Some keyboard)))
                  | [] => tg (SendMessage chat caption (Some keyboard))
                  end ;;
                Ret (STATE_HANDLE_DESCRIPTION,
                     set_last_card ud sent (p_id product))
            end
        end
  end.

(** [float(product.get("qty_kg") or 1)] *)
Definition qty_or_1 (x : option float) : float :=
  match x with
  | Some q => if falsy_float q then 1%float else q
  | None => 1%float
  end.

Definition handle_description (cfg : strapi_config) (upd : update)
    (ud : user_data) : prog (pystr * user_data) :=
  match upd with
  | UpdMessage m =>
      tg (ReplyText (chat_id m) TxtUseCardButtons None) ;;
      Ret (STATE_HANDLE_DESCRIPTION, ud)
  | UpdOther => Ret (STATE_HANDLE_DESCRIPTION, ud)
  | UpdCallback callback_data m =>
      answer ;;
      let chat := chat_id m in
      if eqb callback_data (lit "back_to_menu") then
        when (truthy_int (last_card_msg_id ud))
          (try_except
             (tg (DeleteMessage chat (default 0 (last_card_msg_id ud))) ;; Ret tt)
             (fun _ => log Info LogCardDelete)) ;;
        keyboard <- build_products_keyboard cfg ;;
        sent <- tg (SendMessage chat TxtChoose (Some keyboard)) ;;
        Ret (STATE_HANDLE_MENU, set_last_menu ud sent)
      else if eqb callback_data (lit "show_cart") then
        st <- show_cart cfg upd false ;;
        Ret (st, ud)
      else if startswith (lit "add_") callback_data then
        match
          match after_first underscore callback_data with
          | Some rest => py_int rest
          | None => None
          end
        with
        | None =>
            tg (ReplyText chat TxtUnknownAdd None) ;;
            Ret (STATE_HANDLE_DESCRIPTION, ud)
        | Some product_id =>
            product <- get_product_by_id cfg product_id ;;
            match product with
            | None =>
                tg (ReplyText chat TxtProductGone None) ;;
                Ret (STATE_HANDLE_DESCRIPTION, ud)
            | Some product =>
                let qty_val := qty_or_1 (p_qty_kg product) in
                try_except
                  (cart <- ensure_cart_exists cfg (of_Z chat) ;;
                   cid <- match cart with
                          | Some c => Ret (cart_id c)
                          | None => Raise AttributeError
                          end ;;
                   add_or_increment_item cfg cid product_id qty_val ;;
                   tg (ReplyText chat (TxtAdded product_id qty_val) None) ;;
                   Ret tt)
                  (fun _ =>
                     log Exception LogAddToCart ;;
                     tg (ReplyText chat TxtAddFailed None) ;;
                     Ret tt) ;;
                Ret (STATE_HANDLE_DESCRIPTION, ud)
            end
        end
      else Ret (STATE_HANDLE_DESCRIPTION, ud)
  end.

(** The [try] block of the branch [remove_item_] of [handle_cart]: the hard
    delete, the soft hide, and the report to the user. *)
Definition remove_item (cfg : strapi_config) (chat : Z) (item_id : pystr)
  : prog unit :=
  try_except
    (deleted <- delete_cart_item cfg item_id ;;
     soft_deleted <- hide_cart_item cfg item_id ;;
     (if (deleted : bool) || (soft_deleted : bool)
      then tg (ReplyText chat TxtRemoved None)
      else tg (ReplyText chat TxtAlreadyRemoved None)) ;;
     Ret tt)
    (fun _ =>
       log Exception LogRemove ;;
       tg (ReplyText chat TxtRemoveFailed None) ;;
       Ret tt).

Definition handle_cart (cfg : strapi_config) (upd : update) (ud : user_data)
  : prog (pystr * user_data) :=
  match upd with
  | UpdMessage m =>
      tg (ReplyText (chat_id m) TxtUseCartButtons None) ;;
      Ret (STATE_HANDLE_CART, ud)
  | UpdOther => Ret (STATE_HANDLE_CART, ud)
  | UpdCallback callback_data m =>
      answer ;;
      let chat := chat_id m in
      if eqb callback_data (lit "back_to_menu") then
        keyboard <- build_products_keyboard cfg ;;
        sent <- tg (SendMessage chat TxtChoose (Some keyboard)) ;;
        Ret (STATE_HANDLE_MENU, set_last_menu ud sent)
      else if eqb callback_data (lit "pay") then
        tg (ReplyText chat TxtAskEmail None) ;;
        Ret (STATE_WAITING_EMAIL, ud)
      else if startswith (lit "remove_item_") callback_data then
        item_id <- match after_last underscore callback_data with
                   | Some i => Ret i
                   | None => Raise IndexError
                   end ;;
        remove_item cfg chat item_id ;;
        st <- show_cart cfg upd true ;;
        Ret (st, ud)
      else Ret (STATE_HANDLE_CART, ud)
  end.

(** The test of [handle_waiting_email] on the stripped text:
    [not ("@" not in email or "." not in email)]. *)
Definition looks_like_email (email : pystr) : bool :=
  negb (negb (contains at_sign email) || negb (contains dot email)).

Definition handle_waiting_email (cfg : strapi_config) (upd : update)
    (ud : user_data) : prog (pystr * user_data) :=
  match upd with
  | UpdCallback _ m =>
      answer ;;
      tg (ReplyText (chat_id m) TxtSendEmailAsText None) ;;
      Ret (STATE_WAITING_EMAIL, ud)
  | UpdOther => Ret (STATE_WAITING_EMAIL, ud)
  | UpdMessage m =>
      let chat := chat_id m in
      let email := strip (default [] (msg_text m)) in
      if negb (looks_like_email email) then
        tg (ReplyText chat TxtNotEmail None) ;;
        Ret (STATE_WAITING_EMAIL, ud)
      else
        try_except
          (create_or_update_client cfg (of_Z chat) email ;; Ret tt)
          (fun _ => log Exception LogClientSave) ;;
        log Info LogEmail ;;
        tg (ReplyText chat (TxtThanks email) None) ;;
        keyboard <- build_products_keyboard cfg ;;
        sent <- tg (ReplyText chat TxtContinue (Some keyboard)) ;;
        Ret (STATE_HANDLE_MENU, set_last_menu ud sent)
  end.

(** ** The dispatcher *)

(** [states.get(user_state, start)] *)
Definition state_handler (user_state : pystr)
  : strapi_config -> update -> user_data -> prog (pystr * user_data) :=
  if eqb user_state STATE_START then start
  else if eqb user_state STATE_HANDLE_MENU then handle_menu
  else if eqb user_state STATE_HANDLE_DESCRIPTION then handle_description
  else if eqb user_state STATE_HANDLE_CART then handle_cart
  else if eqb user_state STATE_WAITING_EMAIL then handle_waiting_email
  else start.

(** The state the event is dispatched on; [db], the session store, holds
    one label per chat. *)
Definition user_state_of (db : gmap Z pystr) (chat : Z)
    (user_reply : option pystr) : pystr :=
  if bool_decide (user_reply = Some (lit "/start")) then STATE_START
  else match db !! chat with
       | Some (c :: s) => c :: s
       | _ => STATE_START
       end.

(** The text and the chat of an update: [update.message.text] or
    [update.callback_query.data]; [None] when the update has neither. *)
Definition event_of (upd : update) : option (option pystr * Z) :=
  match upd with
  | UpdMessage m => Some (msg_text m, chat_id m)
  | UpdCallback data m => Some (Some data, chat_id m)
  | UpdOther => None
  end.

(** The [try] block of [handle_users_reply]: the handler runs, its state is
    stored; when it raises, the error is logged and [START] is stored. *)
Definition guarded
    (handler : strapi_config -> update -> user_data -> prog (pystr * user_data))
    (cfg : strapi_config) (upd : update) (db : gmap Z pystr) (ud : user_data)
    (chat : Z) : prog (gmap Z pystr * user_data) :=
  try_except
    (r <- handler cfg upd ud ;;
     Ret (<[chat := fst r]> db, snd r))
    (fun _ =>
       log Exception LogHandler ;;
       Ret (<[chat := STATE_START]> db, ud)).

Definition handle_users_reply (cfg : strapi_config) (upd : update)
    (db : gmap Z pystr) (ud : user_data) : prog (gmap Z pystr * user_data) :=
  match event_of upd with
  | None => Ret (db, ud)
  | Some (user_reply, chat) =>
      let user_state := user_state_of db chat user_reply in
      guarded (state_handler user_state) cfg upd db ud chat
  end.

End Dialogue.

(** ** Environments *)

(** An environment whose answer depends on the action only. *)
Definition scripted (f : forall a : action, result a) : env :=
  {| world := unit; respond := fun a w => (f a, w) |}.

(** The Telegram API never raises. *)
Definition reliable_tg (E : env) : Prop :=
  forall c w, exists mid, fst (respond E (Tg c) w) = TgOk mid.

(** *** A sequential in-memory Strapi

    The store behind the REST interface of the specification (section 6):
    filters select the matching records in storage order, [POST] adds a
    record under a fresh numeric id, [PUT] and [DELETE] address a record by
    its identifier and answer 404 when there is none.  [doc_of n] is the
    [documentId] the backend gives to the record with numeric id [n], if its
    version has document identifiers. *)

Record cart_rec := { cr_id : Z; cr_tg : pystr }.

Record item_rec := {
  ir_id : Z;
  ir_cart : option Z;
  ir_product : Z;
  ir_qty : float
}.

Record client_rec := { cl_id : Z; cl_tg : pystr; cl_email : pystr }.

Record store := {
  products : list product_data;
  carts : list cart_rec;
  items : list item_rec;
  clients : list client_rec;
  next_id : Z;
  next_msg : Z
}.

Section Strapi.
Variable doc_of : Z -> option pystr.

Definition cart_view_of (c : cart_rec) : cart :=
  {| cart_id := Some (cr_id c); cart_tg_id := Some (cr_tg c);
     cart_more := false |}.

Definition has_id (pid : Z) (pd : product_data) : bool :=
  match pd_id pd with Value i => i =? pid | _ => false end.

Definition product_of (s : store) (pid : Z) : option product_data :=
  List.find (has_id pid) (products s).

Definition item_view (s : store) (populate : bool) (it : item_rec)
  : cart_item :=
  {| ci_id := Some (ir_id it);
     ci_documentId := doc_of (ir_id it);
     ci_qty_kg := Some (ir_qty it);
     ci_product := if populate then product_of s (ir_product it) else None |}.

(** The path segment under which the record with numeric id [n] is
    addressed: its document identifier when it has one, else its id. *)
Definition address (n : Z) : pystr :=
  match doc_of n with
  | Some (c :: d) => c :: d
  | _ => of_Z n
  end.

Definition in_cart (cid : option Z) (it : item_rec) : bool :=
  match cid with
  | Some c => bool_decide (ir_cart it = Some c)
  | None => true
  end.

Definition for_pair (cid : option Z) (pid : Z) (it : item_rec) : bool :=
  in_cart cid it && (ir_product it =? pid).

Definition addressed (path : pystr) (it : item_rec) : bool :=
  eqb (address (ir_id it)) path.

Definition set_qty (q : float) (it : item_rec) : item_rec :=
  {| ir_id := ir_id it; ir_cart := ir_cart it;
     ir_product := ir_product it; ir_qty := q |}.

Definition with_carts (s : store) (cs : list cart_rec) (n : Z) : store :=
  {| products := products s; carts := cs; items := items s;
     clients := clients s; next_id := n; next_msg := next_msg s |}.

Definition with_items (s : store) (its : list item_rec) (n : Z) : store :=
  {| products := products s; carts := carts s; items := its;
     clients := clients s; next_id := n; next_msg := next_msg s |}.

Definition with_clients (s : store) (cs : list client_rec) (n : Z) : store :=
  {| products := products s; carts := carts s; items := items s;
     clients := cs; next_id := n; next_msg := next_msg s |}.

Definition client_view (c : client_rec) : client :=
  {| client_id := Some (cl_id c) |}.

Definition serve (r : request) (s : store) : http_result (payload r) * store :=
  match r return http_result (payload r) * store with
  | GetProducts None => (Response 200 (products s), s)
  | GetProducts (Some pid) =>
      (Response 200 (List.filter (has_id pid) (products s)), s)
  | GetImage _ => (Response 404 [], s)
  | GetCarts tg_id =>
      (Response 200
         (List.map cart_view_of
            (List.filter (fun c => eqb (cr_tg c) tg_id) (carts s))),
       s)
  | PostCart tg_id =>
      let c := {| cr_id := next_id s; cr_tg := tg_id |} in
      (Response 201 (Some (cart_view_of c)),
       with_carts s (carts s ++ [c]) (next_id s + 1))
  | FindCartItems cid pid =>
      (Response 200
         (List.map (item_view s false) (List.filter (for_pair cid pid) (items s))),
       s)
  | ListCartItems cid =>
      (Response 200
         (List.map (item_view s true) (List.filter (in_cart cid) (items s))),
       s)
  | PostCartItem cid pid q =>
      let it := {| ir_id := next_id s; ir_cart := cid;
                   ir_product := pid; ir_qty := q |} in
      (Response 201 (Some (item_view s false it)),
       with_items s (items s ++ [it]) (next_id s + 1))
  | PutCartItem path q =>
      match List.find (addressed path) (items s) with
      | Some it =>
          (Response 200 (Some (item_view s false (set_qty q it))),
           with_items s
             (List.map (fun i => if addressed path i then set_qty q i else i)
                       (items s))
             (next_id s))
      | None => (Response 404 None, s)
      end
  | DeleteCartItem path =>
      match List.find (addressed path) (items s) with
      | Some _ =>
          (Response 204 tt,
           with_items s
             (List.filter (fun i => negb (addressed path i)) (items s))
             (next_id s))
      | None => (Response 404 tt, s)
      end
  | GetClients tg_id =>
      (Response 200
         (List.map client_view
            (List.filter (fun c => eqb (cl_tg c) tg_id) (clients s))),
       s)
  | PostClient tg_id email =>
      let c := {| cl_id := next_id s; cl_tg := tg_id; cl_email := email |} in
      (Response 201 (Some (client_view c)),
       with_clients s (clients s ++ [c]) (next_id s + 1))
  | PutClient cid email =>
      match List.find (fun c => cl_id c =? cid) (clients s) with
      | Some c =>
          (Response 200 (Some (client_view c)),
           with_clients s
             (List.map (fun c => if cl_id c =? cid
                                 then {| cl_id := cid; cl_tg := cl_tg c;
                                         cl_email := email |}
                                 else c)
                       (clients s))
             (next_id s))
      | None => (Response 404 None, s)
      end
  end.

(** Telegram delivers every message and numbers them. *)
Definition deliver (s : store) : tg_result * store :=
  (TgOk (next_msg s),
   {| products := products s; carts := carts s; items := items s;
      clients := clients s; next_id := next_id s;
      next_msg := next_msg s + 1 |}).

Definition strapi : env :=
  {| world := store;
     respond := fun a =>
       match a return store -> result a * store with
       | Http r => serve r
       | Tg _ => deliver
       | Log _ _ => fun s => (tt, s)
       end |}.

End Strapi.

Definition empty_store : store :=
  {| products := []; carts := []; items := []; clients := [];
     next_id := 1; next_msg := 1 |}.

(** *** Stand-ins for the library functions, to evaluate examples *)

Fixpoint digits_value (acc : Z) (s : pystr) : option Z :=
  match s with
  | [] => Some acc
  | c :: r =>
      if ((48 <=? c) && (c <=? 57))%N
      then digits_value (10 * acc + (Z.of_N c - 48)) r
      else None
  end.

(** [int] on an optional sign and ASCII decimal digits between white space. *)
Definition ascii_int (s : pystr) : option Z :=
  match strip s with
  | 45%N :: d :: r => option_map Z.opp (digits_value 0 (d :: r))
  | 43%N :: d :: r => digits_value 0 (d :: r)
  | d :: r => digits_value 0 (d :: r)
  | [] => None
  end.

(** [urljoin] of a base [scheme://host] and an absolute path. *)
Definition join_path (base ref : pystr) : pystr := base ++ ref.

Definition ascii_builtins : PyBuiltins :=
  {| py_int := ascii_int; urljoin := join_path |}.

(** ** Notions used in the statements *)

(** The five labels of the dispatch table. *)
Definition recognized (label : pystr) : Prop :=
  In label [STATE_START; STATE_HANDLE_MENU; STATE_HANDLE_DESCRIPTION;
            STATE_HANDLE_CART; STATE_WAITING_EMAIL].

(** The label stored for [chat] when the dispatcher returned. *)
Definition state_after {E} (r : run_result E (gmap Z pystr * user_data))
    (chat : Z) : option pystr :=
  match out r with
  | Returned (db', _) => db' !! chat
  | Raised _ => None
  end.

(** Button payloads that no branch of [handle_description], respectively
    [handle_cart], tests for. *)
Definition description_unmatched (data : pystr) : Prop :=
  data <> lit "back_to_menu" /\ data <> lit "show_cart"
  /\ startswith (lit "add_") data = false.

Definition cart_unmatched (data : pystr) : Prop :=
  data <> lit "back_to_menu" /\ data <> lit "pay"
  /\ startswith (lit "remove_item_") data = false.

(** The statuses on which [raise_for_status] raises. *)
Definition raises (st : Z) : bool := (400 <=? st) && (st <? 600).

(** What [delete_cart_item] makes of the answer to its request: [Some b] when
    it returns [b], [None] when it raises. *)
Definition delete_outcome (res : http_result unit) : option bool :=
  match res with
  | ConnError => None
  | Response st _ =>
      if st =? 404 then Some false
      else if raises st then None else Some true
  end.

(** The same for [hide_cart_item]. *)
Definition hide_outcome (res : http_result (option cart_item)) : option bool :=
  match res with
  | ConnError => None
  | Response st d =>
      if st =? 404 then Some false
      else if raises st then None
      else Some (match d with Some _ => true | None => false end)
  end.

(** The report of [remove_item] to the user. *)
Definition removal_report (deleted : bool) (hide : option bool) : text :=
  match hide with
  | None => TxtRemoveFailed
  | Some soft_deleted =>
      if deleted || soft_deleted then TxtRemoved else TxtAlreadyRemoved
  end.

(** The items of the cart view: those with a truthy identifier, with their
    position in [enumerate(cart_items, start=1)]. *)
Definition has_identifier (it : cart_item) : bool :=
  truthy_ident (get_cart_item_identifier it).

Definition shown (cart_items : list cart_item) : list (Z * cart_item) :=
  List.filter (fun e => has_identifier (snd e)) (enumerate 1 cart_items).

Definition item_qty (it : cart_item) : float := num_or_0 (ci_qty_kg it).

Definition item_subtotal (it : cart_item) : float :=
  (item_qty it * item_price it)%float.

Definition line_of (e : Z * cart_item) : cart_line :=
  {| cl_idx := fst e; cl_title := item_title (snd e);
     cl_qty := item_qty (snd e); cl_price := item_price (snd e);
     cl_subtotal := item_subtotal (snd e) |}.

(** The sum of a list of [float], added from [0.0] on in the order of the
    list. *)
Definition fsum (l : list float) : float := fold_left PrimFloat.add l 0%float.

(** The Telegram calls of [show_cart] for one message: the answer to the
    callback, then the message, edited in place or sent. *)
Definition cart_calls (upd : update) (replace_message : bool) (t : text)
    (kb : keyboard) : list tg_call :=
  match upd with
  | UpdCallback _ m =>
      [ AnswerCallback;
        if replace_message
        then EditText (chat_id m) (message_id m) t (Some kb)
        else ReplyText (chat_id m) t (Some kb) ]
  | UpdMessage m => [ ReplyText (chat_id m) t (Some kb) ]
  | UpdOther => []
  end.

(** A URL made absolute as [get_product_by_id] does. *)
Definition absolute_url `{PyBuiltins} (cfg : strapi_config) (u : pystr)
  : pystr :=
  if is_absolute u then u else urljoin (base_url cfg) u.

(** The chat of an update, and the world in which [show_cart] sends its
    first request: after the answer to the callback, if there is one. *)
Definition chat_of (upd : update) : Z :=
  match upd with
  | UpdMessage m | UpdCallback _ m => chat_id m
  | UpdOther => 0
  end.

Definition after_answer (E : env) (upd : update) (w : world E) : world E :=
  match upd with
  | UpdCallback _ _ => snd (respond E (Tg AnswerCallback) w)
  | _ => w
  end.

(** The message of the cart view for the items that passed the quantity
    filter. *)
Definition cart_message (cart_items : list cart_item) : text * keyboard :=
  match cart_items with
  | [] => (TxtCartEmpty, empty_cart_keyboard)
  | _ =>
      let v := render_cart cart_items in
      (TxtCart (cv_lines v) (cv_total v), cart_keyboard v)
  end.

(** The carts of the store that belong to a chat. *)
Definition owned_by (tg_id : pystr) (c : cart_rec) : bool :=
  eqb (cr_tg c) tg_id.

(** Every record of the store was created before [next_id]. *)
Definition fresh_ids (s : store) : Prop :=
  forall it, In it (items s) -> ir_id it < next_id s.

(** Distinct records have distinct addresses. *)
Definition distinct_addresses (doc_of : Z -> option pystr) : Prop :=
  forall i j, address doc_of i = address doc_of j -> i = j.

(** ** Concrete inputs *)

Definition cfg0 : strapi_config :=
  {| base_url := lit "http://localhost:1337"; api_token := None |}.

Definition ud0 : user_data :=
  {| last_menu_msg_id := None; last_card_msg_id := None;
     last_product_id := None |}.

Definition text_message (chat : Z) (t : string) : message :=
  {| chat_id := chat; msg_text := Some (lit t); message_id := 10 |}.

(** A press of the button with payload [data], under message 10. *)
Definition button_press (chat : Z) (data : string) : update :=
  UpdCallback (lit data)
    {| chat_id := chat; msg_text := None; message_id := 10 |}.

(** A backend without document identifiers. *)
Definition no_docs : Z -> option pystr := fun _ => None.

Definition no_data (r : request) : payload r :=
  match r with
  | GetProducts _ => []
  | GetImage _ => []
  | GetCarts _ => []
  | PostCart _ => None
  | FindCartItems _ _ => []
  | ListCartItems _ => []
  | PostCartItem _ _ _ => None
  | PutCartItem _ _ => None
  | DeleteCartItem _ => tt
  | GetClients _ => []
  | PostClient _ _ => None
  | PutClient _ _ => None
  end.

(** A backend that answers every request with the status [st] and no data,
    next to a Telegram API that delivers. *)
Definition status_env (st : Z) : env :=
  scripted (fun a =>
    match a return result a with
    | Http r => Response st (no_data r)
    | Tg _ => TgOk 1
    | Log _ _ => tt
    end).

(** A backend that accepts the delete and rejects every other request. *)
Definition hide_rejected : env :=
  scripted (fun a =>
    match a return result a with
    | Http (DeleteCartItem _) => Response 200 tt
    | Http r => Response 500 (no_data r)
    | Tg _ => TgOk 1
    | Log _ _ => tt
    end).

Definition fish : product_data :=
  {| pd_id := Value 7; pd_title := Some (lit "Salmon");
     pd_description := Some (lit "Fresh"); pd_price := Some 10%float;
     pd_qty_kg := Some 2.5%float;
     pd_picture := Some (PicDict
       {| pic_url := Some (lit "/uploads/salmon.jpg");
          pic_medium := Some {| fmt_url := Some (lit "/uploads/medium_salmon.jpg") |};
          pic_small := Some {| fmt_url := Some (lit "/uploads/small_salmon.jpg") |} |}) |}.

Definition fish_store : store :=
  {| products := [fish]; carts := []; items := []; clients := [];
     next_id := 1; next_msg := 1 |}.

(** [fish] with a medium rendition that has no URL. *)
Definition fish_without_medium_url : product_data :=
  {| pd_id := Value 7; pd_title := Some (lit "Salmon");
     pd_description := Some (lit "Fresh"); pd_price := Some 10%float;
     pd_qty_kg := Some 2.5%float;
     pd_picture := Some (PicDict
       {| pic_url := Some (lit "/uploads/salmon.jpg");
          pic_medium := Some {| fmt_url := None |};
          pic_small := Some {| fmt_url := Some (lit "/uploads/small_salmon.jpg") |} |}) |}.

(** The cart of chat 7 with 2.5 kg of [fish] and an item of quantity 0. *)
Definition cart_store : store :=
  {| products := [fish];
     carts := [ {| cr_id := 1; cr_tg := of_Z 7 |} ];
     items := [ {| ir_id := 2; ir_cart := Some 1; ir_product := 7;
                   ir_qty := 2.5%float |};
                {| ir_id := 3; ir_cart := Some 1; ir_product := 7;
                   ir_qty := 0%float |} ];
     clients := []; next_id := 4; next_msg := 1 |}.

(** A backend whose cart lookup answers with one empty object. *)
Definition empty_object_env : env :=
  scripted (fun a =>
    match a return result a with
    | Http (GetCarts _) =>
        Response 200 [ {| cart_id := None; cart_tg_id := None;
                          cart_more := false |} ]
    | Http r => Response 200 (no_data r)
    | Tg _ => TgOk 1
    | Log _ _ => tt
    end).

(** A cart item the backend sent without [id] and [documentId]. *)
Definition unidentified_item : cart_item :=
  {| ci_id := None; ci_documentId := None; ci_qty_kg := Some 2%float;
     ci_product := Some fish |}.

(** A backend whose one cart holds [unidentified_item]. *)
Definition unidentified_env : env :=
  scripted (fun a =>
    match a return result a with
    | Http (GetCarts tg_id) =>
        Response 200 [ {| cart_id := Some 1; cart_tg_id := Some tg_id;
                          cart_more := false |} ]
    | Http (ListCartItems _) => Response 200 [unidentified_item]
    | Http r => Response 200 (no_data r)
    | Tg _ => TgOk 1
    | Log _ _ => tt
    end).

(** ** Notions used in the further properties *)

(** Every value a program can return satisfies [P]. *)
Inductive leaves {T} (P : T -> Prop) : prog T -> Prop :=
| leaves_ret x : P x -> leaves P (Ret x)
| leaves_raise e : leaves P (Raise e)
| leaves_act a k : (forall res, leaves P (k res)) -> leaves P (Act a k).

(** What a client makes of the answer to its request when it lets errors
    through: the exception of [requests], the [HTTPError] of
    [raise_for_status], or the value read from the data. *)
Definition propagated {D T} (res : http_result D) (value : D -> T)
  : outcome T :=
  match res with
  | ConnError => Raised RequestException
  | Response st d =>
      if raises st then Raised (HTTPError st) else Returned (value d)
  end.

(** The clients of the store that belong to a chat. *)
Definition client_of (tg_id : pystr) (c : client_rec) : bool :=
  eqb (cl_tg c) tg_id.

(** The characters of [str(n)]: decimal digits, after ["-"] when [n < 0]. *)
Definition is_digit (c : N) : Prop := (48 <= c <= 57)%N.

(** The rows of [build_products_keyboard] above the cart row. *)
Definition catalog_rows (products : list product_data) : keyboard :=
  match product_rows products with
  | [] => [no_products_row]
  | rows => rows
  end.

(** The button of a product in the catalog keyboard. *)
Definition product_row (pd : product_data) (pid : Z) : list button :=
  [ btn (LblTitle (str_or (pd_title pd) (tovar ++ of_Z pid))) (of_Z pid) ].

(** The products that [fetch_products] makes of the answer to its request:
    the data of an answer that is no error. *)
Definition fetched (res : http_result (list product_data))
  : list product_data :=
  match res with
  | Response st d => if raises st then [] else d
  | ConnError => []
  end.

(** The row of a product in the catalog, for a product with a truthy id. *)
Definition product_button (pd : product_data) : option (list button) :=
  match field_get (pd_id pd) with
  | Some pid => if pid =? 0 then None else Some (product_row pd pid)
  | None => None
  end.

(** The catalog keyboard of a list of products: the rows of the products
    that have a truthy id, in order, or the placeholder row when there is
    none; then the cart row. *)
Definition catalog_keyboard (products : list product_data) : keyboard :=
  match omap product_button products with
  | [] => [no_products_row]
  | rows => rows
  end ++ [my_cart_row].

(** What is recorded after the catalog request: nothing, or the error of
    [fetch_products]. *)
Definition catalog_log (lg : list event) : Prop :=
  lg = [] \/ lg = [Ev (Log Error LogProducts) tt].

Definition image_answer (e : event) : option (http_result (list N)) :=
  match e with Ev (Http (GetImage _)) r => Some r | _ => None end.

(** The exception a failed request ends in. *)
Definition failure {D} (res : http_result D) : exn :=
  match res with
  | ConnError => RequestException
  | Response st _ => HTTPError st
  end.

(** The outcome of a call that returns [b] or raises. *)
Definition outcome_of {D} (res : http_result D) (o : option bool)
  : outcome bool :=
  match o with
  | Some b => Returned b
  | None => Raised (failure res)
  end.

(** Every client of the store was created before [next_id]. *)
Definition fresh_clients (s : store) : Prop :=
  forall c, In c (clients s) -> cl_id c < next_id s.

(** What the store answers to the item listing of a cart. *)
Definition listed (doc_of : Z -> option pystr) (s : store) (cid : option Z)
  : list cart_item :=
  List.map (item_view doc_of s true) (List.filter (in_cart cid) (items s)).

(** * Properties *)

(** ** Strings *)

Lemma eqb_eq a b : eqb a b = true <-> a = b.
Proof. unfold eqb. rewrite bool_decide_eq_true. tauto. Qed.

Lemma eqb_neq a b : eqb a b = false <-> a <> b.
Proof. unfold eqb. rewrite bool_decide_eq_false. tauto. Qed.

Lemma eqb_refl a : eqb a a = true.
Proof. now apply eqb_eq. Qed.

(** ** Runs of composed programs *)

Lemma run_bind E A B (p : prog A) (f : A -> prog B) w :
  run E (bind p f) w = seq_result (run E p w) (fun x w' => run E (f x) w').
Proof.
  revert w. induction p as [x|e|a k IH]; intros w; try reflexivity.
  - unfold seq_result. simpl. destruct (run E (f x) w); reflexivity.
  - simpl. destruct (respond E a w) as [r w']. rewrite IH.
    unfold seq_result. simpl. destruct (out (run E (k r) w')); reflexivity.
Qed.

Lemma run_try_except E A (p : prog A) (h : exn -> prog A) w :
  run E (try_except p h) w
  = catch_result (run E p w) (fun e w' => run E (h e) w').
Proof.
  revert w. induction p as [x|e|a k IH]; intros w; try reflexivity.
  - unfold catch_result. simpl. destruct (run E (h e) w); reflexivity.
  - simpl. destruct (respond E a w) as [r w']. rewrite IH.
    unfold catch_result. destruct (run E (k r) w') as [[x|e] f t]; reflexivity.
Qed.

Lemma no_tg_bind A B (p : prog A) (f : A -> prog B) :
  no_tg p -> (forall x, no_tg (f x)) -> no_tg (bind p f).
Proof. induction 1; simpl; intros; auto; constructor; auto. Qed.

Lemma no_tg_try_except A (p : prog A) (h : exn -> prog A) :
  no_tg p -> (forall e, no_tg (h e)) -> no_tg (try_except p h).
Proof. induction 1; simpl; intros; auto; constructor; auto. Qed.

Lemma no_tg_trace E A (p : prog A) w :
  no_tg p -> tg_calls_of (trace (run E p w)) = [].
Proof.
  intros Hp. revert w. induction Hp as [| |r k _ IH|l s k _ IH]; intros w;
    simpl; auto; destruct (respond E _ w) as [res w']; simpl; apply IH.
Qed.

Lemma no_raise_bind A B (p : prog A) (f : A -> prog B) :
  no_raise p -> (forall x, no_raise (f x)) -> no_raise (bind p f).
Proof. induction 1; simpl; intros; auto; constructor; auto. Qed.

Lemma no_raise_returns E A (p : prog A) w :
  no_raise p -> exists x, out (run E p w) = Returned x.
Proof.
  intros Hp. revert w. induction Hp as [x|a k _ IH]; intros w; simpl; eauto.
  destruct (respond E a w) as [res w']. simpl. apply IH.
Qed.

Lemma no_raise_catch A (p : prog A) (h : exn -> prog A) :
  (forall e, no_raise (h e)) -> no_raise (try_except p h).
Proof. intros Hh. induction p; simpl; auto; constructor; auto. Qed.

Lemma no_tg_log l s : no_tg (log l s).
Proof. repeat constructor. Qed.

Lemma no_tg_http r : no_tg (http r).
Proof. constructor. intros []; constructor. Qed.

Lemma no_tg_raise_for_status st : no_tg (raise_for_status st).
Proof. unfold raise_for_status. destruct (_ && _); constructor. Qed.

Lemma no_tg_when b (p : prog unit) : no_tg p -> no_tg (when b p).
Proof. destruct b; simpl; auto. constructor. Qed.

Ltac no_tg_tac :=
  repeat first
    [ apply no_tg_bind; [| intros ?]
    | apply no_tg_try_except; [| intros ?]
    | apply no_tg_when
    | apply no_tg_log
    | apply no_tg_http
    | apply no_tg_raise_for_status
    | apply nt_ret
    | apply nt_raise
    | match goal with |- no_tg (match ?x with _ => _ end) => destruct x end
    | match goal with |- no_tg (if ?x then _ else _) => destruct x end ].

Lemma run_tg E c w :
  reliable_tg E ->
  exists mid,
    out (run E (tg c) w) = Returned mid
    /\ trace (run E (tg c) w) = [Ev (Tg c) (TgOk mid)].
Proof.
  intros HT. destruct (HT c w) as [mid Hmid]. exists mid.
  unfold tg. simpl. destruct (respond E (Tg c) w) as [res w']. simpl in *.
  subst res. simpl. auto.
Qed.

Lemma seq_result_returned E A B (r1 : run_result E A) k x :
  out r1 = Returned x ->
  @seq_result E A B r1 k
  = {| out := out (k x (final r1)); final := final (k x (final r1));
       trace := trace r1 ++ trace (k x (final r1)) |}.
Proof. intros Hx. unfold seq_result. now rewrite Hx. Qed.

Lemma tg_calls_of_app a b :
  tg_calls_of (a ++ b) = tg_calls_of a ++ tg_calls_of b.
Proof. apply omap_app. Qed.

Lemma requests_of_app a b :
  requests_of (a ++ b) = requests_of a ++ requests_of b.
Proof. apply omap_app. Qed.

Lemma logs_of_app a b : logs_of (a ++ b) = logs_of a ++ logs_of b.
Proof. apply omap_app. Qed.

Lemma yields_bind E A B (p : prog A) (f : A -> prog B) w x t1 t2 o :
  yields (run E p w) (Returned x) t1 ->
  yields (run E (f x) (final (run E p w))) o t2 ->
  yields (run E (bind p f) w) o (t1 ++ t2).
Proof.
  intros [Ho1 Ht1] [Ho2 Ht2]. rewrite run_bind.
  rewrite (seq_result_returned _ _ _ _ _ x Ho1). split; [exact Ho2|].
  cbn [trace]. now rewrite tg_calls_of_app, Ht1, Ht2.
Qed.

Lemma yields_tg E c w :
  reliable_tg E -> exists mid, yields (run E (tg c) w) (Returned mid) [c].
Proof.
  intros HT. destruct (run_tg E c w HT) as (mid & Ho & Ht).
  exists mid. split; [exact Ho|]. now rewrite Ht.
Qed.

Lemma yields_log E l s w : yields (run E (log l s) w) (Returned tt) [].
Proof.
  unfold log. cbn [run]. destruct (respond E _ w) as [[] w']. now split.
Qed.

Lemma run_log E l s w :
  out (run E (log l s) w) = Returned tt
  /\ trace (run E (log l s) w) = [Ev (Log l s) tt].
Proof.
  unfold log. cbn [run]. destruct (respond E _ w) as [[] w']. now split.
Qed.

Lemma yields_quiet E A (p : prog A) w :
  no_raise p -> no_tg p -> exists x, yields (run E p w) (Returned x) [].
Proof.
  intros Hr Hq. destruct (no_raise_returns E A p w Hr) as [x Hx].
  exists x. split; [exact Hx | now apply no_tg_trace].
Qed.

(** ** Symbolic execution of a run *)

Ltac tg_ok HT :=
  match goal with
  | |- context [respond ?E (Tg ?c) ?w] =>
      let mid := fresh "mid" in
      let Hmid := fresh "Hmid" in
      let res := fresh "res" in
      let w' := fresh "w" in
      destruct (HT c w) as [mid Hmid];
      destruct (respond E (Tg c) w) as [res w'];
      cbn [fst] in Hmid; subst res
  end.

Ltac http_step :=
  match goal with
  | |- context [respond ?E (Http ?r) ?w] =>
      let res := fresh "res" in
      let w' := fresh "w" in
      destruct (respond E (Http r) w) as [res w']; destruct res
  end.

Ltac log_step :=
  match goal with
  | |- context [respond ?E (Log ?l ?s) ?w] =>
      let w' := fresh "w" in
      destruct (respond E (Log l s) w) as [[] w']
  end.

Ltac split_on b :=
  let Hb := fresh "Hb" in
  destruct b eqn:Hb;
  try solve [exfalso; vm_compute in Hb; discriminate Hb].

Ltac branch :=
  match goal with
  | |- context [bind (if ?b then _ else _) _] => split_on b
  | |- context [bind (when ?b _) _] => split_on b
  | |- context [bind (match ?d with Some _ => _ | None => _ end) _] =>
      destruct d eqn:?
  | |- context [bind (match ?d with [] => _ | _ :: _ => _ end) _] =>
      destruct d eqn:?
  | |- context [try_except (if ?b then _ else _) _] => split_on b
  | |- context [run _ (if ?b then _ else _) _] => split_on b
  | |- context [run _ (match ?d with Some _ => _ | None => _ end) _] =>
      destruct d eqn:?
  | |- context [run _ (match ?d with [] => _ | _ :: _ => _ end) _] =>
      destruct d eqn:?
  end.

Ltac known :=
  match goal with
  | Hr : respond ?E ?a ?w = _ |- context [respond ?E ?a ?w] => rewrite Hr
  | Hb : ?b = true |- context [if ?b then _ else _] => rewrite Hb
  | Hb : ?b = false |- context [if ?b then _ else _] => rewrite Hb
  | Hb : ?b = _ |- context [when ?b _] => rewrite Hb
  | Hb : ?b = _ |- context [(?b && _)%bool] => rewrite Hb
  | Hb : ?b = _ |- context [negb ?b] => rewrite Hb
  end.

(** Symbolic execution of a run, one answer of the environment at a time:
    along the answers that are known, and by cases on the others. *)
Ltac exec HT :=
  repeat first
    [ progress cbn [bind try_except run fst snd when andb orb negb head
                    mbind option_bind]
    | known
    | tg_ok HT
    | log_step
    | http_step
    | branch ].

Ltac close_with_facts :=
  repeat match goal with
         | Heq : ?b = _ |- context [?b] => rewrite Heq
         end.

Section DialogueFacts.
Context `{PyBuiltins}.

Lemma no_tg_fetch_products cfg : no_tg (fetch_products cfg).
Proof. unfold fetch_products. no_tg_tac. Qed.

Lemma no_tg_build_products_keyboard cfg : no_tg (build_products_keyboard cfg).
Proof.
  unfold build_products_keyboard. apply no_tg_bind.
  - apply no_tg_fetch_products.
  - intros []; constructor.
Qed.

Lemma no_raise_build_products_keyboard cfg :
  no_raise (build_products_keyboard cfg).
Proof.
  unfold build_products_keyboard. apply no_raise_bind.
  - unfold fetch_products. apply no_raise_catch. intros e.
    unfold log. simpl. repeat constructor.
  - intros []; constructor.
Qed.

Lemma no_tg_create_or_update_client cfg tg_id email :
  no_tg (create_or_update_client cfg tg_id email).
Proof.
  unfold create_or_update_client, find_client_by_tg, update_client,
    create_client.
  no_tg_tac.
Qed.

End DialogueFacts.


Lemma contains_In c s : contains c s = true <-> In c s.
Proof.
  induction s as [|d s IH]; simpl.
  - split; [discriminate | tauto].
  - rewrite orb_true_iff, IH, N.eqb_eq. split; intros [?|?]; auto.
Qed.

Lemma lstrip_In c s : isspace c = false -> In c (lstrip s) <-> In c s.
Proof.
  intros Hc. induction s as [|d s IH]; simpl; [tauto|].
  destruct (isspace d) eqn:Hd; simpl; [|tauto].
  rewrite IH. split; auto. intros [->|?]; auto. congruence.
Qed.

Lemma strip_In c s : isspace c = false -> In c (strip s) <-> In c s.
Proof.
  intros Hc. unfold strip, rstrip.
  rewrite <- in_rev, lstrip_In, <- in_rev, lstrip_In by assumption. tauto.
Qed.

Lemma looks_like_email_iff email :
  looks_like_email email = true <-> In at_sign email /\ In dot email.
Proof.
  unfold looks_like_email.
  rewrite <- !contains_In.
  destruct (contains at_sign email), (contains dot email); simpl; intuition congruence.
Qed.

(** ** The catalog message *)

Lemma product_rows_omap products :
  product_rows products = omap product_button products.
Proof.
  induction products as [|pd rest IH]; [reflexivity|].
  change (omap product_button (pd :: rest))
    with (match product_button pd with
          | Some row => row :: omap product_button rest
          | None => omap product_button rest
          end).
  cbn [product_rows]. unfold product_button at 1.
  destruct (field_get (pd_id pd)) as [pid|]; [|exact IH].
  destruct (pid =? 0); [exact IH|]. now rewrite IH.
Qed.

Lemma keyboard_of_products products :
  match products with
  | [] => [no_products_row; my_cart_row]
  | _ :: _ =>
      match product_rows products with
      | [] => [no_products_row]
      | rows => rows
      end ++ [my_cart_row]
  end = catalog_keyboard products.
Proof.
  unfold catalog_keyboard. rewrite <- product_rows_omap.
  destruct products; reflexivity.
Qed.

(** The run of [build_products_keyboard]: the catalog request, the error
    record when it failed, and the keyboard of the products it gave. *)
Lemma build_products_keyboard_run (E : env) cfg w :
  let res := fst (respond E (Http (GetProducts None)) w) in
  let r := run E (build_products_keyboard cfg) w in
  exists lg,
    out r = Returned (catalog_keyboard (fetched res))
    /\ trace r = Ev (Http (GetProducts None)) res :: lg
    /\ catalog_log lg.
Proof.
  cbv zeta. unfold build_products_keyboard, fetch_products, http, log,
    raise_for_status, catalog_log, fetched, raises.
  cbn [bind try_except run].
  destruct (respond E (Http (GetProducts None)) w) as [[|st d] w1];
    cbn [fst bind try_except run].
  - log_step. cbn [bind run out trace]. eauto.
  - destruct ((400 <=? st) && (st <? 600)); cbn [bind try_except run snd].
    + log_step. cbn [bind run out trace]. eauto.
    + exists []. rewrite <- keyboard_of_products.
      destruct d as [|p d]; cbn [run out trace];
        (split; [|split; [reflexivity | now left]]); [reflexivity|].
      destruct (product_rows (p :: d)); reflexivity.
Qed.

(** The catalog fetched and sent in one message. *)
Lemma catalog_sent (E : env) cfg T (call : keyboard -> tg_call) (f : Z -> T) w :
  reliable_tg E ->
  let res := fst (respond E (Http (GetProducts None)) w) in
  let r := run E (keyboard <- build_products_keyboard cfg ;;
                  sent <- tg (call keyboard) ;;
                  Ret (f sent)) w in
  exists lg mid,
    out r = Returned (f mid)
    /\ trace r
       = Ev (Http (GetProducts None)) res
         :: lg ++ [Ev (Tg (call (catalog_keyboard (fetched res)))) (TgOk mid)]
    /\ catalog_log lg.
Proof.
  intros HT res r. subst r.
  destruct (build_products_keyboard_run E cfg w) as (lg & Ho & Ht & Hl).
  cbv zeta in Ho, Ht. fold res in Ho, Ht.
  rewrite run_bind, (seq_result_returned _ _ _ _ _ _ Ho). cbn [out trace].
  set (w1 := final (run E (build_products_keyboard cfg) w)).
  destruct (run_tg E (call (catalog_keyboard (fetched res))) w1 HT)
    as (mid & Ho2 & Ht2).
  rewrite run_bind, (seq_result_returned _ _ _ _ _ _ Ho2). cbn [run out trace].
  exists lg, mid. rewrite Ht, Ht2, app_nil_r. auto.
Qed.

(** The greeting of [start]. *)
Lemma start_run (E : env) cfg upd ud w reply chat :
  reliable_tg E ->
  event_of upd = Some (reply, chat) ->
  let res := fst (respond E (Http (GetProducts None)) w) in
  let greeting :=
    match upd with UpdMessage _ => TxtHello | _ => TxtChoose end in
  let r := run E (start cfg upd ud) w in
  exists lg mid,
    out r = Returned (STATE_HANDLE_MENU, set_last_menu ud mid)
    /\ trace r
       = Ev (Http (GetProducts None)) res
         :: lg ++ [Ev (Tg (ReplyText chat greeting
                             (Some (catalog_keyboard (fetched res)))))
                      (TgOk mid)]
    /\ catalog_log lg.
Proof.
  intros HT Hev. cbv zeta. unfold start.
  destruct upd as [m|data m|]; [| |discriminate]; injection Hev as _ <-.
  - apply (catalog_sent E cfg _
             (fun kb => ReplyText (chat_id m) TxtHello (Some kb))
             (fun sent => (STATE_HANDLE_MENU, set_last_menu ud sent)) w HT).
  - apply (catalog_sent E cfg _
             (fun kb => ReplyText (chat_id m) TxtChoose (Some kb))
             (fun sent => (STATE_HANDLE_MENU, set_last_menu ud sent)) w HT).
Qed.

Section DispatcherFacts.
Context `{PyBuiltins}.

Lemma state_handler_default label :
  ~ recognized label -> state_handler label = start.
Proof.
  intros Hn. unfold state_handler.
  repeat match goal with
  | |- context [eqb label ?s] =>
      destruct (eqb label s) eqn:?;
      [ exfalso; apply Hn; unfold recognized; simpl;
        match goal with Heq : eqb _ _ = true |- _ => apply eqb_eq in Heq end;
        intuition congruence | ]
  end.
  reflexivity.
Qed.

Lemma state_handler_start : state_handler STATE_START = start.
Proof. reflexivity. Qed.

Lemma user_state_of_start (db : gmap Z pystr) chat reply :
  db !! chat = Some STATE_START -> user_state_of db chat reply = STATE_START.
Proof.
  intros Hdb. unfold user_state_of. rewrite Hdb.
  destruct (bool_decide _); reflexivity.
Qed.

Lemma guarded_run E handler cfg upd (db : gmap Z pystr) ud chat w :
  let r := run E (guarded handler cfg upd db ud chat) w in
  match out (run E (handler cfg upd ud) w) with
  | Returned (st, ud') =>
      out r = Returned (<[chat := st]> db, ud')
      /\ trace r = trace (run E (handler cfg upd ud) w)
  | Raised _ =>
      out r = Returned (<[chat := STATE_START]> db, ud)
      /\ trace r = trace (run E (handler cfg upd ud) w)
                   ++ [Ev (Log Exception LogHandler) tt]
  end.
Proof.
  intros r. subst r. unfold guarded.
  rewrite run_try_except, run_bind. unfold catch_result, seq_result.
  destruct (out (run E (handler cfg upd ud) w)) as [[st ud']|e];
    cbn [run out final trace fst snd].
  - split; [reflexivity | apply app_nil_r].
  - unfold log. cbn [bind run]. log_step. split; reflexivity.
Qed.

(** C9: an event of a chat whose stored label is none of the five dialogue
    states is handled by [start], the default of the dispatch table: the
    dispatcher does exactly what [start] does on the event and stores the
    state [start] returns ([START], after the log record, when [start]
    raises).  With a Telegram API that delivers, the user gets the greeting
    with the catalog, [HANDLE_MENU] is stored for the chat and the message
    is remembered as the menu message. *)
Theorem unknown_label_dispatches_to_start
    (E : env) cfg upd (db : gmap Z pystr) ud w reply chat label :
  event_of upd = Some (reply, chat) ->
  db !! chat = Some label ->
  ~ recognized label ->
  let r := run E (handle_users_reply cfg upd db ud) w in
  let rs := run E (start cfg upd ud) w in
  state_handler (user_state_of db chat reply) = start
  /\ match out rs with
     | Returned (st, ud') =>
         out r = Returned (<[chat := st]> db, ud') /\ trace r = trace rs
     | Raised _ =>
         out r = Returned (<[chat := STATE_START]> db, ud)
         /\ trace r = trace rs ++ [Ev (Log Exception LogHandler) tt]
     end
  /\ (reliable_tg E ->
      let res := fst (respond E (Http (GetProducts None)) w) in
      let greeting :=
        match upd with UpdMessage _ => TxtHello | _ => TxtChoose end in
      exists lg mid,
        out r = Returned
                  (<[chat := STATE_HANDLE_MENU]> db,
                   {| last_menu_msg_id := Some mid;
                      last_card_msg_id := last_card_msg_id ud;
                      last_product_id := last_product_id ud |})
        /\ trace r
           = Ev (Http (GetProducts None)) res
             :: lg ++ [Ev (Tg (ReplyText chat greeting
                                 (Some (catalog_keyboard (fetched res)))))
                          (TgOk mid)]
        /\ catalog_log lg).
Proof.
  intros Hev Hdb Hn r rs.
  assert (Hs : state_handler (user_state_of db chat reply) = start).
  { unfold user_state_of. rewrite Hdb.
    destruct (bool_decide _); [reflexivity|].
    destruct label; [reflexivity|]. now apply state_handler_default. }
  assert (Hr : r = run E (guarded start cfg upd db ud chat) w).
  { unfold r, handle_users_reply. rewrite Hev. cbv zeta. now rewrite Hs. }
  pose proof (guarded_run E start cfg upd db ud chat w) as Hg.
  cbv zeta in Hg. rewrite <- Hr in Hg. fold rs in Hg.
  split; [exact Hs|]. split; [exact Hg|].
  intros HT res greeting.
  destruct (start_run E cfg upd ud w reply chat HT Hev) as (lg & mid & Ho & Ht & Hl).
  cbv zeta in Ho, Ht. fold rs res greeting in Ho, Ht.
  rewrite Ho in Hg. destruct Hg as [Hg1 Hg2].
  exists lg, mid. rewrite Hg1, Hg2, Ht. auto.
Qed.

(** C4: when the transition handler of the current state raises, the
    dispatcher still returns (the event is dropped), the user data are
    untouched, [START] is stored for the chat whatever was stored before,
    and the next event of the chat is handled by [start]. *)
Theorem failed_handler_resets_to_start
    (E : env) cfg upd (db : gmap Z pystr) ud w reply chat e :
  event_of upd = Some (reply, chat) ->
  out (run E (state_handler (user_state_of db chat reply) cfg upd ud) w)
    = Raised e ->
  let r := run E (handle_users_reply cfg upd db ud) w in
  let db' := <[chat := STATE_START]> db in
  out r = Returned (db', ud)
  /\ db' !! chat = Some STATE_START
  /\ In (Exception, LogHandler) (logs_of (trace r))
  /\ forall upd' reply' ud',
       event_of upd' = Some (reply', chat) ->
       handle_users_reply cfg upd' db' ud' = guarded start cfg upd' db' ud' chat.
Proof.
  intros Hev Hraise r db'.
  assert (Hlook : db' !! chat = Some STATE_START)
    by (unfold db'; apply lookup_insert_eq).
  split; [|split; [exact Hlook|split]].
  - unfold r, handle_users_reply. rewrite Hev. cbv zeta. unfold guarded.
    rewrite run_try_except, run_bind. unfold catch_result, seq_result.
    rewrite Hraise. cbn [out final]. unfold log. simpl.
    destruct (respond E _ _) as [[] w']. reflexivity.
  - unfold r, handle_users_reply. rewrite Hev. cbv zeta. unfold guarded.
    rewrite run_try_except, run_bind. unfold catch_result, seq_result.
    rewrite Hraise. cbn [out final trace]. unfold log. simpl.
    destruct (respond E _ _) as [[] w']. simpl.
    unfold logs_of. rewrite omap_app. simpl. apply in_or_app. right. now left.
  - intros upd' reply' ud' Hev'. unfold handle_users_reply. rewrite Hev'.
    cbv zeta. now rewrite (user_state_of_start _ _ _ Hlook).
Qed.

End DispatcherFacts.


Section WaitingEmailFacts.
Context `{PyBuiltins}.

(** The guarded upsert of [handle_waiting_email] always returns and sends
    nothing; when the upsert raises, the failure is logged. *)
Lemma guarded_upsert E cfg tg_id email w :
  let p := try_except
             (create_or_update_client cfg tg_id email ;; Ret tt)
             (fun _ => log Exception LogClientSave) in
  out (run E p w) = Returned tt
  /\ tg_calls_of (trace (run E p w)) = []
  /\ forall e,
       out (run E (create_or_update_client cfg tg_id email) w) = Raised e ->
       In (Exception, LogClientSave) (logs_of (trace (run E p w))).
Proof.
  intros p. split; [|split].
  - destruct (no_raise_returns E _ p w) as [[] Hx]; [|exact Hx].
    apply no_raise_catch. intros e. repeat constructor.
  - apply no_tg_trace. apply no_tg_try_except.
    + apply no_tg_bind; [apply no_tg_create_or_update_client | constructor].
    + intros e. apply no_tg_log.
  - intros e He. unfold p. rewrite run_try_except, run_bind.
    unfold catch_result, seq_result. rewrite He. cbn [out final trace].
    unfold log. cbn [run]. destruct (respond E _ _) as [[] w'].
    cbn [out final trace]. rewrite logs_of_app. apply in_or_app. right. now left.
Qed.

Lemma waiting_email_accepted E cfg m ud w text :
  reliable_tg E ->
  msg_text m = Some text ->
  looks_like_email (strip text) = true ->
  let r := run E (handle_waiting_email cfg (UpdMessage m) ud) w in
  exists kb mid,
    out r = Returned (STATE_HANDLE_MENU, set_last_menu ud mid)
    /\ tg_calls_of (trace r)
       = [ ReplyText (chat_id m) (TxtThanks (strip text)) None;
           ReplyText (chat_id m) TxtContinue (Some kb) ].
Proof.
  intros HT Hm Hok r. unfold r, handle_waiting_email.
  rewrite Hm. cbv zeta. unfold default, id. rewrite Hok. cbn [negb].
  destruct (guarded_upsert E cfg (of_Z (chat_id m)) (strip text) w)
    as (Hu1 & Hu2 & _).
  cbv zeta in Hu1, Hu2.
  set (p1 := try_except
               (create_or_update_client cfg (of_Z (chat_id m)) (strip text) ;;
                Ret tt)
               (fun _ => log Exception LogClientSave)) in *.
  set (w1 := final (run E p1 w)).
  set (w2 := final (run E (log Info LogEmail) w1)).
  destruct (yields_tg E (ReplyText (chat_id m) (TxtThanks (strip text)) None)
              w2 HT) as [mid1 Y3].
  set (w3 := final (run E (tg (ReplyText (chat_id m) (TxtThanks (strip text)) None)) w2)).
  destruct (yields_quiet E _ (build_products_keyboard cfg) w3
              (no_raise_build_products_keyboard cfg)
              (no_tg_build_products_keyboard cfg)) as [kb Y4].
  set (w4 := final (run E (build_products_keyboard cfg) w3)).
  destruct (yields_tg E (ReplyText (chat_id m) TxtContinue (Some kb)) w4 HT)
    as [mid2 Y5].
  exists kb, mid2.
  apply (yields_bind _ _ _ _ _ _ tt [] _ _ (conj Hu1 Hu2)).
  apply (yields_bind _ _ _ _ _ _ tt [] _ _ (yields_log E _ _ w1)).
  apply (yields_bind _ _ _ _ _ _ mid1 [_] [_] _ Y3).
  apply (yields_bind _ _ _ _ _ _ kb [] [_] _ Y4).
  apply (yields_bind _ _ _ _ _ _ mid2 [_] [] _ Y5).
  split; reflexivity.
Qed.

Lemma waiting_email_rejected E cfg m ud w text :
  reliable_tg E ->
  msg_text m = Some text ->
  looks_like_email (strip text) = false ->
  let r := run E (handle_waiting_email cfg (UpdMessage m) ud) w in
  out r = Returned (STATE_WAITING_EMAIL, ud)
  /\ trace r = [ Ev (Tg (ReplyText (chat_id m) TxtNotEmail None))
                    (fst (respond E (Tg (ReplyText (chat_id m) TxtNotEmail None)) w)) ].
Proof.
  intros HT Hm Hno r. unfold r, handle_waiting_email.
  rewrite Hm. cbv zeta. unfold default, id. rewrite Hno. cbn [negb].
  destruct (HT (ReplyText (chat_id m) TxtNotEmail None) w) as [mid Hmid].
  unfold tg. cbn [bind run].
  destruct (respond E _ w) as [res w1]. cbn [fst] in *. subst res.
  cbn. auto.
Qed.

(** C6: in [WAITING_EMAIL] a text is accepted (the bot thanks and moves to
    the menu) exactly when the trimmed text contains ["@"] and ["."];
    trimming does not change that; a rejected text is answered with the
    re-prompt alone and the state stays [WAITING_EMAIL]. *)
Theorem email_validity (E : env) cfg m ud w text :
  reliable_tg E ->
  msg_text m = Some text ->
  let email := strip text in
  let r := run E (handle_waiting_email cfg (UpdMessage m) ud) w in
  ((exists ud', out r = Returned (STATE_HANDLE_MENU, ud'))
     <-> In at_sign email /\ In dot email)
  /\ (In (ReplyText (chat_id m) (TxtThanks email) None) (tg_calls_of (trace r))
     <-> In at_sign email /\ In dot email)
  /\ (In at_sign email /\ In dot email <-> In at_sign text /\ In dot text)
  /\ (~ (In at_sign email /\ In dot email) ->
      out r = Returned (STATE_WAITING_EMAIL, ud)
      /\ tg_calls_of (trace r) = [ReplyText (chat_id m) TxtNotEmail None])
  /\ looks_like_email (strip (lit "not-an-email")) = false
  /\ looks_like_email (strip (lit "foo@bar")) = false
  /\ looks_like_email (strip (lit "a@b.c")) = true.
Proof.
  intros HT Hm email r.
  assert (Hrej : looks_like_email email = false ->
                 out r = Returned (STATE_WAITING_EMAIL, ud)
                 /\ tg_calls_of (trace r) = [ReplyText (chat_id m) TxtNotEmail None]).
  { intros Hno.
    destruct (waiting_email_rejected E cfg m ud w text HT Hm Hno) as [Ho Ht].
    split; [exact Ho|]. fold r in Ht. rewrite Ht. reflexivity. }
  pose proof (looks_like_email_iff email) as Hiff.
  split; [|split; [|split; [|split; [|repeat split]]]].
  - split.
    + intros [ud' Ho]. apply Hiff.
      destruct (looks_like_email email) eqn:Hl; [reflexivity|].
      destruct (Hrej eq_refl) as [Ho' _]. rewrite Ho' in Ho. discriminate.
    + intros Hl. apply Hiff in Hl.
      destruct (waiting_email_accepted E cfg m ud w text HT Hm Hl)
        as (kb & mid & Ho & _).
      eauto.
  - split.
    + intros Hin. apply Hiff.
      destruct (looks_like_email email) eqn:Hl; [reflexivity|].
      destruct (Hrej eq_refl) as [_ Ht]. rewrite Ht in Hin.
      destruct Hin as [Heq|[]]. discriminate.
    + intros Hl. apply Hiff in Hl.
      destruct (waiting_email_accepted E cfg m ud w text HT Hm Hl)
        as (kb & mid & _ & Ht).
      fold r email in Ht. rewrite Ht. now left.
  - unfold email. now rewrite !strip_In by reflexivity.
  - intros Hn. apply Hrej.
    destruct (looks_like_email email); [|reflexivity].
    exfalso. apply Hn. now apply Hiff.
Qed.

(** The run of the guarded upsert: that of the upsert, and the log record
    when it raised. *)
Lemma guarded_upsert_run E cfg tg_id email w :
  let upsert := run E (create_or_update_client cfg tg_id email) w in
  let r := run E (try_except
                    (create_or_update_client cfg tg_id email ;; Ret tt)
                    (fun _ => log Exception LogClientSave)) w in
  out r = Returned tt
  /\ trace r
     = trace upsert
       ++ match out upsert with
          | Returned _ => []
          | Raised _ => [Ev (Log Exception LogClientSave) tt]
          end.
Proof.
  cbv zeta. rewrite run_try_except, run_bind. unfold catch_result, seq_result.
  destruct (out (run E (create_or_update_client cfg tg_id email) w));
    cbn [run out final trace]; [auto|].
  unfold log. cbn [run]. log_step. cbn [out trace]. auto.
Qed.

(** C10: in [WAITING_EMAIL], a text that passes the validity check is
    answered with the confirmation and then with the catalog (the keyboard
    of the products the backend answers at that moment), the state becomes
    [HANDLE_MENU] and the catalog message is remembered as the menu message,
    whatever the contact backend does: when the upsert raises, the failure
    is logged and the run goes on with the same messages. *)
Theorem email_confirmed_despite_upsert_failure (E : env) cfg m ud w text :
  reliable_tg E ->
  msg_text m = Some text ->
  looks_like_email (strip text) = true ->
  let email := strip text in
  let chat := chat_id m in
  let r := run E (handle_waiting_email cfg (UpdMessage m) ud) w in
  let upsert := run E (create_or_update_client cfg (of_Z chat) email) w in
  (exists mid1 res lg mid,
     trace r
     = trace upsert
       ++ match out upsert with
          | Returned _ => []
          | Raised _ => [Ev (Log Exception LogClientSave) tt]
          end
       ++ Ev (Log Info LogEmail) tt
          :: Ev (Tg (ReplyText chat (TxtThanks email) None)) (TgOk mid1)
          :: Ev (Http (GetProducts None)) res
          :: lg ++ [Ev (Tg (ReplyText chat TxtContinue
                              (Some (catalog_keyboard (fetched res)))))
                       (TgOk mid)]
     /\ catalog_log lg
     /\ tg_calls_of (trace upsert) = []
     /\ out r = Returned
                  (STATE_HANDLE_MENU,
                   {| last_menu_msg_id := Some mid;
                      last_card_msg_id := last_card_msg_id ud;
                      last_product_id := last_product_id ud |})
     /\ tg_calls_of (trace r)
        = [ ReplyText chat (TxtThanks email) None;
            ReplyText chat TxtContinue
              (Some (catalog_keyboard (fetched res))) ])
  /\ forall e,
       out upsert = Raised e ->
       In (Exception, LogClientSave) (logs_of (trace r)).
Proof.
  intros HT Hm Hok email chat r upsert.
  assert (Hq : tg_calls_of (trace upsert) = [])
    by (apply no_tg_trace, no_tg_create_or_update_client).
  assert (Hrun : exists mid1 res lg mid,
    trace r
    = trace upsert
      ++ match out upsert with
         | Returned _ => []
         | Raised _ => [Ev (Log Exception LogClientSave) tt]
         end
      ++ Ev (Log Info LogEmail) tt
         :: Ev (Tg (ReplyText chat (TxtThanks email) None)) (TgOk mid1)
         :: Ev (Http (GetProducts None)) res
         :: lg ++ [Ev (Tg (ReplyText chat TxtContinue
                             (Some (catalog_keyboard (fetched res)))))
                      (TgOk mid)]
    /\ catalog_log lg
    /\ out r = Returned (STATE_HANDLE_MENU, set_last_menu ud mid)).
  { unfold r, handle_waiting_email.
    rewrite Hm. cbv zeta. unfold default, id. rewrite Hok. cbn [negb].
    fold email chat.
    destruct (guarded_upsert_run E cfg (of_Z chat) email w) as (Hu1 & Hu2).
    cbv zeta in Hu1, Hu2. fold upsert in Hu2.
    rewrite run_bind, (seq_result_returned _ _ _ _ _ _ Hu1).
    cbn [out trace]. rewrite Hu2.
    set (w1 := final (run E _ w)).
    destruct (run_log E Info LogEmail w1) as [Hl1 Hl2].
    rewrite run_bind, (seq_result_returned _ _ _ _ _ _ Hl1).
    cbn [out trace]. rewrite Hl2.
    set (w2 := final (run E _ w1)).
    destruct (run_tg E (ReplyText chat (TxtThanks email) None) w2 HT)
      as (mid1 & Ho1 & Ht1).
    rewrite run_bind, (seq_result_returned _ _ _ _ _ _ Ho1).
    cbn [out trace]. rewrite Ht1.
    set (w3 := final (run E _ w2)).
    pose proof (catalog_sent E cfg _
                  (fun kb => ReplyText chat TxtContinue (Some kb))
                  (fun sent => (STATE_HANDLE_MENU, set_last_menu ud sent))
                  w3 HT) as Hc.
    cbv zeta in Hc. destruct Hc as (lg & mid2 & Ho & Ht & Hl).
    rewrite Ho, Ht.
    exists mid1, (fst (respond E (Http (GetProducts None)) w3)), lg, mid2.
    rewrite <- app_assoc. auto. }
  destruct Hrun as (mid1 & res & lg & mid & Ht & Hl & Ho).
  split.
  - exists mid1, res, lg, mid. split; [exact Ht|]. split; [exact Hl|].
    split; [exact Hq|]. split; [exact Ho|].
    rewrite Ht, !tg_calls_of_app, Hq.
    assert (Hlg : tg_calls_of lg = []) by (destruct Hl as [-> | ->]; reflexivity).
    cbn [app]. change (tg_calls_of (?a :: ?l)) with (tg_calls_of ([a] ++ l)).
    destruct (out upsert); cbn [app];
      unfold tg_calls_of in *; cbn [omap list_omap]; 
      rewrite omap_app, Hlg; reflexivity.
  - intros e He. rewrite Ht, He, !logs_of_app.
    apply in_or_app. right. apply in_or_app. left. now left.
Qed.

End WaitingEmailFacts.


(** ** Events that match no transition *)

Section UnmatchedEvents.
Context `{PyBuiltins}.

Lemma description_text E cfg m ud w :
  reliable_tg E ->
  yields (run E (handle_description cfg (UpdMessage m) ud) w)
         (Returned (STATE_HANDLE_DESCRIPTION, ud))
         [ReplyText (chat_id m) TxtUseCardButtons None].
Proof.
  intros HT. unfold handle_description, tg. cbn [bind run].
  tg_ok HT. split; reflexivity.
Qed.

Lemma cart_text E cfg m ud w :
  reliable_tg E ->
  yields (run E (handle_cart cfg (UpdMessage m) ud) w)
         (Returned (STATE_HANDLE_CART, ud))
         [ReplyText (chat_id m) TxtUseCartButtons None].
Proof.
  intros HT. unfold handle_cart, tg. cbn [bind run].
  tg_ok HT. split; reflexivity.
Qed.

Lemma menu_text E cfg m ud w :
  reliable_tg E ->
  yields (run E (handle_menu cfg (UpdMessage m) ud) w)
         (Returned (STATE_START, ud))
         [ReplyText (chat_id m) TxtPressStart None].
Proof.
  intros HT. unfold handle_menu, tg. cbn [bind run].
  tg_ok HT. split; reflexivity.
Qed.

Lemma description_unmatched_button E cfg data m ud w :
  reliable_tg E ->
  description_unmatched data ->
  yields (run E (handle_description cfg (UpdCallback data m) ud) w)
         (Returned (STATE_HANDLE_DESCRIPTION, ud)) [AnswerCallback].
Proof.
  intros HT (H1 & H2 & H3). unfold handle_description.
  apply eqb_neq in H1, H2. rewrite H1, H2, H3.
  unfold answer, tg. cbn [bind run]. tg_ok HT. split; reflexivity.
Qed.

Lemma cart_unmatched_button E cfg data m ud w :
  reliable_tg E ->
  cart_unmatched data ->
  yields (run E (handle_cart cfg (UpdCallback data m) ud) w)
         (Returned (STATE_HANDLE_CART, ud)) [AnswerCallback].
Proof.
  intros HT (H1 & H2 & H3). unfold handle_cart.
  apply eqb_neq in H1, H2. rewrite H1, H2, H3.
  unfold answer, tg. cbn [bind run]. tg_ok HT. split; reflexivity.
Qed.

Lemma menu_unparsable_button E cfg data m ud w :
  reliable_tg E ->
  data <> lit "no_products" -> data <> lit "show_cart" ->
  py_int data = None ->
  yields (run E (handle_menu cfg (UpdCallback data m) ud) w)
         (Returned (STATE_HANDLE_MENU, ud))
         [AnswerCallback; ReplyText (chat_id m) TxtUnknownProduct None].
Proof.
  intros HT H1 H2 H3. unfold handle_menu.
  apply eqb_neq in H1, H2. rewrite H1, H2, H3.
  unfold answer, tg. cbn [bind run]. tg_ok HT. cbn [bind run].
  tg_ok HT. split; reflexivity.
Qed.

(** C5, amended: a text message leaves the state unchanged, with a help
    prompt, in [HANDLE_DESCRIPTION] and [HANDLE_CART]; in [HANDLE_MENU] it is
    answered with the prompt to press /start and the state becomes [START].
    A button payload that no branch tests for leaves [HANDLE_DESCRIPTION] and
    [HANDLE_CART] unchanged and only the callback is answered; in
    [HANDLE_MENU] an unparsable payload is answered with a re-prompt and the
    state stays [HANDLE_MENU]. *)
Theorem unmatched_events (E : env) cfg m ud w :
  reliable_tg E ->
  yields (run E (handle_description cfg (UpdMessage m) ud) w)
         (Returned (STATE_HANDLE_DESCRIPTION, ud))
         [ReplyText (chat_id m) TxtUseCardButtons None]
  /\ yields (run E (handle_cart cfg (UpdMessage m) ud) w)
            (Returned (STATE_HANDLE_CART, ud))
            [ReplyText (chat_id m) TxtUseCartButtons None]
  /\ yields (run E (handle_menu cfg (UpdMessage m) ud) w)
            (Returned (STATE_START, ud))
            [ReplyText (chat_id m) TxtPressStart None]
  /\ (forall data, description_unmatched data ->
        yields (run E (handle_description cfg (UpdCallback data m) ud) w)
               (Returned (STATE_HANDLE_DESCRIPTION, ud)) [AnswerCallback])
  /\ (forall data, cart_unmatched data ->
        yields (run E (handle_cart cfg (UpdCallback data m) ud) w)
               (Returned (STATE_HANDLE_CART, ud)) [AnswerCallback])
  /\ (forall data,
        data <> lit "no_products" -> data <> lit "show_cart" ->
        py_int data = None ->
        yields (run E (handle_menu cfg (UpdCallback data m) ud) w)
               (Returned (STATE_HANDLE_MENU, ud))
               [AnswerCallback; ReplyText (chat_id m) TxtUnknownProduct None]).
Proof.
  intros HT.
  split; [now apply description_text|].
  split; [now apply cart_text|].
  split; [now apply menu_text|].
  split; [intros; now apply description_unmatched_button|].
  split; [intros; now apply cart_unmatched_button|].
  intros; now apply menu_unparsable_button.
Qed.

End UnmatchedEvents.

(** ** Removal of a cart item *)

(** C2, amended: the hard delete is always requested; the soft hide (the
    update to quantity 0) is requested exactly when the delete call did not
    raise, that is when it answered 404 or a status outside 400..599.  When
    both calls complete, the user is told that the item was removed if and
    only if one of them succeeded, and that it was already removed
    otherwise; a 404 of either call is no error (only the 404 of the delete
    is logged, as a warning).  When either call raises, the user is told
    that the removal failed. *)
Theorem removal_attempts_and_report (E : env) cfg chat item_id w :
  reliable_tg E ->
  let r := run E (remove_item cfg chat item_id) w in
  exists dres,
    answered delete_item_answer (trace r) = Some dres
    /\ out r = Returned tt
    /\ match delete_outcome dres with
       | None =>
           requests_of (trace r) = [DeleteCartItem item_id]
           /\ tg_calls_of (trace r) = [ReplyText chat TxtRemoveFailed None]
       | Some deleted =>
           exists pres,
             answered put_item_answer (trace r) = Some pres
             /\ requests_of (trace r)
                = [DeleteCartItem item_id; PutCartItem item_id 0%float]
             /\ tg_calls_of (trace r)
                = [ReplyText chat
                     (removal_report deleted (hide_outcome pres)) None]
             /\ (forall d1 d2,
                   dres = Response 404 d1 -> pres = Response 404 d2 ->
                   logs_of (trace r) = [(Warning, LogItemDeleteNotFound)])
       end.
Proof.
  intros HT r. pattern r.
  match goal with |- ?P r => set (Post := P) end.
  unfold r, remove_item, delete_cart_item, hide_cart_item,
    update_cart_item_qty, http, log, tg, raise_for_status, ge400.
  exec HT.
  all: unfold Post; cbn beta; cbn [trace out].
  all: eexists; split; [reflexivity|]; split; [reflexivity|].
  all: cbn [delete_outcome]; unfold raises; close_with_facts;
    cbn [andb orb negb].
  all: try (split; reflexivity).
  all: eexists; split; [reflexivity|]; split; [reflexivity|].
  all: cbn [hide_outcome]; unfold raises; close_with_facts;
    cbn [andb orb negb removal_report].
  all: split; [reflexivity|].
  all: try (intros ? ? [=] [=]; subst; reflexivity).
  all: try (intros ? ? [=] [=]; subst; discriminate).
Qed.


(** ** Cart rendering *)

Lemma falsy_float_leb q : falsy_float q = true -> PrimFloat.leb q 0 = true.
Proof.
  unfold falsy_float.
  rewrite FloatAxioms.eqb_spec, FloatAxioms.leb_spec. unfold SFeqb, SFleb.
  destruct (SFcompare _ _) as [[]|]; congruence.
Qed.

(** The quantity filter in terms of the stored quantity. *)
Lemma visible_stored it :
  visible it
  = match ci_qty_kg it with
    | Some q => negb (PrimFloat.leb q 0)
    | None => false
    end.
Proof.
  unfold visible, num_or_0. destruct (ci_qty_kg it) as [q|]; [|reflexivity].
  destruct (falsy_float q) eqn:Hq; [|reflexivity].
  now rewrite (falsy_float_leb q Hq).
Qed.

Lemma filter_visible raw it :
  In it (List.filter visible raw)
  <-> In it raw /\ exists q, ci_qty_kg it = Some q /\ PrimFloat.leb q 0 = false.
Proof.
  rewrite filter_In, visible_stored.
  destruct (ci_qty_kg it) as [q|].
  - rewrite negb_true_iff. split; [intros []; eauto|].
    intros (Hin & q' & [= <-] & Hq). auto.
  - split; [intros [_ [=]] | intros (_ & q & [=] & _)].
Qed.

Lemma fold_cart_step l acc :
  let v := fold_left cart_step l acc in
  let sh := List.filter (fun e => has_identifier (snd e)) l in
  cv_lines v = cv_lines acc ++ List.map line_of sh
  /\ cv_buttons v = cv_buttons acc ++ List.map (fun e => remove_button (snd e)) sh
  /\ cv_total v
     = fold_left PrimFloat.add (List.map (fun e => item_subtotal (snd e)) sh)
         (cv_total acc).
Proof.
  revert acc. induction l as [|[idx it] l IH]; intros acc; cbn zeta.
  - cbn [fold_left List.filter List.map]. now rewrite !app_nil_r.
  - cbn [fold_left List.filter snd]. specialize (IH (cart_step acc (idx, it))).
    cbn zeta in IH. destruct IH as (IH1 & IH2 & IH3).
    rewrite IH1, IH2, IH3. unfold cart_step, has_identifier.
    destruct (truthy_ident (get_cart_item_identifier it)); cbn [negb].
    + cbn [cv_lines cv_buttons cv_total List.map snd fold_left].
      rewrite <- !app_assoc. repeat split.
    + repeat split.
Qed.

Lemma render_cart_shown cart_items :
  let v := render_cart cart_items in
  cv_lines v = List.map line_of (shown cart_items)
  /\ cv_buttons v = List.map (fun e => remove_button (snd e)) (shown cart_items)
  /\ cv_total v
     = fsum (List.map (fun e => item_subtotal (snd e)) (shown cart_items)).
Proof.
  destruct (fold_cart_step (enumerate 1 cart_items)
              {| cv_lines := []; cv_total := 0%float; cv_buttons := [] |})
    as (H1 & H2 & H3).
  cbn zeta. unfold render_cart, shown, fsum. rewrite H1, H2, H3.
  repeat split.
Qed.

Lemma identifier_prefers_document it :
  (forall d, ci_documentId it = Some d -> d <> [] ->
     get_cart_item_identifier it = IdStr d)
  /\ (forall n, truthy_str (ci_documentId it) = false -> ci_id it = Some n ->
        get_cart_item_identifier it = IdInt n).
Proof.
  unfold get_cart_item_identifier. split.
  - intros d -> Hd. destruct d; congruence.
  - intros n Hd ->. destruct (ci_documentId it) as [[|]|]; simpl in Hd;
      congruence.
Qed.


Section CartViewFacts.
Context `{PyBuiltins}.

Lemma show_cart_no_cart (E : env) cfg upd replace_message w st carts w1 :
  reliable_tg E ->
  upd <> UpdOther ->
  respond E (Http (GetCarts (of_Z (chat_of upd)))) (after_answer E upd w)
    = (Response st carts, w1) ->
  ge400 st = false ->
  truthy_cart (head carts) = false ->
  let r := run E (show_cart cfg upd replace_message) w in
  yields r (Returned STATE_HANDLE_CART)
         (cart_calls upd replace_message TxtCartEmpty empty_cart_keyboard)
  /\ requests_of (trace r) = [GetCarts (of_Z (chat_of upd))].
Proof.
  intros HT Hupd Hc Hst Hfalsy.
  unfold show_cart, send_cart_message, get_cart_by_tg, answer, http, log, tg,
    raise_for_status.
  unfold ge400 in *.
  destruct upd as [m|data m|]; [| |congruence]; destruct replace_message;
    cbn [chat_of after_answer] in Hc.
  all: cbn [bind try_except run].
  all: try (destruct (HT AnswerCallback w) as [mid0 Hmid0];
            destruct (respond E (Tg AnswerCallback) w) as [res0 w0];
            cbn [fst snd] in *; subst res0).
  all: exec HT.
  all: repeat split; reflexivity.
Qed.

Lemma show_cart_items (E : env) cfg upd replace_message w st c cs w1 st' raw w2 :
  reliable_tg E ->
  upd <> UpdOther ->
  respond E (Http (GetCarts (of_Z (chat_of upd)))) (after_answer E upd w)
    = (Response st (c :: cs), w1) ->
  ge400 st = false ->
  nonempty_cart c = true ->
  respond E (Http (ListCartItems (cart_id c))) w1 = (Response st' raw, w2) ->
  ge400 st' = false ->
  let msg := cart_message (List.filter visible raw) in
  let r := run E (show_cart cfg upd replace_message) w in
  yields r (Returned STATE_HANDLE_CART)
         (cart_calls upd replace_message (fst msg) (snd msg))
  /\ requests_of (trace r)
     = [GetCarts (of_Z (chat_of upd)); ListCartItems (cart_id c)].
Proof.
  intros HT Hupd Hc Hst Hfull Hi Hst' msg.
  assert (Htruthy : truthy_cart (Some c) = true) by exact Hfull.
  unfold show_cart, send_cart_message, get_cart_by_tg,
    get_cart_items_with_products, answer, http, log, tg, raise_for_status.
  unfold ge400 in *. unfold msg, cart_message.
  destruct upd as [m|data m|]; [| |congruence]; destruct replace_message;
    cbn [chat_of after_answer] in Hc.
  all: cbn [bind try_except run].
  all: try (destruct (HT AnswerCallback w) as [mid0 Hmid0];
            destruct (respond E (Tg AnswerCallback) w) as [res0 w0];
            cbn [fst snd] in *; subst res0).
  all: exec HT.
  all: destruct (List.filter visible raw) eqn:Hf.
  all: exec HT.
  all: repeat split; reflexivity.
Qed.

(** C3, amended: the cart view leaves out every item whose stored quantity
    is missing or at most 0; of the remaining items it shows, in the order
    of the backend, those that have a truthy identifier (the document
    identifier when it is not empty, else a numeric id other than 0): one
    line with the subtotal quantity times price and one removal button
    [remove_item_<identifier>] for each; the total is the sum of these
    subtotals, added in that order from [0.0] on.  All numbers are
    [float]s.  When the lookup gives no cart (no record, or an empty object
    as the first record) or no item passes the quantity filter, the
    placeholder is sent with the back-to-menu button alone. *)
Theorem cart_view_of_identified_items (E : env) cfg upd replace_message w :
  reliable_tg E ->
  upd <> UpdOther ->
  (forall raw,
     let cart_items := List.filter visible raw in
     let v := render_cart cart_items in
     (forall it,
        In it cart_items
        <-> In it raw
            /\ exists q, ci_qty_kg it = Some q /\ PrimFloat.leb q 0 = false)
     /\ cv_lines v = List.map line_of (shown cart_items)
     /\ (forall e,
           cl_subtotal (line_of e)
           = (num_or_0 (ci_qty_kg (snd e)) * item_price (snd e))%float)
     /\ cv_buttons v
        = List.map
            (fun e =>
               [ btn (LblRemove (take 20 (item_title (snd e))))
                     (lit "remove_item_"
                      ++ fmt_ident (get_cart_item_identifier (snd e))) ])
            (shown cart_items)
     /\ cv_total v
        = fsum (List.map (fun e => item_subtotal (snd e)) (shown cart_items))
     /\ (cart_items <> [] ->
         cart_message cart_items
         = (TxtCart (cv_lines v) (cv_total v),
            cv_buttons v ++ [ [ btn LblPay (lit "pay") ] ]
                         ++ [ [ btn LblBackMenu (lit "back_to_menu") ] ])))
  /\ (forall it,
        (forall d, ci_documentId it = Some d -> d <> [] ->
           get_cart_item_identifier it = IdStr d)
        /\ (forall n, truthy_str (ci_documentId it) = false ->
              ci_id it = Some n -> get_cart_item_identifier it = IdInt n))
  /\ cart_message [] = (TxtCartEmpty, [ [ btn LblMenu (lit "back_to_menu") ] ])
  /\ (forall st carts w1,
        respond E (Http (GetCarts (of_Z (chat_of upd)))) (after_answer E upd w)
          = (Response st carts, w1) ->
        ge400 st = false ->
        carts = [] \/ (exists c cs, carts = c :: cs /\ nonempty_cart c = false) ->
        let r := run E (show_cart cfg upd replace_message) w in
        yields r (Returned STATE_HANDLE_CART)
               (cart_calls upd replace_message
                  (fst (cart_message [])) (snd (cart_message [])))
        /\ requests_of (trace r) = [GetCarts (of_Z (chat_of upd))])
  /\ (forall st c cs w1 st' raw w2,
        respond E (Http (GetCarts (of_Z (chat_of upd)))) (after_answer E upd w)
          = (Response st (c :: cs), w1) ->
        ge400 st = false ->
        nonempty_cart c = true ->
        respond E (Http (ListCartItems (cart_id c))) w1
          = (Response st' raw, w2) ->
        ge400 st' = false ->
        let msg := cart_message (List.filter visible raw) in
        let r := run E (show_cart cfg upd replace_message) w in
        yields r (Returned STATE_HANDLE_CART)
               (cart_calls upd replace_message (fst msg) (snd msg))
        /\ requests_of (trace r)
           = [GetCarts (of_Z (chat_of upd)); ListCartItems (cart_id c)]).
Proof.
  intros HT Hupd.
  split; [|split; [|split; [|split]]].
  - intros raw cart_items v.
    destruct (render_cart_shown cart_items) as (H1 & H2 & H3).
    split; [intros it; apply filter_visible|].
    split; [exact H1|]. split; [reflexivity|].
    split; [exact H2|]. split; [exact H3|].
    intros Hne. unfold cart_message. destruct cart_items; [congruence|].
    reflexivity.
  - apply identifier_prefers_document.
  - reflexivity.
  - intros st carts w1 Hc Hst Hno.
    apply (show_cart_no_cart E cfg upd replace_message w st carts w1);
      try assumption.
    destruct Hno as [-> | (c & cs & -> & Hc0)]; [reflexivity | exact Hc0].
  - intros st c cs w1 st' raw w2 Hc Hst Hfull Hi Hst'.
    now apply (show_cart_items E cfg upd replace_message w st c cs w1 st' raw w2).
Qed.

End CartViewFacts.

(** ** The image of a product *)

Section ProductFacts.
Context `{PyBuiltins}.

Lemma select_img_url_cases po :
  let sel := select_img_url (Some (PicDict po)) in
  (forall m u, pic_medium po = Some m -> fmt_url m = Some u -> u <> [] ->
     sel = Some u)
  /\ (forall sm u, pic_medium po = None -> pic_small po = Some sm ->
        fmt_url sm = Some u -> u <> [] -> sel = Some u)
  /\ (pic_medium po = None -> pic_small po = None -> sel = pic_url po)
  /\ (forall m, pic_medium po = Some m -> truthy_str (fmt_url m) = false ->
        sel = pic_url po)
  /\ (forall sm, pic_medium po = None -> pic_small po = Some sm ->
        truthy_str (fmt_url sm) = false -> sel = pic_url po).
Proof.
  cbn [select_img_url]. repeat split.
  - intros m u -> Hu Hne. rewrite Hu. destruct u; [congruence|reflexivity].
  - intros sm u -> -> Hu Hne. rewrite Hu. destruct u; [congruence|reflexivity].
  - intros -> ->. reflexivity.
  - intros m -> ->. reflexivity.
  - intros sm -> -> ->. reflexivity.
Qed.

Lemma resolve_image_url_spec cfg sel :
  resolve_image_url cfg sel
  = if truthy_str sel then absolute_url cfg (default [] sel) else [].
Proof. destruct sel as [[|c u]|]; reflexivity. Qed.

(** C8, amended: the image URL of every product that [get_product_by_id]
    returns is the URL of the medium rendition when there is a medium
    rendition with a URL; the URL of the small rendition when there is no
    medium rendition and the small one has a URL; and the URL of the picture
    itself otherwise, also when the medium rendition has no URL and the
    small one has.  It is empty when there is no picture (or none of these
    URLs); and a URL that starts with neither [http://] nor [https://] is
    joined to the base URL of the backend. *)
Theorem image_url_resolution (E : env) cfg product_id w p :
  out (run E (get_product_by_id cfg product_id) w) = Returned (Some p) ->
  exists pd,
    p = make_product cfg product_id pd
    /\ (exists st rest,
          fst (respond E (Http (GetProducts (Some product_id))) w)
          = Response st (pd :: rest))
    /\ let sel := select_img_url (pd_picture pd) in
       p_image_url p
       = (if truthy_str sel then absolute_url cfg (default [] sel) else [])
       /\ (forall u, absolute_url cfg u
                     = if startswith (lit "http://") u
                          || startswith (lit "https://") u
                       then u else urljoin (base_url cfg) u)
       /\ (forall po, pd_picture pd = Some (PicDict po) ->
             (forall m u, pic_medium po = Some m -> fmt_url m = Some u ->
                u <> [] -> sel = Some u)
             /\ (forall sm u, pic_medium po = None -> pic_small po = Some sm ->
                   fmt_url sm = Some u -> u <> [] -> sel = Some u)
             /\ (pic_medium po = None -> pic_small po = None ->
                 sel = pic_url po)
             /\ (forall m, pic_medium po = Some m ->
                   truthy_str (fmt_url m) = false -> sel = pic_url po)
             /\ (forall sm, pic_medium po = None -> pic_small po = Some sm ->
                   truthy_str (fmt_url sm) = false -> sel = pic_url po))
       /\ (pd_picture pd = None \/ pd_picture pd = Some PicOther ->
           p_image_url p = []).
Proof.
  unfold get_product_by_id, http, log, raise_for_status.
  cbn [bind try_except run].
  destruct (respond E (Http (GetProducts (Some product_id))) w)
    as [[|st [|pd rest]] w1]; cbn [fst].
  - exec I. cbn. discriminate.
  - exec I; cbn; discriminate.
  - exec I; cbn; try discriminate. intros [= <-].
    exists pd. split; [reflexivity|]. split; [eauto|].
    cbn [make_product p_image_url].
    split; [apply resolve_image_url_spec|]. split; [reflexivity|].
    split.
    + intros po ->. apply select_img_url_cases.
    + intros [-> | ->]; reflexivity.
Qed.

End ProductFacts.


(** ** The clients against the sequential backend *)

Section SequentialBackend.
Variable doc_of : Z -> option pystr.

Lemma ensure_existing cfg tg_id s c cs :
  List.filter (owned_by tg_id) (carts s) = c :: cs ->
  run (strapi doc_of) (ensure_cart_exists cfg tg_id) s
  = Build_run_result (strapi doc_of) _
      (Returned (Some (cart_view_of c))) s
      [Ev (Http (GetCarts tg_id))
          (Response 200 (List.map cart_view_of (c :: cs)))].
Proof.
  intros Hf. unfold ensure_cart_exists, get_cart_by_tg, http.
  cbn [bind run respond strapi serve]. fold (owned_by tg_id). rewrite Hf.
  reflexivity.
Qed.

Lemma ensure_missing cfg tg_id s :
  List.filter (owned_by tg_id) (carts s) = [] ->
  let c := {| cr_id := next_id s; cr_tg := tg_id |} in
  run (strapi doc_of) (ensure_cart_exists cfg tg_id) s
  = Build_run_result (strapi doc_of) _
      (Returned (Some (cart_view_of c)))
      (with_carts s (carts s ++ [c]) (next_id s + 1))
      [Ev (Http (GetCarts tg_id)) (Response 200 []);
       Ev (Http (PostCart tg_id)) (Response 201 (Some (cart_view_of c)))].
Proof.
  intros Hf. unfold ensure_cart_exists, get_cart_by_tg, create_cart_for_tg, http.
  cbn [bind run respond strapi serve]. fold (owned_by tg_id). rewrite Hf.
  reflexivity.
Qed.

(** C7: on the sequential backend [ensure_cart_exists] returns a cart of
    the chat; a second call returns the same cart, sends the lookup alone
    and leaves the store as it is; a cart is created only when the lookup
    finds none, and then the chat has exactly one.  For any backend: when
    the first record of the lookup is a cart (an object that is not empty),
    it is returned and nothing is created; when the lookup answers with no
    record, or with an empty object as the first, the creation is
    requested. *)
Theorem ensure_cart_idempotent cfg tg_id s :
  let E := strapi doc_of in
  let r1 := run E (ensure_cart_exists cfg tg_id) s in
  let r2 := run E (ensure_cart_exists cfg tg_id) (final r1) in
  (exists c, out r1 = Returned (Some c) /\ out r2 = Returned (Some c)
             /\ cart_tg_id c = Some tg_id)
  /\ final r2 = final r1
  /\ requests_of (trace r2) = [GetCarts tg_id]
  /\ (List.filter (owned_by tg_id) (carts s) <> [] -> final r1 = s)
  /\ (List.filter (owned_by tg_id) (carts s) = [] ->
      exists c0, List.filter (owned_by tg_id) (carts (final r2)) = [c0])
  /\ (forall (E' : env) w st c cs w1,
        respond E' (Http (GetCarts tg_id)) w = (Response st (c :: cs), w1) ->
        ge400 st = false ->
        nonempty_cart c = true ->
        out (run E' (ensure_cart_exists cfg tg_id) w) = Returned (Some c)
        /\ requests_of (trace (run E' (ensure_cart_exists cfg tg_id) w))
           = [GetCarts tg_id])
  /\ (forall (E' : env) w st carts w1,
        respond E' (Http (GetCarts tg_id)) w = (Response st carts, w1) ->
        ge400 st = false ->
        carts = [] \/ (exists c cs, carts = c :: cs /\ nonempty_cart c = false) ->
        requests_of (trace (run E' (ensure_cart_exists cfg tg_id) w))
        = [GetCarts tg_id; PostCart tg_id]
        /\ out (run E' (ensure_cart_exists cfg tg_id) w)
           = propagated (fst (respond E' (Http (PostCart tg_id)) w1))
               (fun d => d)).
Proof.
  intros E r1 r2. subst E.
  assert (Hcases :
    (exists c, out r1 = Returned (Some c) /\ out r2 = Returned (Some c)
               /\ cart_tg_id c = Some tg_id)
    /\ final r2 = final r1
    /\ requests_of (trace r2) = [GetCarts tg_id]
    /\ (List.filter (owned_by tg_id) (carts s) <> [] -> final r1 = s)
    /\ (List.filter (owned_by tg_id) (carts s) = [] ->
        exists c0, List.filter (owned_by tg_id) (carts (final r2)) = [c0])).
  { destruct (List.filter (owned_by tg_id) (carts s)) as [|c cs] eqn:Hf.
    - (* no cart yet: the first call creates one *)
      pose (c0 := {| cr_id := next_id s; cr_tg := tg_id |}).
      assert (Hf1 : List.filter (owned_by tg_id)
                      (carts (with_carts s (carts s ++ [c0]) (next_id s + 1)))
                    = [c0]).
      { cbn [carts with_carts]. rewrite List.filter_app, Hf.
        cbn [List.filter app]. unfold owned_by at 1. cbn [cr_tg c0].
        now rewrite eqb_refl. }
      assert (H1 := ensure_missing cfg tg_id s Hf). cbv zeta in H1.
      fold c0 in H1. fold r1 in H1.
      assert (H2 : r2 = run (strapi doc_of) (ensure_cart_exists cfg tg_id)
                          (with_carts s (carts s ++ [c0]) (next_id s + 1)))
        by (unfold r2; now rewrite H1).
      rewrite (ensure_existing cfg tg_id _ c0 [] Hf1) in H2.
      rewrite H1, H2. cbn [out final trace].
      split; [exists (cart_view_of c0); auto|].
      split; [reflexivity|]. split; [reflexivity|].
      split; [congruence|]. intros _. exists c0. exact Hf1.
    - assert (H1 := ensure_existing cfg tg_id s c cs Hf).
      fold r1 in H1.
      assert (H2 : r2 = run (strapi doc_of) (ensure_cart_exists cfg tg_id) s)
        by (unfold r2; now rewrite H1).
      rewrite (ensure_existing cfg tg_id s c cs Hf) in H2.
      rewrite H1, H2. cbn [out final trace].
      split.
      { exists (cart_view_of c). repeat split.
        assert (Hin : In c (List.filter (owned_by tg_id) (carts s)))
          by (rewrite Hf; now left).
        apply filter_In in Hin. destruct Hin as [_ Hown].
        apply eqb_eq in Hown. cbn. now rewrite Hown. }
      split; [reflexivity|]. split; [reflexivity|].
      split; [reflexivity|]. congruence. }
  destruct Hcases as (C1 & C2 & C3 & C4 & C5).
  repeat (split; [assumption|]).
  split.
  - intros E' w st c cs w1 Hc Hst Hfull. unfold ge400 in Hst.
    assert (Htruthy : truthy_cart (Some c) = true) by exact Hfull.
    unfold ensure_cart_exists, get_cart_by_tg, http, log, raise_for_status,
      ge400.
    exec I. split; reflexivity.
  - intros E' w st carts w1 Hc Hst Hno. unfold ge400 in Hst.
    assert (Hfalsy : truthy_cart (head carts) = false)
      by (destruct Hno as [-> | (c & cs & -> & Hc0)];
          [reflexivity | exact Hc0]).
    unfold ensure_cart_exists, get_cart_by_tg, create_cart_for_tg, http, log,
      raise_for_status, ge400, propagated, raises.
    exec I; split; reflexivity.
Qed.

End SequentialBackend.


(** ** Adding to the cart *)

Lemma find_app {A} (f : A -> bool) l1 l2 :
  List.find f (l1 ++ l2)
  = match List.find f l1 with Some x => Some x | None => List.find f l2 end.
Proof.
  induction l1 as [|x l1 IH]; simpl; [reflexivity|].
  destruct (f x); [reflexivity | exact IH].
Qed.

Lemma find_none_all {A} (f : A -> bool) l :
  (forall x, In x l -> f x = false) -> List.find f l = None.
Proof.
  induction l as [|x l IH]; simpl; intros Hall; [reflexivity|].
  rewrite (Hall x) by now left. apply IH. intros y Hy. apply Hall. now right.
Qed.

Lemma num_or_0_truthy q : falsy_float q = false -> num_or_0 (Some q) = q.
Proof. unfold num_or_0. now intros ->. Qed.

Section AddToCart.
Variable doc_of : Z -> option pystr.

Lemma view_address s populate it :
  fmt_ident (get_cart_item_identifier (item_view doc_of s populate it))
  = address doc_of (ir_id it).
Proof.
  unfold address, get_cart_item_identifier. cbn [item_view ci_documentId ci_id].
  destruct (doc_of (ir_id it)) as [[|c d]|]; reflexivity.
Qed.

Lemma for_pair_new cid pid n q :
  for_pair cid pid
    {| ir_id := n; ir_cart := cid; ir_product := pid; ir_qty := q |} = true.
Proof.
  unfold for_pair, in_cart. cbn [ir_cart ir_product].
  rewrite Z.eqb_refl. destruct cid; [|reflexivity].
  now rewrite bool_decide_eq_true_2.
Qed.

Lemma old_not_addressed s :
  distinct_addresses doc_of -> fresh_ids s ->
  forall it, In it (items s) ->
    addressed doc_of (address doc_of (next_id s)) it = false.
Proof.
  intros Hinj Hfresh it Hin. unfold addressed. apply eqb_neq. intros Heq.
  apply Hinj in Heq. specialize (Hfresh it Hin). lia.
Qed.

(** The first addition: no item of the pair, one is created. *)
Lemma add_creates cfg cid pid q s :
  List.filter (for_pair cid pid) (items s) = [] ->
  let it := {| ir_id := next_id s; ir_cart := cid; ir_product := pid;
               ir_qty := q |} in
  run (strapi doc_of) (add_or_increment_item cfg cid pid q) s
  = Build_run_result (strapi doc_of) _
      (Returned (Some (item_view doc_of s false it)))
      (with_items s (items s ++ [it]) (next_id s + 1))
      [Ev (Http (FindCartItems cid pid)) (Response 200 []);
       Ev (Http (PostCartItem cid pid q))
          (Response 201 (Some (item_view doc_of s false it)))].
Proof.
  intros Hf. unfold add_or_increment_item, find_cart_item, create_cart_item,
    http.
  cbn [bind run respond strapi serve]. rewrite Hf. reflexivity.
Qed.

(** A further addition: the item of the pair is found and updated. *)
Lemma add_increments cfg cid pid q s it :
  List.filter (for_pair cid pid) (items s) = [it] ->
  List.find (addressed doc_of (address doc_of (ir_id it))) (items s) = Some it ->
  let new_qty := (num_or_0 (Some (ir_qty it)) + q)%float in
  let path := address doc_of (ir_id it) in
  run (strapi doc_of) (add_or_increment_item cfg cid pid q) s
  = Build_run_result (strapi doc_of) _
      (Returned (Some (item_view doc_of s false (set_qty new_qty it))))
      (with_items s
         (List.map (fun i => if addressed doc_of path i
                             then set_qty new_qty i else i) (items s))
         (next_id s))
      [Ev (Http (FindCartItems cid pid))
          (Response 200 [item_view doc_of s false it]);
       Ev (Http (PutCartItem path new_qty))
          (Response 200 (Some (item_view doc_of s false (set_qty new_qty it))))].
Proof.
  intros Hf Hfind new_qty path.
  unfold add_or_increment_item, find_cart_item, update_cart_item_qty, http.
  cbn [bind run respond strapi serve]. rewrite Hf.
  cbn [List.map head fst snd].
  change (ge400 200) with false. change (raise_for_status 200) with (Ret tt).
  cbn [when bind run]. rewrite view_address.
  cbn [item_view ci_qty_kg]. fold new_qty path.
  cbn [bind run respond strapi serve]. fold path in Hfind. rewrite Hfind.
  reflexivity.
Qed.

Lemma two_additions cfg cid pid a b s :
  distinct_addresses doc_of ->
  fresh_ids s ->
  List.filter (for_pair cid pid) (items s) = [] ->
  let it := {| ir_id := next_id s; ir_cart := cid; ir_product := pid;
               ir_qty := a |} in
  let new_qty := (num_or_0 (Some a) + b)%float in
  let r1 := run (strapi doc_of) (add_or_increment_item cfg cid pid a) s in
  let r2 := run (strapi doc_of) (add_or_increment_item cfg cid pid b)
              (final r1) in
  List.filter (for_pair cid pid) (items (final r1)) = [it]
  /\ requests_of (trace r1) = [FindCartItems cid pid; PostCartItem cid pid a]
  /\ List.filter (for_pair cid pid) (items (final r2)) = [set_qty new_qty it]
  /\ requests_of (trace r2)
     = [FindCartItems cid pid;
        PutCartItem (address doc_of (next_id s)) new_qty].
Proof.
  intros Hinj Hfresh Hf it new_qty r1 r2.
  assert (H1 := add_creates cfg cid pid a s Hf). cbv zeta in H1.
  fold it in H1. fold r1 in H1.
  set (s1 := with_items s (items s ++ [it]) (next_id s + 1)).
  assert (Hf1 : List.filter (for_pair cid pid) (items s1) = [it]).
  { unfold s1. cbn [items with_items]. rewrite List.filter_app, Hf.
    cbn [List.filter app]. unfold it. now rewrite for_pair_new. }
  assert (Hold : forall i, In i (items s) ->
                   addressed doc_of (address doc_of (ir_id it)) i = false)
    by (apply old_not_addressed; assumption).
  assert (Hself : addressed doc_of (address doc_of (ir_id it)) it = true)
    by (unfold addressed; apply eqb_refl).
  assert (Hfind : List.find (addressed doc_of (address doc_of (ir_id it)))
                    (items s1) = Some it).
  { unfold s1. cbn [items with_items]. rewrite find_app.
    rewrite (find_none_all _ _ Hold). cbn [List.find]. now rewrite Hself. }
  assert (H2 := add_increments cfg cid pid b s1 it Hf1 Hfind).
  cbv zeta in H2. cbn [ir_qty it] in H2. fold new_qty in H2.
  assert (Hr2 : r2 = run (strapi doc_of) (add_or_increment_item cfg cid pid b) s1)
    by (unfold r2; now rewrite H1).
  rewrite H2 in Hr2. rewrite H1, Hr2. cbn [out final trace].
  split; [exact Hf1|]. split; [reflexivity|]. split; [|reflexivity].
  unfold s1. cbn [items with_items]. rewrite List.map_app, List.filter_app.
  cbn [List.map]. rewrite Hself.
  rewrite (map_ext_in _ (fun i => i) (items s)).
  - rewrite List.map_id, Hf. cbn [List.filter app].
    change (for_pair cid pid (set_qty new_qty it))
      with (for_pair cid pid it).
    unfold it. now rewrite for_pair_new.
  - intros i Hi. now rewrite (Hold i Hi).
Qed.

End AddToCart.

Section AddOrIncrement.
Context `{PyBuiltins}.

Lemma add_requests_create (E : env) cfg cid pid q w st w1 :
  respond E (Http (FindCartItems cid pid)) w = (Response st [], w1) ->
  ge400 st = false ->
  requests_of (trace (run E (add_or_increment_item cfg cid pid q) w))
  = [FindCartItems cid pid; PostCartItem cid pid q].
Proof.
  intros Hfind Hst. unfold ge400 in Hst.
  unfold add_or_increment_item, find_cart_item, create_cart_item, http, log,
    raise_for_status, ge400.
  exec I; reflexivity.
Qed.

Lemma add_requests_update (E : env) cfg cid pid q w st existing rest w1 :
  respond E (Http (FindCartItems cid pid)) w
    = (Response st (existing :: rest), w1) ->
  ge400 st = false ->
  let new_qty := (num_or_0 (ci_qty_kg existing) + q)%float in
  let path := fmt_ident (get_cart_item_identifier existing) in
  let r := run E (add_or_increment_item cfg cid pid q) w in
  (exists more,
     requests_of (trace r)
     = FindCartItems cid pid :: PutCartItem path new_qty :: more)
  /\ (forall d w2,
        respond E (Http (PutCartItem path new_qty)) w1 = (Response 404 d, w2) ->
        requests_of (trace r)
        = [FindCartItems cid pid; PutCartItem path new_qty;
           PostCartItem cid pid new_qty])
  /\ (forall st2 u w2,
        respond E (Http (PutCartItem path new_qty)) w1
          = (Response st2 (Some u), w2) ->
        ge400 st2 = false ->
        out r = Returned (Some u)
        /\ requests_of (trace r)
           = [FindCartItems cid pid; PutCartItem path new_qty])
  /\ (forall st2 w2,
        respond E (Http (PutCartItem path new_qty)) w1
          = (Response st2 None, w2) ->
        ge400 st2 = false ->
        requests_of (trace r)
        = [FindCartItems cid pid; PutCartItem path new_qty;
           PostCartItem cid pid new_qty]).
Proof.
  intros Hfind Hst new_qty path r. unfold ge400 in Hst.
  subst new_qty path r.
  split; [|split; [|split]].
  - unfold add_or_increment_item, find_cart_item, update_cart_item_qty,
      create_cart_item, http, log, raise_for_status, ge400.
    exec I; eexists; reflexivity.
  - intros d w2 Hput.
    unfold add_or_increment_item, find_cart_item, update_cart_item_qty,
      create_cart_item, http, log, raise_for_status, ge400.
    exec I; reflexivity.
  - intros st2 u w2 Hput Hst2. unfold ge400 in Hst2.
    assert (H404 : (st2 =? 404) = false)
      by (apply Z.eqb_neq; apply Z.leb_gt in Hst2; lia).
    unfold add_or_increment_item, find_cart_item, update_cart_item_qty,
      create_cart_item, http, log, raise_for_status, ge400.
    exec I; split; reflexivity.
  - intros st2 w2 Hput Hst2. unfold ge400 in Hst2.
    assert (H404 : (st2 =? 404) = false)
      by (apply Z.eqb_neq; apply Z.leb_gt in Hst2; lia).
    unfold add_or_increment_item, find_cart_item, update_cart_item_qty,
      create_cart_item, http, log, raise_for_status, ge400.
    exec I; reflexivity.
Qed.

End AddOrIncrement.


Lemma lit_inj s t : lit s = lit t -> s = t.
Proof.
  unfold lit. intros Heq.
  rewrite <- (string_of_list_ascii_of_string s),
          <- (string_of_list_ascii_of_string t).
  f_equal. revert Heq.
  generalize (list_ascii_of_string s) (list_ascii_of_string t).
  induction l as [|a l IH]; intros [|b l']; simpl; intros Heq;
    try discriminate; [reflexivity|].
  injection Heq as Hab Hl. f_equal; [|now apply IH].
  rewrite <- (ascii_N_embedding a), <- (ascii_N_embedding b). now rewrite Hab.
Qed.

Lemma to_int_proper n : Z.to_int n <> Decimal.Pos Decimal.Nil
                        /\ Z.to_int n <> Decimal.Neg Decimal.Nil.
Proof.
  split; intros Heq; pose proof (DecimalZ.of_to n) as Hn;
    rewrite Heq in Hn; simpl in Hn; subst n; discriminate.
Qed.

Lemma of_Z_inj n m : of_Z n = of_Z m -> n = m.
Proof.
  unfold of_Z. intros Heq. apply lit_inj in Heq.
  apply DecimalZ.to_int_inj.
  destruct (to_int_proper n) as [Hn1 Hn2], (to_int_proper m) as [Hm1 Hm2].
  pose proof (NilZero.isi _ Hn1 Hn2) as Hn.
  pose proof (NilZero.isi _ Hm1 Hm2) as Hm.
  rewrite Heq in Hn. rewrite Hn in Hm. now injection Hm.
Qed.

Lemma no_docs_distinct : distinct_addresses no_docs.
Proof. intros i j. apply of_Z_inj. Qed.

(** C1: on the sequential backend, starting without an item of the pair, a
    first [add_or_increment_item] with quantity [a] creates the item of the
    pair with quantity [a], and a second one with quantity [b] updates that
    item: the pair has exactly one item, of quantity [(a or 0) + b], which
    is [a + b] unless [a] is a zero; the sum is that of [float]s.  For any
    backend: when the lookup finds nothing the item is created with the
    quantity to add; when it finds an item, that item is updated to its
    quantity plus the quantity to add, and when the update answers 404, or
    answers without the record, a fresh item is created with the sum. *)
Theorem add_or_increment_keeps_one_item doc_of cfg cid pid a b s :
  distinct_addresses doc_of ->
  fresh_ids s ->
  List.filter (for_pair cid pid) (items s) = [] ->
  let E := strapi doc_of in
  let r1 := run E (add_or_increment_item cfg cid pid a) s in
  let r2 := run E (add_or_increment_item cfg cid pid b) (final r1) in
  (exists it, List.filter (for_pair cid pid) (items (final r1)) = [it]
              /\ ir_qty it = a)
  /\ (exists it, List.filter (for_pair cid pid) (items (final r2)) = [it]
                 /\ ir_qty it = (num_or_0 (Some a) + b)%float
                 /\ (falsy_float a = false -> ir_qty it = (a + b)%float))
  /\ requests_of (trace r1) = [FindCartItems cid pid; PostCartItem cid pid a]
  /\ requests_of (trace r2)
     = [FindCartItems cid pid;
        PutCartItem (address doc_of (next_id s)) (num_or_0 (Some a) + b)%float]
  /\ (forall (E' : env) w q st w1,
        respond E' (Http (FindCartItems cid pid)) w = (Response st [], w1) ->
        ge400 st = false ->
        requests_of (trace (run E' (add_or_increment_item cfg cid pid q) w))
        = [FindCartItems cid pid; PostCartItem cid pid q])
  /\ (forall (E' : env) w q st existing rest w1,
        respond E' (Http (FindCartItems cid pid)) w
          = (Response st (existing :: rest), w1) ->
        ge400 st = false ->
        let new_qty := (num_or_0 (ci_qty_kg existing) + q)%float in
        let path := fmt_ident (get_cart_item_identifier existing) in
        let r := run E' (add_or_increment_item cfg cid pid q) w in
        (exists more,
           requests_of (trace r)
           = FindCartItems cid pid :: PutCartItem path new_qty :: more)
        /\ (forall d w2,
              respond E' (Http (PutCartItem path new_qty)) w1
                = (Response 404 d, w2) ->
              requests_of (trace r)
              = [FindCartItems cid pid; PutCartItem path new_qty;
                 PostCartItem cid pid new_qty])
        /\ (forall st2 u w2,
              respond E' (Http (PutCartItem path new_qty)) w1
                = (Response st2 (Some u), w2) ->
              ge400 st2 = false ->
              out r = Returned (Some u)
              /\ requests_of (trace r)
                 = [FindCartItems cid pid; PutCartItem path new_qty])
        /\ (forall st2 w2,
              respond E' (Http (PutCartItem path new_qty)) w1
                = (Response st2 None, w2) ->
              ge400 st2 = false ->
              requests_of (trace r)
              = [FindCartItems cid pid; PutCartItem path new_qty;
                 PostCartItem cid pid new_qty])).
Proof.
  intros Hinj Hfresh Hf E r1 r2. subst E.
  destruct (two_additions doc_of cfg cid pid a b s Hinj Hfresh Hf)
    as (T1 & T2 & T3 & T4).
  cbv zeta in T1, T2, T3, T4. fold r1 in T1, T2, T3, T4. fold r2 in T3, T4.
  split; [eexists; split; [exact T1 | reflexivity]|].
  split.
  { eexists; split; [exact T3|]. cbn [ir_qty set_qty].
    split; [reflexivity|]. intros Ha. now rewrite (num_or_0_truthy a Ha). }
  split; [exact T2|]. split; [exact T4|].
  split.
  - intros E' w q st w1. apply add_requests_create.
  - intros E' w q st existing rest w1. apply add_requests_update.
Qed.


(** ** Concrete runs *)

#[local] Existing Instance ascii_builtins.

(** C5, as stated, fails: a plain text in [HANDLE_MENU] stores [START], and
    a button payload that [handle_description] does not know is answered
    without any prompt. *)
Lemma menu_text_resets_state :
  let db := <[7 := STATE_HANDLE_MENU]> (∅ : gmap Z pystr) in
  let r := run (strapi no_docs)
             (handle_users_reply cfg0 (UpdMessage (text_message 7 "hello"))
                db ud0)
             empty_store in
  db !! 7 = Some STATE_HANDLE_MENU
  /\ state_after r 7 = Some STATE_START
  /\ STATE_START <> STATE_HANDLE_MENU
  /\ tg_calls_of (trace r) = [ReplyText 7 TxtPressStart None]
  /\ tg_calls_of
       (trace (run (strapi no_docs)
                 (handle_description cfg0 (button_press 7 "later") ud0)
                 empty_store))
     = [AnswerCallback].
Proof.
  cbv zeta. split; [reflexivity|]. split; [vm_compute; reflexivity|].
  split; [discriminate|]. split; vm_compute; reflexivity.
Qed.

(** C2, as stated, fails: when the delete answers 500 the soft hide is never
    requested; and when the delete succeeds but the hide answers 500 the
    user is told that the removal failed. *)
Lemma removal_skips_hide_and_misreports :
  requests_of (trace (run (status_env 500) (remove_item cfg0 7 (lit "5")) tt))
  = [DeleteCartItem (lit "5")]
  /\ (let r := run hide_rejected (remove_item cfg0 7 (lit "5")) tt in
      answered delete_item_answer (trace r) = Some (Response 200 tt)
      /\ delete_outcome (Response 200 tt) = Some true
      /\ requests_of (trace r)
         = [DeleteCartItem (lit "5"); PutCartItem (lit "5") 0%float]
      /\ tg_calls_of (trace r) = [ReplyText 7 TxtRemoveFailed None]).
Proof. cbv zeta. repeat split; vm_compute; reflexivity. Qed.

(** C3, as stated, fails: an item with a positive quantity but without
    identifier passes the quantity filter and is not rendered: no line, no
    removal button, and a total of 0 instead of its subtotal; the cart view
    (with the pay button) is sent although it shows no item. *)
Lemma unidentified_item_not_rendered :
  let raw := [unidentified_item] in
  let v := render_cart (List.filter visible raw) in
  List.filter visible raw = raw
  /\ cv_lines v = []
  /\ cv_buttons v = []
  /\ cv_total v = 0%float
  /\ fsum (List.map item_subtotal (List.filter visible raw)) = 20%float
  /\ PrimFloat.eqb (cv_total v)
       (fsum (List.map item_subtotal (List.filter visible raw))) = false
  /\ tg_calls_of
       (trace (run unidentified_env
                 (show_cart cfg0 (UpdMessage (text_message 7 "cart")) false)
                 tt))
     = [ReplyText 7 (TxtCart [] 0%float)
          (Some [ [ btn LblPay (lit "pay") ];
                  [ btn LblBackMenu (lit "back_to_menu") ] ])].
Proof. cbv zeta. repeat split; vm_compute; reflexivity. Qed.

(** C8, as stated, fails: a medium rendition without URL does not give way
    to the small rendition; the URL of the picture itself is taken although
    the small rendition has one. *)
Lemma medium_without_url_hides_small :
  let s := {| products := [fish_without_medium_url]; carts := []; items := [];
              clients := []; next_id := 1; next_msg := 1 |} in
  exists p,
    out (run (strapi no_docs) (get_product_by_id cfg0 7) s) = Returned (Some p)
    /\ p_image_url p = lit "http://localhost:1337/uploads/salmon.jpg"
    /\ p_image_url p <> lit "http://localhost:1337/uploads/small_salmon.jpg".
Proof.
  cbv zeta. eexists. split; [vm_compute; reflexivity|].
  split; [vm_compute; reflexivity|]. vm_compute. discriminate.
Qed.

(** *** The theorems at concrete inputs *)

Lemma add_or_increment_keeps_one_item_witness :
  let a := 0x1.999999999999ap-4%float in
  let b := 0x1.999999999999ap-3%float in
  let r1 := run (strapi no_docs)
              (add_or_increment_item cfg0 (Some 1) 7 a) empty_store in
  let r2 := run (strapi no_docs)
              (add_or_increment_item cfg0 (Some 1) 7 b) (final r1) in
  distinct_addresses no_docs
  /\ fresh_ids empty_store
  /\ (exists it, List.filter (for_pair (Some 1) 7) (items (final r2)) = [it]
                 /\ ir_qty it = (a + b)%float)
  /\ (a + b)%float = 0x1.3333333333334p-2%float
  /\ requests_of (trace r2)
     = [FindCartItems (Some 1) 7;
        PutCartItem (lit "1") 0x1.3333333333334p-2%float].
Proof.
  cbv zeta.
  split; [exact no_docs_distinct|]. split; [intros it []|].
  destruct (add_or_increment_keeps_one_item no_docs cfg0 (Some 1) 7
              0x1.999999999999ap-4%float 0x1.999999999999ap-3%float
              empty_store no_docs_distinct
              (fun it (Hin : In it []) => match Hin with end) eq_refl)
    as (_ & (it & Hit & _ & Hq) & _ & Hreq & _).
  split; [exists it; split; [exact Hit | exact (Hq eq_refl)]|].
  split; [vm_compute; reflexivity | exact Hreq].
Defined.

Lemma removal_attempts_and_report_witness :
  reliable_tg (status_env 404)
  /\ out (run (status_env 404) (remove_item cfg0 7 (lit "5")) tt)
     = Returned tt.
Proof.
  assert (HT : reliable_tg (status_env 404))
    by (intros c w; exists 1; reflexivity).
  split; [exact HT|].
  destruct (removal_attempts_and_report (status_env 404) cfg0 7 (lit "5") tt HT)
    as (dres & _ & Ho & _).
  exact Ho.
Defined.

Lemma cart_view_of_identified_items_witness :
  let upd := button_press 7 "show_cart" in
  let r := run (strapi no_docs) (show_cart cfg0 upd false) cart_store in
  reliable_tg (strapi no_docs)
  /\ upd <> UpdOther
  /\ yields r (Returned STATE_HANDLE_CART)
       [ AnswerCallback;
         ReplyText 7
           (TxtCart [ {| cl_idx := 1; cl_title := lit "Salmon";
                         cl_qty := 2.5%float; cl_price := 10%float;
                         cl_subtotal := 25%float |} ] 25%float)
           (Some [ [ btn (LblRemove (lit "Salmon")) (lit "remove_item_2") ];
                   [ btn LblPay (lit "pay") ];
                   [ btn LblBackMenu (lit "back_to_menu") ] ]) ]
  /\ requests_of (trace r) = [GetCarts (lit "7"); ListCartItems (Some 1)].
Proof.
  cbv zeta.
  assert (HT : reliable_tg (strapi no_docs))
    by (intros c w; exists (next_msg w); reflexivity).
  assert (Hupd : button_press 7 "show_cart" <> UpdOther) by discriminate.
  split; [exact HT|]. split; [exact Hupd|].
  destruct (cart_view_of_identified_items (strapi no_docs) cfg0
              (button_press 7 "show_cart") false cart_store HT Hupd)
    as (_ & _ & _ & _ & Hitems).
  exact (Hitems 200 _ _ _ 200 _ _ eq_refl eq_refl eq_refl eq_refl eq_refl).
Defined.

Lemma failed_handler_resets_to_start_witness :
  let db := <[7 := STATE_HANDLE_MENU]> (∅ : gmap Z pystr) in
  let upd := button_press 7 "show_cart" in
  out (run (status_env 500)
         (state_handler (user_state_of db 7 (Some (lit "show_cart")))
            cfg0 upd ud0) tt)
  = Raised (HTTPError 500)
  /\ out (run (status_env 500) (handle_users_reply cfg0 upd db ud0) tt)
     = Returned (<[7 := STATE_START]> db, ud0).
Proof.
  cbv zeta.
  assert (Hr : out (run (status_env 500)
                      (state_handler
                         (user_state_of (<[7 := STATE_HANDLE_MENU]> ∅) 7
                            (Some (lit "show_cart")))
                         cfg0 (button_press 7 "show_cart") ud0) tt)
               = Raised (HTTPError 500))
    by (vm_compute; reflexivity).
  split; [exact Hr|].
  destruct (failed_handler_resets_to_start (status_env 500) cfg0
              (button_press 7 "show_cart") (<[7 := STATE_HANDLE_MENU]> ∅)
              ud0 tt (Some (lit "show_cart")) 7 (HTTPError 500) eq_refl Hr)
    as (Ho & _).
  exact Ho.
Defined.

Lemma unmatched_events_witness :
  reliable_tg (strapi no_docs)
  /\ yields (run (strapi no_docs)
               (handle_cart cfg0 (UpdMessage (text_message 7 "hello")) ud0)
               empty_store)
            (Returned (STATE_HANDLE_CART, ud0))
            [ReplyText 7 TxtUseCartButtons None].
Proof.
  assert (HT : reliable_tg (strapi no_docs))
    by (intros c w; exists (next_msg w); reflexivity).
  split; [exact HT|].
  destruct (unmatched_events (strapi no_docs) cfg0 (text_message 7 "hello")
              ud0 empty_store HT)
    as (_ & Hcart & _).
  exact Hcart.
Defined.

Lemma email_validity_witness :
  reliable_tg (strapi no_docs)
  /\ out (run (strapi no_docs)
            (handle_waiting_email cfg0
               (UpdMessage (text_message 7 "foo@bar")) ud0)
            empty_store)
     = Returned (STATE_WAITING_EMAIL, ud0).
Proof.
  assert (HT : reliable_tg (strapi no_docs))
    by (intros c w; exists (next_msg w); reflexivity).
  split; [exact HT|].
  destruct (email_validity (strapi no_docs) cfg0 (text_message 7 "foo@bar")
              ud0 empty_store (lit "foo@bar") HT eq_refl)
    as (_ & _ & _ & Hrej & _).
  apply Hrej. intros [_ Hdot]. vm_compute in Hdot. intuition discriminate.
Defined.

Lemma image_url_resolution_witness :
  let p := make_product cfg0 7 fish in
  out (run (strapi no_docs) (get_product_by_id cfg0 7) fish_store)
  = Returned (Some p)
  /\ (exists pd, p = make_product cfg0 7 pd)
  /\ p_image_url p = lit "http://localhost:1337/uploads/medium_salmon.jpg".
Proof.
  cbv zeta.
  assert (Hr : out (run (strapi no_docs) (get_product_by_id cfg0 7) fish_store)
               = Returned (Some (make_product cfg0 7 fish)))
    by (vm_compute; reflexivity).
  split; [exact Hr|].
  destruct (image_url_resolution (strapi no_docs) cfg0 7 fish_store
              (make_product cfg0 7 fish) Hr)
    as (pd & Hp & _).
  split; [exists pd; exact Hp|]. vm_compute. reflexivity.
Defined.

Lemma unknown_label_dispatches_to_start_witness :
  let db := <[7 := lit "PAYMENT"]> (∅ : gmap Z pystr) in
  let upd := UpdMessage (text_message 7 "hello") in
  let r := run (strapi no_docs) (handle_users_reply cfg0 upd db ud0)
             fish_store in
  db !! 7 = Some (lit "PAYMENT")
  /\ ~ recognized (lit "PAYMENT")
  /\ out r = Returned (<[7 := STATE_HANDLE_MENU]> db,
                       {| last_menu_msg_id := Some 1;
                          last_card_msg_id := None;
                          last_product_id := None |})
  /\ trace r
     = [ Ev (Http (GetProducts None)) (Response 200 [fish]);
         Ev (Tg (ReplyText 7 TxtHello
                   (Some [ [ btn (LblTitle (lit "Salmon")) (lit "7") ];
                           [ btn LblMyCart (lit "show_cart") ] ])))
            (TgOk 1) ].
Proof.
  cbv zeta.
  assert (Hn : ~ recognized (lit "PAYMENT"))
    by (unfold recognized; simpl; intuition discriminate).
  assert (Hdb : (<[7 := lit "PAYMENT"]> (∅ : gmap Z pystr)) !! 7
                = Some (lit "PAYMENT"))
    by (vm_compute; reflexivity).
  split; [exact Hdb|]. split; [exact Hn|].
  destruct (unknown_label_dispatches_to_start (strapi no_docs) cfg0
              (UpdMessage (text_message 7 "hello"))
              (<[7 := lit "PAYMENT"]> ∅) ud0 fish_store (Some (lit "hello")) 7
              (lit "PAYMENT") eq_refl Hdb Hn)
    as (_ & Hrun & _).
  cbv zeta in Hrun.
  change (out (run (strapi no_docs)
                 (start cfg0 (UpdMessage (text_message 7 "hello")) ud0)
                 fish_store))
    with (@Returned (pystr * user_data)
            (STATE_HANDLE_MENU,
             {| last_menu_msg_id := Some 1; last_card_msg_id := None;
                last_product_id := None |})) in Hrun.
  destruct Hrun as [Ho Ht]. split; [exact Ho|]. rewrite Ht. reflexivity.
Defined.

Lemma email_confirmed_despite_upsert_failure_witness :
  let r := run (status_env 500)
             (handle_waiting_email cfg0
                (UpdMessage (text_message 7 " a@b.c ")) ud0) tt in
  reliable_tg (status_env 500)
  /\ out (run (status_env 500)
            (create_or_update_client cfg0 (of_Z 7) (lit "a@b.c")) tt)
     = Raised (HTTPError 500)
  /\ In (Exception, LogClientSave) (logs_of (trace r))
  /\ exists res mid,
       out r = Returned (STATE_HANDLE_MENU,
                         {| last_menu_msg_id := Some mid;
                            last_card_msg_id := None;
                            last_product_id := None |})
       /\ tg_calls_of (trace r)
          = [ReplyText 7 (TxtThanks (lit "a@b.c")) None;
             ReplyText 7 TxtContinue (Some (catalog_keyboard (fetched res)))].
Proof.
  cbv zeta.
  assert (HT : reliable_tg (status_env 500))
    by (intros c w; exists 1; reflexivity).
  assert (Hr : out (run (status_env 500)
                      (create_or_update_client cfg0 (of_Z 7) (lit "a@b.c")) tt)
               = Raised (HTTPError 500))
    by (vm_compute; reflexivity).
  destruct (email_confirmed_despite_upsert_failure (status_env 500) cfg0
              (text_message 7 " a@b.c ") ud0 tt (lit " a@b.c ") HT eq_refl
              eq_refl)
    as ((mid1 & res & lg & mid & _ & _ & _ & Ho & Hcalls) & Hlog).
  split; [exact HT|]. split; [exact Hr|].
  split; [exact (Hlog (HTTPError 500) Hr)|].
  exists res, mid. split; [exact Ho | exact Hcalls].
Defined.

(** An empty object as the first record of the cart lookup is no cart:
    [ensure_cart_exists] requests the creation, and [show_cart] sends the
    placeholder without asking for the items. *)
Lemma empty_object_is_no_cart :
  requests_of
    (trace (run empty_object_env (ensure_cart_exists cfg0 (lit "7")) tt))
  = [GetCarts (lit "7"); PostCart (lit "7")]
  /\ (let r := run empty_object_env
                 (show_cart cfg0 (UpdMessage (text_message 7 "cart")) false)
                 tt in
      requests_of (trace r) = [GetCarts (lit "7")]
      /\ tg_calls_of (trace r)
         = [ReplyText 7 TxtCartEmpty (Some empty_cart_keyboard)]).
Proof. cbv zeta. repeat split; vm_compute; reflexivity. Qed.
(** * Further properties of the clients *)

Ltac branch_more :=
  match goal with
  | |- context [try_except (match ?d with [] => _ | _ :: _ => _ end) _] =>
      destruct d eqn:?
  | |- context [try_except (match ?d with Some _ => _ | None => _ end) _] =>
      destruct d eqn:?
  | |- context [match ?d with [] => _ | _ :: _ => _ end] => destruct d eqn:?
  end.

Ltac exec_all HT := repeat first [ progress (exec HT) | branch_more ].

Section CatalogFacts.
Context `{PyBuiltins}.

(** X1: [fetch_products] never raises: it sends one request and returns the
    data of an answer whose status is no error, and the empty list, with an
    error record in the log, for every other answer. *)
Theorem fetch_products_degrades (E : env) cfg w :
  let r := run E (fetch_products cfg) w in
  requests_of (trace r) = [GetProducts None]
  /\ match fst (respond E (Http (GetProducts None)) w) with
     | Response st d =>
         if raises st
         then out r = Returned [] /\ logs_of (trace r) = [(Error, LogProducts)]
         else out r = Returned d /\ logs_of (trace r) = []
     | ConnError =>
         out r = Returned [] /\ logs_of (trace r) = [(Error, LogProducts)]
     end.
Proof.
  intros r. subst r.
  unfold fetch_products, http, log, raise_for_status, raises.
  exec I; close_with_facts; cbn [andb fst]; repeat split; reflexivity.
Qed.

(** X2: [get_product_by_id] never raises: it returns the first record of the
    answer, made into a product, when the status is no error and a record
    came, and [None] for every other answer.  The [id] of the product is
    that of the record, the requested id when the record has no [id] key,
    and [None] when the record has [null] there. *)
Theorem get_product_by_id_degrades (E : env) cfg product_id w :
  let r := run E (get_product_by_id cfg product_id) w in
  requests_of (trace r) = [GetProducts (Some product_id)]
  /\ out r
     = Returned
         match fst (respond E (Http (GetProducts (Some product_id))) w) with
         | Response st (pd :: _) =>
             if raises st then None
             else Some (make_product cfg product_id pd)
         | _ => None
         end
  /\ (forall pd,
        p_id (make_product cfg product_id pd)
        = match pd_id pd with
          | Missing => Some product_id
          | Null => None
          | Value i => Some i
          end).
Proof.
  intros r. subst r.
  unfold get_product_by_id, http, log, raise_for_status, raises.
  exec_all I; close_with_facts; cbn [andb fst]; repeat split;
    try reflexivity; intros pd; cbn [make_product p_id];
    destruct (pd_id pd); reflexivity.
Qed.

End CatalogFacts.

(** ** Button payloads *)

Lemma uint_digits d c :
  In c (lit (NilEmpty.string_of_uint d)) -> is_digit c.
Proof.
  unfold lit, is_digit.
  induction d; cbn [NilEmpty.string_of_uint list_ascii_of_string List.map In];
    intros Hin; try (destruct Hin as [<- | Hin]; [vm_compute; split; discriminate | auto]).
  destruct Hin.
Qed.

Lemma of_Z_chars n c : In c (of_Z n) -> c = 45%N \/ is_digit c.
Proof.
  unfold of_Z, NilZero.string_of_int, NilZero.string_of_uint.
  destruct (Z.to_int n) as [d|d].
  - destruct d; intros Hin; right;
      first [ now apply (uint_digits _ _ Hin)
            | destruct Hin as [<- | []]; vm_compute; split; discriminate ].
  - change (lit (String "-" ?s)) with (45%N :: lit s).
    intros [<- | Hin]; [now left|]. right.
    destruct d;
      first [ now apply (uint_digits _ _ Hin)
            | destruct Hin as [<- | []]; vm_compute; split; discriminate ].
Qed.

Lemma of_Z_no_underscore n : contains underscore (of_Z n) = false.
Proof.
  destruct (contains underscore (of_Z n)) eqn:Hc; [|reflexivity].
  apply contains_In in Hc. apply of_Z_chars in Hc.
  unfold is_digit, underscore in Hc. lia.
Qed.

Lemma of_Z_not_literal n (s : string) c :
  In c (lit s) -> c <> 45%N -> ~ is_digit c -> of_Z n <> lit s.
Proof.
  intros Hin Hm Hd Heq. rewrite <- Heq in Hin.
  apply of_Z_chars in Hin. tauto.
Qed.

Lemma product_rows_spec products row :
  In row (product_rows products)
  <-> exists pd pid, In pd products /\ field_get (pd_id pd) = Some pid /\ pid <> 0
                     /\ row = product_row pd pid.
Proof.
  induction products as [|pd products IH]; cbn [product_rows].
  - split; [intros [] | intros (pd & pid & [] & _)].
  - assert (Hlater :
      (exists pd' pid, In pd' products /\ field_get (pd_id pd') = Some pid /\ pid <> 0
                       /\ row = product_row pd' pid)
      -> exists pd' pid, In pd' (pd :: products) /\ field_get (pd_id pd') = Some pid
                         /\ pid <> 0 /\ row = product_row pd' pid).
    { intros (pd' & pid' & Hin & Hrest). exists pd', pid'.
      split; [now right | exact Hrest]. }
    destruct (field_get (pd_id pd)) as [pid|] eqn:Hid;
      [destruct (pid =? 0) eqn:Hz|]; cbn [In]; rewrite ?IH.
    + apply Z.eqb_eq in Hz. split; [exact Hlater|].
      intros (pd' & pid' & [Heq | Hin] & Hid' & Hne & Hrow).
      * subst pd'. congruence.
      * exists pd', pid'. auto.
    + apply Z.eqb_neq in Hz. split.
      * intros [Heq | Hex]; [|auto].
        exists pd, pid. split; [now left|]. auto.
      * intros (pd' & pid' & [Heq | Hin] & Hid' & Hne & Hrow).
        -- subst pd'. left. rewrite Hid in Hid'. injection Hid' as Hp.
           now rewrite Hrow, Hp.
        -- right. exists pd', pid'. auto.
    + split; [exact Hlater|].
      intros (pd' & pid' & [Heq | Hin] & Hid' & Hne & Hrow).
      * subst pd'. congruence.
      * exists pd', pid'. auto.
Qed.

Lemma build_products_keyboard_out (E : env) cfg w :
  exists products,
    out (run E (fetch_products cfg) w) = Returned products
    /\ out (run E (build_products_keyboard cfg) w)
       = Returned (catalog_rows products ++ [my_cart_row]).
Proof.
  assert (Hf : exists products,
             out (run E (fetch_products cfg) w) = Returned products).
  { apply no_raise_returns. unfold fetch_products. apply no_raise_catch.
    intros e. repeat constructor. }
  destruct Hf as [products Hf]. exists products. split; [exact Hf|].
  unfold build_products_keyboard. rewrite run_bind.
  rewrite (seq_result_returned _ _ _ _ _ _ Hf). cbn [out].
  unfold catalog_rows. destruct products as [|pd ps]; [reflexivity|].
  destruct (product_rows (pd :: ps)); reflexivity.
Qed.

(** X3: [build_products_keyboard] never raises and always ends with the
    cart row; above it are the buttons of the products that have a truthy
    id, in the order of the backend, each with [str(id)] as payload, or the
    placeholder row when there is none (or the catalog request failed).  No
    product payload is one of the payloads [no_products] and [show_cart]. *)
Theorem keyboard_always_offers_cart (E : env) cfg w :
  let r := run E (build_products_keyboard cfg) w in
  exists products,
    out (run E (fetch_products cfg) w) = Returned products
    /\ out r = Returned (catalog_rows products ++ [my_cart_row])
    /\ (product_rows products = [] -> catalog_rows products = [no_products_row])
    /\ (product_rows products <> [] ->
        catalog_rows products = product_rows products)
    /\ (forall row,
          In row (product_rows products)
          <-> exists pd pid, In pd products /\ field_get (pd_id pd) = Some pid
                             /\ pid <> 0 /\ row = product_row pd pid)
    /\ (forall pid, of_Z pid <> lit "no_products"
                    /\ of_Z pid <> lit "show_cart").
Proof.
  intros r. subst r.
  destruct (build_products_keyboard_out E cfg w) as (products & Hf & Hkb).
  exists products. split; [exact Hf|]. split; [exact Hkb|].
  - split; [unfold catalog_rows; now intros ->|].
    split; [unfold catalog_rows; destruct (product_rows products); congruence|].
    split; [intros row; apply product_rows_spec|].
    intros pid. split.
    + apply (of_Z_not_literal pid "no_products" 110%N);
        [vm_compute; auto | discriminate | unfold is_digit; lia].
    + apply (of_Z_not_literal pid "show_cart" 115%N);
        [vm_compute; auto | discriminate | unfold is_digit; lia].
Qed.

Lemma startswith_app p s : startswith p (p ++ s) = true.
Proof.
  induction p as [|c p IH]; [reflexivity|].
  cbn [app startswith]. now rewrite N.eqb_refl, IH.
Qed.

Lemma after_last_none c t : contains c t = false -> after_last c t = None.
Proof.
  induction t as [|d t IH]; cbn [contains after_last]; [reflexivity|].
  intros [Hd Ht]%orb_false_iff. now rewrite (IH Ht), Hd.
Qed.

Lemma after_last_app c p t :
  contains c t = false -> after_last c (p ++ c :: t) = Some t.
Proof.
  intros Ht. induction p as [|d p IH]; cbn [app after_last].
  - now rewrite (after_last_none c t Ht), N.eqb_refl.
  - now rewrite IH.
Qed.

Lemma handle_cart_remove cfg data m ud t :
  startswith (lit "remove_item_") data = true ->
  after_last underscore data = Some t ->
  handle_cart cfg (UpdCallback data m) ud
  = (answer ;;
     remove_item cfg (chat_id m) t ;;
     st <- show_cart cfg (UpdCallback data m) true ;;
     Ret (st, ud)).
Proof.
  intros Hp Hl. unfold handle_cart.
  assert (H1 : eqb data (lit "back_to_menu") = false).
  { apply eqb_neq. intros ->. vm_compute in Hp. discriminate. }
  assert (H2 : eqb data (lit "pay") = false).
  { apply eqb_neq. intros ->. vm_compute in Hp. discriminate. }
  rewrite H1, H2, Hp, Hl. reflexivity.
Qed.

(** X4: the payload of a removal button leads [handle_cart] back to the
    identifier it was made of, as long as the identifier holds no ["_"]:
    the handler runs the removal on exactly that identifier, which is the
    case of every numeric id.  The identifier is read after the last ["_"]
    of the payload: of an identifier with a ["_"] only the part after it is
    removed. *)
Theorem remove_button_round_trip cfg it m ud :
  let ident := fmt_ident (get_cart_item_identifier it) in
  let payload := lit "remove_item_" ++ ident in
  List.map callback_data (remove_button it) = [payload]
  /\ (contains underscore ident = false ->
      handle_cart cfg (UpdCallback payload m) ud
      = (answer ;;
         remove_item cfg (chat_id m) ident ;;
         st <- show_cart cfg (UpdCallback payload m) true ;;
         Ret (st, ud)))
  /\ (forall n, contains underscore (fmt_ident (IdInt n)) = false)
  /\ (forall s t,
        contains underscore t = false ->
        handle_cart cfg
          (UpdCallback (lit "remove_item_" ++ s ++ underscore :: t) m) ud
        = (answer ;;
           remove_item cfg (chat_id m) t ;;
           st <- show_cart cfg
                   (UpdCallback (lit "remove_item_" ++ s ++ underscore :: t) m)
                   true ;;
           Ret (st, ud))).
Proof.
  intros ident payload. split; [reflexivity|]. split; [|split].
  - intros Hu. apply handle_cart_remove.
    + apply startswith_app.
    + unfold payload.
      change (lit "remove_item_") with (lit "remove_item" ++ [underscore]).
      rewrite <- app_assoc. now apply after_last_app.
  - intros n. apply of_Z_no_underscore.
  - intros s t Ht. apply handle_cart_remove.
    + apply startswith_app.
    + rewrite app_assoc. now apply after_last_app.
Qed.

(** * Further properties of the dialogue *)

Lemma leaves_bind_any {A B} (P : B -> Prop) (p : prog A) (f : A -> prog B) :
  (forall x, leaves P (f x)) -> leaves P (bind p f).
Proof. intros Hf. induction p; cbn [bind]; auto; constructor; auto. Qed.

Lemma leaves_bind {A B} (Q : A -> Prop) (P : B -> Prop) (p : prog A)
    (f : A -> prog B) :
  leaves Q p -> (forall x, Q x -> leaves P (f x)) -> leaves P (bind p f).
Proof. induction 1; cbn [bind]; intros Hf; auto; constructor; auto. Qed.

Lemma leaves_try_except {A} (P : A -> Prop) (p : prog A) (h : exn -> prog A) :
  leaves P p -> (forall e, leaves P (h e)) -> leaves P (try_except p h).
Proof. induction 1; cbn [try_except]; intros Hh; auto; constructor; auto. Qed.

Lemma leaves_out E {A} (P : A -> Prop) (p : prog A) w x :
  leaves P p -> out (run E p w) = Returned x -> P x.
Proof.
  intros Hp. revert w. induction Hp as [y Hy|e|a k _ IH]; intros w; cbn [run].
  - intros [= <-]. exact Hy.
  - discriminate.
  - destruct (respond E a w) as [res w']. cbn [out]. apply IH.
Qed.

Ltac leaves_step :=
  first
    [ apply leaves_ret
    | apply leaves_raise
    | apply leaves_bind_any; intros ?
    | match goal with
      | |- leaves _ (match ?x with _ => _ end) => destruct x
      | |- leaves _ (let _ := _ in _) => cbv zeta
      end ].

Lemma recognized_labels :
  recognized STATE_START /\ recognized STATE_HANDLE_MENU
  /\ recognized STATE_HANDLE_DESCRIPTION /\ recognized STATE_HANDLE_CART
  /\ recognized STATE_WAITING_EMAIL.
Proof. unfold recognized. cbn [In]. auto 10. Qed.

Section HandlerFacts.
Context `{PyBuiltins}.

Lemma leaves_show_cart cfg upd replace_message :
  leaves (fun st => st = STATE_HANDLE_CART) (show_cart cfg upd replace_message).
Proof. unfold show_cart. repeat leaves_step; reflexivity. Qed.

Ltac label := cbn [fst]; apply recognized_labels.

Ltac handler_leaves :=
  repeat first
    [ eapply leaves_bind;
      [ apply leaves_show_cart
      | let Hst := fresh "Hst" in intros ? Hst; cbv beta in Hst; subst ]
    | leaves_step ];
  try label.

Lemma leaves_handlers user_state cfg upd ud :
  leaves (fun r => recognized (fst r)) (state_handler user_state cfg upd ud).
Proof.
  unfold state_handler.
  repeat match goal with |- context [eqb ?a ?b] => destruct (eqb a b) end.
  - unfold start. handler_leaves.
  - unfold handle_menu. handler_leaves.
  - unfold handle_description. handler_leaves.
  - unfold handle_cart. handler_leaves.
  - unfold handle_waiting_email. handler_leaves.
  - unfold start. handler_leaves.
Qed.

End HandlerFacts.

Section DispatcherTotal.
Context `{PyBuiltins}.

(** X5: [handle_users_reply] never raises, whatever the backend and the
    Telegram API do: it returns a session store that differs from the old
    one at most at the chat of the update; an update without message and
    callback query does nothing at all. *)
Theorem dispatcher_never_raises (E : env) cfg upd (db : gmap Z pystr) ud w :
  let r := run E (handle_users_reply cfg upd db ud) w in
  exists db' ud',
    out r = Returned (db', ud')
    /\ (forall c, (forall reply, event_of upd <> Some (reply, c)) ->
          db' !! c = db !! c)
    /\ (event_of upd = None -> db' = db /\ ud' = ud /\ trace r = []).
Proof.
  intros r. subst r. unfold handle_users_reply.
  destruct (event_of upd) as [[reply chat]|] eqn:Hev.
  - cbv zeta.
    pose proof (guarded_run E (state_handler (user_state_of db chat reply))
                  cfg upd db ud chat w) as Hg.
    cbv zeta in Hg.
    destruct (out (run E (state_handler (user_state_of db chat reply)
                            cfg upd ud) w)) as [[st ud']|e];
      destruct Hg as [Ho _]; rewrite Ho; eexists _, _;
      (split; [reflexivity|]); (split; [|discriminate]);
      intros c Hc; apply lookup_insert_ne; intros <-; now apply (Hc reply).
  - exists db, ud. repeat split; reflexivity.
Qed.

(** X6: the labels of the session store stay among the five of the dispatch
    table: every handler returns one of them, so a store that holds only
    recognized labels still does after any update. *)
Theorem stored_labels_stay_recognized
    (E : env) cfg upd (db : gmap Z pystr) ud w db' ud' :
  map_Forall (fun _ label => recognized label) db ->
  out (run E (handle_users_reply cfg upd db ud) w) = Returned (db', ud') ->
  map_Forall (fun _ label => recognized label) db'.
Proof.
  intros Hdb. unfold handle_users_reply.
  destruct (event_of upd) as [[reply chat]|] eqn:Hev.
  - cbv zeta.
    pose proof (guarded_run E (state_handler (user_state_of db chat reply))
                  cfg upd db ud chat w) as Hg.
    cbv zeta in Hg.
    destruct (out (run E (state_handler (user_state_of db chat reply)
                            cfg upd ud) w)) as [[st ud1]|e] eqn:Hout;
      destruct Hg as [Ho _]; rewrite Ho; intros [= <- <-];
      apply map_Forall_insert_2; try exact Hdb.
    + apply (leaves_out E _ _ w (st, ud1) (leaves_handlers _ cfg upd ud) Hout).
    + apply recognized_labels.
  - cbn [run out]. now intros [= <- <-].
Qed.

(** X7: the text ["/start"] restarts the dialogue from any stored state:
    with a Telegram API that delivers, the catalog is requested and sent
    with the greeting (the keyboard of the products the backend answered),
    [HANDLE_MENU] is stored for the chat and the id that Telegram gave to
    the message is remembered as the menu message, whatever the backend
    answers. *)
Theorem start_command_restarts (E : env) cfg m (db : gmap Z pystr) ud w :
  reliable_tg E ->
  msg_text m = Some (lit "/start") ->
  let r := run E (handle_users_reply cfg (UpdMessage m) db ud) w in
  let res := fst (respond E (Http (GetProducts None)) w) in
  let greeting :=
    ReplyText (chat_id m) TxtHello (Some (catalog_keyboard (fetched res))) in
  exists lg mid,
    out r = Returned (<[chat_id m := STATE_HANDLE_MENU]> db,
                      {| last_menu_msg_id := Some mid;
                         last_card_msg_id := last_card_msg_id ud;
                         last_product_id := last_product_id ud |})
    /\ trace r
       = Ev (Http (GetProducts None)) res :: lg ++ [Ev (Tg greeting) (TgOk mid)]
    /\ catalog_log lg
    /\ tg_calls_of (trace r) = [greeting].
Proof.
  intros HT Hm r res greeting. subst r. unfold handle_users_reply.
  cbn [event_of]. rewrite Hm. cbv zeta.
  unfold user_state_of. rewrite bool_decide_eq_true_2 by reflexivity.
  rewrite state_handler_start.
  destruct (start_run E cfg (UpdMessage m) ud w (Some (lit "/start"))
              (chat_id m) HT)
    as (lg & mid & Ho & Ht & Hl); [cbn [event_of]; now rewrite Hm|].
  cbv zeta in Ho, Ht. fold res greeting in Ht.
  pose proof (guarded_run E start cfg (UpdMessage m) db ud (chat_id m) w) as Hg.
  cbv zeta in Hg. rewrite Ho in Hg. destruct Hg as [Hg1 Hg2].
  exists lg, mid. rewrite Hg1, Hg2, Ht.
  split; [reflexivity|]. split; [reflexivity|]. split; [exact Hl|].
  change (tg_calls_of (?a :: ?l)) with (tg_calls_of ([a] ++ l)).
  rewrite !tg_calls_of_app.
  destruct Hl as [-> | ->]; reflexivity.
Qed.

End DispatcherTotal.

(** * Errors of the cart and contact clients *)

Ltac outcome_tac :=
  unfold http, log, raise_for_status, ge400, propagated, raises;
  exec_all I; close_with_facts; cbn [andb fst snd]; try reflexivity.

(** X8: the cart and contact clients let errors through, unlike the
    catalog client: each raises the exception of [requests] when the request
    fails and the [HTTPError] of the status when that is in 400..599, and
    returns what it reads from the data otherwise. *)
Theorem cart_clients_propagate_errors (E : env) cfg tg_id cid pid q email n w :
  out (run E (get_cart_by_tg cfg tg_id) w)
  = propagated (fst (respond E (Http (GetCarts tg_id)) w)) head
  /\ out (run E (create_cart_for_tg cfg tg_id) w)
     = propagated (fst (respond E (Http (PostCart tg_id)) w)) (fun d => d)
  /\ out (run E (find_cart_item cfg cid pid) w)
     = propagated (fst (respond E (Http (FindCartItems cid pid)) w)) head
  /\ out (run E (create_cart_item cfg cid pid q) w)
     = propagated (fst (respond E (Http (PostCartItem cid pid q)) w))
         (fun d => d)
  /\ out (run E (get_cart_items_with_products cfg cid) w)
     = propagated (fst (respond E (Http (ListCartItems cid)) w)) (fun d => d)
  /\ out (run E (find_client_by_tg cfg tg_id) w)
     = propagated (fst (respond E (Http (GetClients tg_id)) w)) head
  /\ out (run E (create_client cfg tg_id email) w)
     = propagated (fst (respond E (Http (PostClient tg_id email)) w))
         (fun d => d)
  /\ out (run E (update_client cfg n email) w)
     = propagated (fst (respond E (Http (PutClient n email)) w)) (fun d => d).
Proof.
  repeat split.
  - unfold get_cart_by_tg. outcome_tac.
  - unfold create_cart_for_tg. outcome_tac.
  - unfold find_cart_item. outcome_tac.
  - unfold create_cart_item. outcome_tac.
  - unfold get_cart_items_with_products. outcome_tac.
  - unfold find_client_by_tg. outcome_tac.
  - unfold create_client. outcome_tac.
  - unfold update_client. outcome_tac.
Qed.

(** X9: for the delete and the update of a cart item a 404 is no error:
    [delete_cart_item] returns [False] and [update_cart_item_qty] returns
    [None] on it, with a warning in the log, which [hide_cart_item]
    suppresses; every other status in 400..599 and a failed request raise;
    otherwise the delete returns [True] and the hide returns whether the
    answer carried the record. *)
Theorem not_found_is_no_error (E : env) cfg item_id qty w :
  let dres := fst (respond E (Http (DeleteCartItem item_id)) w) in
  let pres := fst (respond E (Http (PutCartItem item_id 0%float)) w) in
  let ures := fst (respond E (Http (PutCartItem item_id qty)) w) in
  out (run E (delete_cart_item cfg item_id) w)
  = outcome_of dres (delete_outcome dres)
  /\ out (run E (hide_cart_item cfg item_id) w)
     = outcome_of pres (hide_outcome pres)
  /\ (forall d, dres = Response 404 d ->
        logs_of (trace (run E (delete_cart_item cfg item_id) w))
        = [(Warning, LogItemDeleteNotFound)])
  /\ (forall d, pres = Response 404 d ->
        logs_of (trace (run E (hide_cart_item cfg item_id) w)) = [])
  /\ (forall d, ures = Response 404 d ->
        out (run E (update_cart_item_qty cfg item_id qty false) w)
        = Returned None
        /\ logs_of (trace (run E (update_cart_item_qty cfg item_id qty false) w))
           = [(Warning, LogItemUpdateNotFound)]).
Proof.
  cbv zeta. split; [|split; [|split; [|split]]].
  - unfold delete_cart_item, outcome_of, delete_outcome, failure.
    outcome_tac.
  - unfold hide_cart_item, update_cart_item_qty, outcome_of, hide_outcome,
      failure.
    outcome_tac.
    all: repeat match goal with
                | |- context [match ?d with Some _ => _ | None => _ end] =>
                    destruct d
                end; reflexivity.
  - intros d Hd. unfold delete_cart_item, http, log.
    cbn [bind run]. destruct (respond E _ w) as [res w1]. cbn [fst] in Hd.
    subst res. exec I. reflexivity.
  - intros d Hd. unfold hide_cart_item, update_cart_item_qty, http, log.
    cbn [bind run]. destruct (respond E _ w) as [res w1]. cbn [fst] in Hd.
    subst res. exec I. reflexivity.
  - intros d Hd. unfold update_cart_item_qty, http, log.
    cbn [bind run]. destruct (respond E _ w) as [res w1]. cbn [fst] in Hd.
    subst res. exec I. split; reflexivity.
Qed.

(** * Further properties of the handlers *)

(** X10: when the cart message is to replace the old one, it is edited in
    place and nothing else is sent if the edit succeeds; when the edit
    raises, the failure is logged (as "not modified" or as a failed edit)
    and the message is sent as a reply instead.  Without replacement only
    the reply is sent. *)
Theorem cart_edit_falls_back (E : env) data m t kb w :
  let upd := UpdCallback data m in
  let edit := EditText (chat_id m) (message_id m) t (Some kb) in
  let reply := ReplyText (chat_id m) t (Some kb) in
  let r := run E (send_cart_message upd true t kb) w in
  match fst (respond E (Tg edit) w) with
  | TgOk _ =>
      out r = Returned tt /\ tg_calls_of (trace r) = [edit]
      /\ logs_of (trace r) = []
  | TgError nm =>
      tg_calls_of (trace r) = [edit; reply]
      /\ logs_of (trace r)
         = [(Info, if nm then LogCartNotModified else LogCartEdit)]
      /\ (out r = Returned tt \/ exists nm', out r = Raised (TelegramError nm'))
  end
  /\ tg_calls_of (trace (run E (send_cart_message upd false t kb) w)) = [reply].
Proof.
  cbv zeta. unfold send_cart_message, tg, log. split.
  - cbn [bind try_except run].
    destruct (respond E (Tg (EditText _ _ _ _)) w) as [[nm|mid] w1];
      cbn [bind try_except run fst].
    + destruct nm; cbn [bind try_except run]; log_step;
        cbn [bind try_except run];
        destruct (respond E (Tg (ReplyText _ _ _)) _) as [[nm'|mid'] w3];
        cbn; repeat split; eauto.
    + repeat split.
  - cbn [bind run].
    destruct (respond E (Tg (ReplyText _ _ _)) w) as [[nm'|mid'] w3];
      reflexivity.
Qed.

Lemma yields_raise_bind E A B (p : prog A) (f : A -> prog B) w e t :
  yields (run E p w) (Raised e) t -> yields (run E (bind p f) w) (Raised e) t.
Proof.
  intros [Ho Ht]. rewrite run_bind. unfold seq_result. rewrite Ho.
  split; [reflexivity | exact Ht].
Qed.

Lemma yields_quiet_cases E A (p : prog A) w :
  no_tg p ->
  (exists x, yields (run E p w) (Returned x) [])
  \/ (exists e, yields (run E p w) (Raised e) []).
Proof.
  intros Hq. pose proof (no_tg_trace E A p w Hq) as Ht.
  destruct (out (run E p w)) as [x|e] eqn:Ho; [left; exists x | right; exists e];
    split; assumption.
Qed.

Lemma yields_try_returned E A (p : prog A) h w x t :
  yields (run E p w) (Returned x) t ->
  yields (run E (try_except p h) w) (Returned x) t.
Proof.
  intros [Ho Ht]. rewrite run_try_except. unfold catch_result. rewrite Ho.
  split; assumption.
Qed.

Lemma yields_try_raised E A (p : prog A) h w e t1 t2 o :
  yields (run E p w) (Raised e) t1 ->
  yields (run E (h e) (final (run E p w))) o t2 ->
  yields (run E (try_except p h) w) o (t1 ++ t2).
Proof.
  intros [Ho1 Ht1] [Ho2 Ht2]. rewrite run_try_except.
  unfold catch_result, yields.
  rewrite Ho1. cbn [out trace]. split; [exact Ho2|].
  now rewrite tg_calls_of_app, Ht1, Ht2.
Qed.

Lemma yields_answer E w :
  reliable_tg E -> yields (run E answer w) (Returned tt) [AnswerCallback].
Proof.
  intros HT. unfold answer.
  destruct (yields_tg E AnswerCallback w HT) as [mid Y].
  apply (yields_bind _ _ _ _ _ _ mid [_] [] _ Y). split; reflexivity.
Qed.

Lemma yields_reply_ret E A chat t (x : A) w :
  reliable_tg E ->
  yields (run E (tg (ReplyText chat t None) ;; Ret x) w) (Returned x)
         [ReplyText chat t None].
Proof.
  intros HT. destruct (yields_tg E (ReplyText chat t None) w HT) as [mid Y].
  apply (yields_bind _ _ _ _ _ _ mid [_] [] _ Y). split; reflexivity.
Qed.

Lemma no_tg_cart_clients cfg tg_id cid pid q :
  no_tg (ensure_cart_exists cfg tg_id)
  /\ no_tg (add_or_increment_item cfg cid pid q).
Proof.
  split.
  - unfold ensure_cart_exists, get_cart_by_tg, create_cart_for_tg. no_tg_tac.
  - unfold add_or_increment_item, find_cart_item, create_cart_item,
      update_cart_item_qty.
    no_tg_tac.
Qed.

Section AddButton.
Context `{PyBuiltins}.

Lemma no_tg_get_product_by_id cfg pid : no_tg (get_product_by_id cfg pid).
Proof. unfold get_product_by_id. no_tg_tac. Qed.

Lemma no_raise_get_product_by_id cfg pid : no_raise (get_product_by_id cfg pid).
Proof.
  unfold get_product_by_id. apply no_raise_catch. intros e.
  repeat constructor.
Qed.

(** The [try] block of the branch [add_] of [handle_description]. *)
Lemma add_block E cfg chat pid q w :
  reliable_tg E ->
  exists t,
    (t = TxtAdded pid q \/ t = TxtAddFailed)
    /\ yields
         (run E
            (try_except
               (cart <- ensure_cart_exists cfg (of_Z chat) ;;
                cid <- match cart with
                       | Some c => Ret (cart_id c)
                       | None => Raise AttributeError
                       end ;;
                add_or_increment_item cfg cid pid q ;;
                tg (ReplyText chat (TxtAdded pid q) None) ;;
                Ret tt)
               (fun _ =>
                  log Exception LogAddToCart ;;
                  tg (ReplyText chat TxtAddFailed None) ;;
                  Ret tt))
            w)
         (Returned tt) [ReplyText chat t None].
Proof.
  intros HT.
  assert (Hfail : forall w', yields
            (run E (log Exception LogAddToCart ;;
                    tg (ReplyText chat TxtAddFailed None) ;; Ret tt) w')
            (Returned tt) [ReplyText chat TxtAddFailed None]).
  { intros w'.
    apply (yields_bind _ _ _ _ _ _ tt [] [_] _ (yields_log E _ _ w')).
    now apply yields_reply_ret. }
  destruct (yields_quiet_cases E _ (ensure_cart_exists cfg (of_Z chat)) w
              (proj1 (no_tg_cart_clients cfg (of_Z chat) None pid q)))
    as [[cart Yc] | [e Yc]].
  - destruct cart as [c|].
    + set (w1 := final (run E (ensure_cart_exists cfg (of_Z chat)) w)).
      destruct (yields_quiet_cases E _
                  (add_or_increment_item cfg (cart_id c) pid q) w1
                  (proj2 (no_tg_cart_clients cfg (of_Z chat) (cart_id c) pid q)))
        as [[it Ya] | [e Ya]].
      * exists (TxtAdded pid q). split; [now left|].
        apply yields_try_returned.
        apply (yields_bind _ _ _ _ _ _ _ [] [_] _ Yc). cbn [bind].
        apply (yields_bind _ _ _ _ _ _ _ [] [_] _ Ya).
        now apply yields_reply_ret.
      * exists TxtAddFailed. split; [now right|].
        apply (yields_try_raised _ _ _ _ _ e [] [_]); [|apply Hfail].
        apply (yields_bind _ _ _ _ _ _ _ [] [] _ Yc). cbn [bind].
        now apply yields_raise_bind.
    + exists TxtAddFailed. split; [now right|].
      apply (yields_try_raised _ _ _ _ _ AttributeError [] [_]); [|apply Hfail].
      apply (yields_bind _ _ _ _ _ _ _ [] [] _ Yc). cbn [bind run].
      split; reflexivity.
  - exists TxtAddFailed. split; [now right|].
    apply (yields_try_raised _ _ _ _ _ e [] [_]); [|apply Hfail].
    now apply yields_raise_bind.
Qed.

(** X11: a press of an [add_] button never leaves [HANDLE_DESCRIPTION] and
    never raises while Telegram delivers, whatever the backend does: the
    callback is answered and exactly one message follows, which says that
    the payload was not understood, that the product is gone, that the
    quantity was added, or that adding failed; the user data are
    untouched. *)
Theorem add_button_stays_in_description (E : env) cfg data m ud w :
  reliable_tg E ->
  startswith (lit "add_") data = true ->
  exists t,
    yields (run E (handle_description cfg (UpdCallback data m) ud) w)
           (Returned (STATE_HANDLE_DESCRIPTION, ud))
           [AnswerCallback; ReplyText (chat_id m) t None]
    /\ (t = TxtUnknownAdd \/ t = TxtProductGone \/ t = TxtAddFailed
        \/ exists pid q, py_int (drop 4 data) = Some pid /\ t = TxtAdded pid q).
Proof.
  intros HT Hp. unfold handle_description.
  assert (H1 : eqb data (lit "back_to_menu") = false)
    by (apply eqb_neq; intros ->; vm_compute in Hp; discriminate).
  assert (H2 : eqb data (lit "show_cart") = false)
    by (apply eqb_neq; intros ->; vm_compute in Hp; discriminate).
  assert (Hrest : after_first underscore data = Some (drop 4 data)).
  { pose proof Hp as Hs.
    change (lit "add_") with [97; 100; 100; 95]%N in Hs.
    destruct data as [|a [|b [|c [|d rest]]]]; cbn [startswith] in Hs;
      rewrite ?andb_false_r in Hs; try discriminate Hs.
    apply andb_true_iff in Hs as [Ha Hs]. apply andb_true_iff in Hs as [Hb Hs].
    apply andb_true_iff in Hs as [Hc Hs]. apply andb_true_iff in Hs as [Hd _].
    apply N.eqb_eq in Ha, Hb, Hc, Hd. subst a b c d. reflexivity. }
  rewrite H1, H2, Hp, Hrest. cbv zeta.
  pose proof (yields_answer E w HT) as Ya.
  set (w1 := final (run E answer w)).
  destruct (py_int (drop 4 data)) as [pid|] eqn:Hint.
  - destruct (yields_quiet E _ (get_product_by_id cfg pid) w1
                (no_raise_get_product_by_id cfg pid)
                (no_tg_get_product_by_id cfg pid)) as [[p|] Yp].
    + set (w2 := final (run E (get_product_by_id cfg pid) w1)).
      destruct (add_block E cfg (chat_id m) pid (qty_or_1 (p_qty_kg p)) w2 HT)
        as (t & Ht & Yb).
      exists t. split.
      * apply (yields_bind _ _ _ _ _ _ tt [_] [_] _ Ya).
        apply (yields_bind _ _ _ _ _ _ _ [] [_] _ Yp). cbn [bind].
        apply (yields_bind _ _ _ _ _ _ tt [_] [] _ Yb).
        split; reflexivity.
      * destruct Ht as [-> | ->]; eauto 10.
    + exists TxtProductGone. split; [|auto].
      apply (yields_bind _ _ _ _ _ _ tt [_] [_] _ Ya).
      apply (yields_bind _ _ _ _ _ _ _ [] [_] _ Yp).
      now apply yields_reply_ret.
  - exists TxtUnknownAdd. split; [|auto].
    apply (yields_bind _ _ _ _ _ _ tt [_] [_] _ Ya).
    now apply yields_reply_ret.
Qed.

End AddButton.

(** * Removal and contact upsert against the sequential backend *)

Lemma find_filter_out {A} (f : A -> bool) l :
  List.find f (List.filter (fun x => negb (f x)) l) = None.
Proof.
  apply find_none_all. intros x [_ Hx]%filter_In.
  now apply negb_true_iff in Hx.
Qed.

Lemma find_none_forall {A} (f : A -> bool) l :
  List.find f l = None -> forall x, In x l -> f x = false.
Proof. intros Hf x Hx. exact (find_none f l Hf x Hx). Qed.

Lemma filter_all {A} (f : A -> bool) l :
  (forall x, In x l -> f x = true) -> List.filter f l = l.
Proof.
  induction l as [|x l IH]; intros Hall; cbn [List.filter]; [reflexivity|].
  rewrite (Hall x) by now left. f_equal. apply IH. intros y Hy. apply Hall.
  now right.
Qed.

Lemma enumerate_In {A} (l : list A) k i x :
  In (i, x) (enumerate k l) -> In x l.
Proof.
  revert k. induction l as [|y l IH]; intros k; cbn [enumerate In]; [tauto|].
  intros [[= _ ->] | Hin]; [now left | right; eauto].
Qed.

Section RemovalOnBackend.
Variable doc_of : Z -> option pystr.

Lemma remove_existing cfg chat path s it :
  List.find (addressed doc_of path) (items s) = Some it ->
  let s1 := with_items s
              (List.filter (fun i => negb (addressed doc_of path i)) (items s))
              (next_id s) in
  run (strapi doc_of) (remove_item cfg chat path) s
  = Build_run_result (strapi doc_of) _ (Returned tt) (snd (deliver s1))
      [Ev (Http (DeleteCartItem path)) (Response 204 tt);
       Ev (Http (PutCartItem path 0%float)) (Response 404 None);
       Ev (Tg (ReplyText chat TxtRemoved None)) (TgOk (next_msg s))].
Proof.
  intros Hfind s1.
  unfold remove_item, delete_cart_item, hide_cart_item, update_cart_item_qty,
    http, log, tg.
  cbn [bind try_except run respond strapi serve]. rewrite Hfind.
  cbn [bind try_except run fst snd].
  change (204 =? 404) with false. change (ge400 204) with false.
  cbn [bind try_except run respond strapi serve when fst snd items with_items].
  rewrite find_filter_out. reflexivity.
Qed.

Lemma remove_missing cfg chat path s :
  List.find (addressed doc_of path) (items s) = None ->
  run (strapi doc_of) (remove_item cfg chat path) s
  = Build_run_result (strapi doc_of) _ (Returned tt) (snd (deliver s))
      [Ev (Http (DeleteCartItem path)) (Response 404 tt);
       Ev (Log Warning LogItemDeleteNotFound) tt;
       Ev (Http (PutCartItem path 0%float)) (Response 404 None);
       Ev (Tg (ReplyText chat TxtAlreadyRemoved None)) (TgOk (next_msg s))].
Proof.
  intros Hfind.
  unfold remove_item, delete_cart_item, hide_cart_item, update_cart_item_qty,
    http, log, tg.
  cbn [bind try_except run respond strapi serve]. rewrite Hfind.
  cbn [bind try_except run fst snd].
  change (404 =? 404) with true.
  cbn [bind try_except run respond strapi serve when fst snd items with_items].
  rewrite Hfind. reflexivity.
Qed.

Lemma remove_item_items cfg chat path s :
  items (final (run (strapi doc_of) (remove_item cfg chat path) s))
  = List.filter (fun i => negb (addressed doc_of path i)) (items s).
Proof.
  destruct (List.find (addressed doc_of path) (items s)) as [it|] eqn:Hfind.
  - pose proof (remove_existing cfg chat path s it Hfind) as Hr.
    cbv zeta in Hr. rewrite Hr. reflexivity.
  - rewrite (remove_missing cfg chat path s Hfind).
    cbn [final deliver snd items].
    symmetry. apply filter_all. intros x Hx.
    now rewrite (find_none_forall _ _ Hfind x Hx).
Qed.

(** X13: on the sequential backend a removal leaves no record under the
    address it was asked to remove and keeps every other record; it sends
    the delete and the hide, and tells the user that the item was removed
    when a record was there, and that it was already removed otherwise. *)
Theorem removal_on_backend cfg chat path s :
  let r := run (strapi doc_of) (remove_item cfg chat path) s in
  items (final r)
  = List.filter (fun i => negb (addressed doc_of path i)) (items s)
  /\ (forall it, In it (items (final r)) -> addressed doc_of path it = false)
  /\ requests_of (trace r) = [DeleteCartItem path; PutCartItem path 0%float]
  /\ tg_calls_of (trace r)
     = [ReplyText chat
          (match List.find (addressed doc_of path) (items s) with
           | Some _ => TxtRemoved
           | None => TxtAlreadyRemoved
           end) None].
Proof.
  intros r. pose proof (remove_item_items cfg chat path s) as H1. fold r in H1.
  split; [exact H1|]. split.
  - intros it Hin. rewrite H1 in Hin. apply filter_In in Hin as [_ Hn].
    now apply negb_true_iff in Hn.
  - destruct (List.find (addressed doc_of path) (items s)) as [it|] eqn:Hfind.
    + pose proof (remove_existing cfg chat path s it Hfind) as Hr.
      cbv zeta in Hr. fold r in Hr. rewrite Hr. split; reflexivity.
    + pose proof (remove_missing cfg chat path s Hfind) as Hr.
      fold r in Hr. rewrite Hr. split; reflexivity.
Qed.

(** X14: on the sequential backend, the cart view rendered after a removal
    has no removal button for the removed identifier. *)
Theorem removed_item_not_rendered cfg chat path s cid :
  let s' := final (run (strapi doc_of) (remove_item cfg chat path) s) in
  let raw := listed doc_of s' cid in
  fst (respond (strapi doc_of) (Http (ListCartItems cid)) s') = Response 200 raw
  /\ forall row b,
       In row (cv_buttons (render_cart (List.filter visible raw))) ->
       In b row ->
       callback_data b <> lit "remove_item_" ++ path.
Proof.
  intros s' raw. split; [reflexivity|].
  intros row b Hrow Hb.
  destruct (render_cart_shown (List.filter visible raw)) as (_ & Hbtn & _).
  rewrite Hbtn in Hrow. apply in_map_iff in Hrow as ([i v] & <- & Hshown).
  cbn [snd remove_button In] in Hb. destruct Hb as [<- | []].
  cbn [callback_data btn].
  unfold shown in Hshown. apply filter_In in Hshown as [Hen _].
  apply enumerate_In in Hen. apply filter_In in Hen as [Hraw _].
  unfold raw, listed in Hraw. apply in_map_iff in Hraw as (it & <- & Hit).
  apply filter_In in Hit as [Hit _].
  unfold s' in Hit. rewrite remove_item_items in Hit.
  apply filter_In in Hit as [_ Hgone]. apply negb_true_iff in Hgone.
  rewrite view_address.
  intros Heq. apply app_inv_head in Heq.
  unfold addressed in Hgone. apply eqb_neq in Hgone. congruence.
Qed.

(** X15: on the sequential backend, two upserts of the contact of a chat
    that had none leave exactly one client record for the chat, with the
    e-mail of the second: the first creates the record, the second finds it
    and updates it. *)
Theorem upsert_keeps_one_client cfg tg_id email1 email2 s :
  next_id s <> 0 ->
  fresh_clients s ->
  List.filter (client_of tg_id) (clients s) = [] ->
  let E := strapi doc_of in
  let r1 := run E (create_or_update_client cfg tg_id email1) s in
  let r2 := run E (create_or_update_client cfg tg_id email2) (final r1) in
  List.filter (client_of tg_id) (clients (final r1))
  = [ {| cl_id := next_id s; cl_tg := tg_id; cl_email := email1 |} ]
  /\ requests_of (trace r1) = [GetClients tg_id; PostClient tg_id email1]
  /\ List.filter (client_of tg_id) (clients (final r2))
     = [ {| cl_id := next_id s; cl_tg := tg_id; cl_email := email2 |} ]
  /\ requests_of (trace r2)
     = [GetClients tg_id; PutClient (next_id s) email2].
Proof.
  intros Hnz Hfresh Hf E r1 r2. subst E r2 r1.
  set (c1 := {| cl_id := next_id s; cl_tg := tg_id; cl_email := email1 |}).
  assert (Hown : client_of tg_id c1 = true) by apply eqb_refl.
  assert (Hold : forall c, In c (clients s) -> (cl_id c =? next_id s) = false).
  { intros c Hc. apply Z.eqb_neq. specialize (Hfresh c Hc). lia. }
  assert (Hr1 : run (strapi doc_of) (create_or_update_client cfg tg_id email1) s
                = Build_run_result (strapi doc_of) _
                    (Returned (Some (client_view c1)))
                    (with_clients s (clients s ++ [c1]) (next_id s + 1))
                    [Ev (Http (GetClients tg_id)) (Response 200 []);
                     Ev (Http (PostClient tg_id email1))
                        (Response 201 (Some (client_view c1)))]).
  { unfold create_or_update_client, find_client_by_tg, create_client, http.
    cbn [bind run respond strapi serve]. fold (client_of tg_id). rewrite Hf.
    reflexivity. }
  rewrite Hr1. cbn [final trace clients with_clients].
  assert (Hf1 : List.filter (client_of tg_id) (clients s ++ [c1]) = [c1]).
  { rewrite List.filter_app, Hf. cbn [List.filter app]. now rewrite Hown. }
  split; [exact Hf1|]. split; [reflexivity|].
  assert (Hfind : List.find (fun c => cl_id c =? next_id s) (clients s ++ [c1])
                  = Some c1).
  { rewrite find_app, (find_none_all _ _ Hold). cbn [List.find cl_id c1].
    now rewrite Z.eqb_refl. }
  assert (Htruthy : truthy_int (Some (next_id s)) = true).
  { cbn [truthy_int]. apply negb_true_iff. now apply Z.eqb_neq. }
  unfold create_or_update_client, find_client_by_tg, update_client, http.
  cbn [bind run respond strapi serve clients with_clients].
  fold (client_of tg_id). rewrite Hf1.
  cbn [bind run List.map head fst snd].
  change (ge400 200) with false. change (raise_for_status 200) with (Ret tt).
  cbn [when bind run client_view cl_id c1 client_id]. rewrite Htruthy.
  cbn [from_option id bind run respond strapi serve clients with_clients].
  rewrite Hfind.
  cbn [bind run fst snd].
  change (ge400 200) with false. change (raise_for_status 200) with (Ret tt).
  cbn [when bind run final trace clients with_clients].
  split; [|reflexivity].
  rewrite List.map_app, List.filter_app.
  rewrite (map_ext_in _ (fun c => c) (clients s))
    by (intros c Hc; now rewrite (Hold c Hc)).
  rewrite List.map_id, Hf. cbn [List.map cl_id c1]. rewrite Z.eqb_refl.
  cbn [List.filter app cl_tg c1]. unfold client_of at 1. cbn [cl_tg].
  now rewrite eqb_refl.
Qed.

End RemovalOnBackend.

(** * The product card and the buttons without a backend call *)

Section ProductCard.
Context `{PyBuiltins}.

(** The card of [handle_menu]: sent as a photo, or as a text when there is
    no image or the photo could not be sent. *)
(** X12: a press of a product button in the menu, with a payload that
    [int] reads as [pid], never raises while Telegram delivers.  When the
    product cannot be fetched, the user is told so and the state stays
    [HANDLE_MENU].  Otherwise the menu message is deleted and the card of
    the product is sent: as a photo when the product has an image URL and
    the image request is answered without error, as a text when it has no
    image URL (then no image is requested) or the image request failed.
    The state becomes [HANDLE_DESCRIPTION]; the id that Telegram gave to
    the card and the id of the product are remembered. *)
Theorem product_button_shows_card (E : env) cfg data m ud w pid :
  reliable_tg E ->
  data <> lit "no_products" -> data <> lit "show_cart" ->
  py_int data = Some pid ->
  let chat := chat_id m in
  let r := run E (handle_menu cfg (UpdCallback data m) ud) w in
  let w1 := snd (respond E (Tg AnswerCallback) w) in
  match fst (respond E (Http (GetProducts (Some pid))) w1) with
  | Response st (pd :: _) =>
      if raises st then
        yields r (Returned (STATE_HANDLE_MENU, ud))
               [AnswerCallback; ReplyText chat TxtNoProductData None]
      else
        let p := make_product cfg pid pd in
        let caption := TxtCard (p_title p) (p_price p) (p_description p) in
        let kb :=
          Some [ [ btn LblAddToCart (lit "add_" ++ fmt_opt_int (p_id p)) ];
                 [ btn LblMyCart (lit "show_cart") ];
                 [ btn LblBackToMenu (lit "back_to_menu") ] ] in
        let text_card := SendMessage chat caption kb in
        let menu_id :=
          if truthy_int (last_menu_msg_id ud)
          then default 0 (last_menu_msg_id ud) else message_id m in
        exists card mid,
          last (trace r) = Some (Ev (Tg card) (TgOk mid))
          /\ tg_calls_of (trace r)
             = [AnswerCallback; DeleteMessage chat menu_id; card]
          /\ out r = Returned
                       (STATE_HANDLE_DESCRIPTION,
                        {| last_menu_msg_id := last_menu_msg_id ud;
                           last_card_msg_id := Some mid;
                           last_product_id := p_id p |})
          /\ match p_image_url p with
             | [] =>
                 card = text_card
                 /\ requests_of (trace r) = [GetProducts (Some pid)]
             | url =>
                 requests_of (trace r) = [GetProducts (Some pid); GetImage url]
                 /\ exists ires,
                      answered image_answer (trace r) = Some ires
                      /\ card = match ires with
                                | Response st' photo =>
                                    if raises st' then text_card
                                    else SendPhoto chat photo caption kb
                                | ConnError => text_card
                                end
             end
  | _ =>
      yields r (Returned (STATE_HANDLE_MENU, ud))
             [AnswerCallback; ReplyText chat TxtNoProductData None]
  end.
Proof.
  intros HT H1 H2 Hint chat r w1. subst w1.
  apply eqb_neq in H1, H2.
  destruct (HT AnswerCallback w) as [mid0 Hmid0].
  destruct (respond E (Tg AnswerCallback) w) as [res0 w0] eqn:Hans.
  cbn [fst snd] in *. subst res0.
  destruct (respond E (Http (GetProducts (Some pid))) w0) as [res1 w1] eqn:Hprod.
  cbn [fst].
  destruct res1 as [|st [|pd rest]];
    [| |destruct (raises st) eqn:Hst; unfold raises in Hst].
  all: pattern r; match goal with |- ?P _ => set (Post := P) end.
  all: unfold r, handle_menu; rewrite H1, H2, Hint; cbv zeta; fold chat.
  all: unfold product_card_keyboard, get_product_by_id, answer, http, log, tg,
         raise_for_status.
  all: exec_all HT.
  all: unfold Post; cbn beta zeta; cbn [out trace final].
  all: try (split; reflexivity).
  all: repeat match goal with
              | Heq : p_image_url _ = _ |- _ => rewrite Heq
              end.
  all: eexists _, _; repeat split; try reflexivity.
  all: eexists; split; [reflexivity|].
  all: unfold raises; close_with_facts; cbn [andb]; reflexivity.
Qed.

End ProductCard.

(** X16: the buttons [pay] of the cart and any button pressed while an
    e-mail is awaited are served without a request to the backend: [pay]
    asks for the e-mail and moves to [WAITING_EMAIL] whatever the cart
    holds; a button press in [WAITING_EMAIL] asks for a plain message and
    stays there. *)
Theorem buttons_without_backend (E : env) cfg data m ud w :
  reliable_tg E ->
  (yields (run E (handle_cart cfg (UpdCallback (lit "pay") m) ud) w)
          (Returned (STATE_WAITING_EMAIL, ud))
          [AnswerCallback; ReplyText (chat_id m) TxtAskEmail None]
   /\ requests_of
        (trace (run E (handle_cart cfg (UpdCallback (lit "pay") m) ud) w)) = [])
  /\ (yields (run E (handle_waiting_email cfg (UpdCallback data m) ud) w)
             (Returned (STATE_WAITING_EMAIL, ud))
             [AnswerCallback; ReplyText (chat_id m) TxtSendEmailAsText None]
      /\ requests_of
           (trace (run E (handle_waiting_email cfg (UpdCallback data m) ud) w))
         = []).
Proof.
  intros HT. split.
  - unfold handle_cart.
    change (eqb (lit "pay") (lit "back_to_menu")) with false.
    change (eqb (lit "pay") (lit "pay")) with true.
    unfold answer, tg. cbn [bind run]. tg_ok HT. cbn [bind run]. tg_ok HT.
    repeat split.
  - unfold handle_waiting_email, answer, tg. cbn [bind run]. tg_ok HT.
    cbn [bind run]. tg_ok HT. repeat split.
Qed.

(** * Instances of the further properties *)

Lemma stored_labels_stay_recognized_witness :
  let db := <[7 := STATE_HANDLE_CART]> (∅ : gmap Z pystr) in
  let db' := <[7 := STATE_WAITING_EMAIL]> db in
  map_Forall (fun _ label => recognized label) db
  /\ out (run (strapi no_docs)
            (handle_users_reply cfg0 (button_press 7 "pay") db ud0)
            empty_store)
     = Returned (db', ud0)
  /\ map_Forall (fun _ label => recognized label) db'.
Proof.
  cbv zeta.
  assert (Hdb : map_Forall (fun (_ : Z) label => recognized label)
                  (<[7 := STATE_HANDLE_CART]> (∅ : gmap Z pystr))).
  { apply map_Forall_insert_2; [|apply map_Forall_empty].
    unfold recognized. simpl. auto 6. }
  assert (Hr : out (run (strapi no_docs)
                      (handle_users_reply cfg0 (button_press 7 "pay")
                         (<[7 := STATE_HANDLE_CART]> ∅) ud0) empty_store)
               = Returned (<[7 := STATE_WAITING_EMAIL]>
                             (<[7 := STATE_HANDLE_CART]> ∅), ud0))
    by (vm_compute; reflexivity).
  split; [exact Hdb|]. split; [exact Hr|].
  exact (stored_labels_stay_recognized (strapi no_docs) cfg0
           (button_press 7 "pay") (<[7 := STATE_HANDLE_CART]> ∅) ud0
           empty_store _ _ Hdb Hr).
Defined.

Lemma start_command_restarts_witness :
  let db := <[7 := STATE_WAITING_EMAIL]> (∅ : gmap Z pystr) in
  let r := run (strapi no_docs)
             (handle_users_reply cfg0 (UpdMessage (text_message 7 "/start"))
                db ud0) fish_store in
  let greeting :=
    ReplyText 7 TxtHello
      (Some [ [ btn (LblTitle (lit "Salmon")) (lit "7") ];
              [ btn LblMyCart (lit "show_cart") ] ]) in
  reliable_tg (strapi no_docs)
  /\ exists lg mid,
       out r = Returned (<[7 := STATE_HANDLE_MENU]> db,
                         {| last_menu_msg_id := Some mid;
                            last_card_msg_id := None;
                            last_product_id := None |})
       /\ trace r
          = Ev (Http (GetProducts None)) (Response 200 [fish])
            :: lg ++ [Ev (Tg greeting) (TgOk mid)]
       /\ catalog_log lg
       /\ tg_calls_of (trace r) = [greeting].
Proof.
  cbv zeta.
  assert (HT : reliable_tg (strapi no_docs))
    by (intros c w; exists (next_msg w); reflexivity).
  split; [exact HT|].
  exact (start_command_restarts (strapi no_docs) cfg0
           (text_message 7 "/start") (<[7 := STATE_WAITING_EMAIL]> ∅) ud0
           fish_store HT eq_refl).
Defined.

Lemma add_button_stays_in_description_witness :
  let m := text_message 7 "" in
  reliable_tg (strapi no_docs)
  /\ startswith (lit "add_") (lit "add_7") = true
  /\ exists t,
       yields (run (strapi no_docs)
                 (handle_description cfg0 (UpdCallback (lit "add_7") m) ud0)
                 fish_store)
              (Returned (STATE_HANDLE_DESCRIPTION, ud0))
              [AnswerCallback; ReplyText 7 t None]
       /\ (t = TxtUnknownAdd \/ t = TxtProductGone \/ t = TxtAddFailed
           \/ exists pid q,
                py_int (drop 4 (lit "add_7")) = Some pid /\ t = TxtAdded pid q).
Proof.
  cbv zeta.
  assert (HT : reliable_tg (strapi no_docs))
    by (intros c w; exists (next_msg w); reflexivity).
  split; [exact HT|]. split; [reflexivity|].
  exact (add_button_stays_in_description (strapi no_docs) cfg0 (lit "add_7")
           (text_message 7 "") ud0 fish_store HT eq_refl).
Defined.

Lemma product_button_shows_card_witness :
  let m := text_message 7 "" in
  let r := run (strapi no_docs)
             (handle_menu cfg0 (UpdCallback (lit "7") m) ud0) fish_store in
  let caption := TxtCard (lit "Salmon") 10%float (lit "Fresh") in
  let kb := Some [ [ btn LblAddToCart (lit "add_7") ];
                   [ btn LblMyCart (lit "show_cart") ];
                   [ btn LblBackToMenu (lit "back_to_menu") ] ] in
  reliable_tg (strapi no_docs)
  /\ py_int (lit "7") = Some 7
  /\ exists card mid,
       last (trace r) = Some (Ev (Tg card) (TgOk mid))
       /\ tg_calls_of (trace r) = [AnswerCallback; DeleteMessage 7 10; card]
       /\ out r = Returned (STATE_HANDLE_DESCRIPTION,
                            {| last_menu_msg_id := None;
                               last_card_msg_id := Some mid;
                               last_product_id := Some 7 |})
       /\ requests_of (trace r)
          = [GetProducts (Some 7);
             GetImage (lit "http://localhost:1337/uploads/medium_salmon.jpg")]
       /\ exists ires,
            answered image_answer (trace r) = Some ires
            /\ card = match ires with
                      | Response st' photo =>
                          if raises st' then SendMessage 7 caption kb
                          else SendPhoto 7 photo caption kb
                      | ConnError => SendMessage 7 caption kb
                      end.
Proof.
  cbv zeta.
  assert (HT : reliable_tg (strapi no_docs))
    by (intros c w; exists (next_msg w); reflexivity).
  split; [exact HT|]. split; [reflexivity|].
  destruct (product_button_shows_card (strapi no_docs) cfg0 (lit "7")
              (text_message 7 "") ud0 fish_store 7 HT
              ltac:(discriminate) ltac:(discriminate) eq_refl)
    as (card & mid & Hlast & Hcalls & Ho & Hreq & Himg).
  exists card, mid.
  split; [exact Hlast|]. split; [exact Hcalls|]. split; [exact Ho|].
  split; [exact Hreq | exact Himg].
Defined.

Lemma upsert_keeps_one_client_witness :
  let E := strapi no_docs in
  let r1 := run E (create_or_update_client cfg0 (of_Z 7) (lit "a@b.c"))
              empty_store in
  let r2 := run E (create_or_update_client cfg0 (of_Z 7) (lit "d@e.f"))
              (final r1) in
  fresh_clients empty_store
  /\ clients (final r2)
     = [ {| cl_id := 1; cl_tg := of_Z 7; cl_email := lit "d@e.f" |} ]
  /\ requests_of (trace r2) = [GetClients (of_Z 7); PutClient 1 (lit "d@e.f")].
Proof.
  cbv zeta.
  assert (Hfresh : fresh_clients empty_store) by (intros c []).
  split; [exact Hfresh|]. split; [vm_compute; reflexivity|].
  destruct (upsert_keeps_one_client no_docs cfg0 (of_Z 7) (lit "a@b.c")
              (lit "d@e.f") empty_store ltac:(discriminate) Hfresh eq_refl)
    as (_ & _ & _ & Hreq).
  exact Hreq.
Defined.

Lemma buttons_without_backend_witness :
  let m := text_message 7 "" in
  reliable_tg (status_env 500)
  /\ yields (run (status_env 500)
               (handle_cart cfg0 (UpdCallback (lit "pay") m) ud0) tt)
            (Returned (STATE_WAITING_EMAIL, ud0))
            [AnswerCallback; ReplyText 7 TxtAskEmail None].
Proof.
  cbv zeta.
  assert (HT : reliable_tg (status_env 500))
    by (intros c w; exists 1; reflexivity).
  split; [exact HT|].
  destruct (buttons_without_backend (status_env 500) cfg0 (lit "pay")
              (text_message 7 "") ud0 tt HT) as ((Hpay & _) & _).
  exact Hpay.
Defined.
